(** * Subject Hierarchy Explorer: the co-occurrence engine of [app.py]

    A shallow embedding of [CooccurrenceEngine] and of the two routes that
    add logic of their own ([api_concept_tree], [api_export_yaml]).

    Modelling conventions.
    - A Python [str] is a [string]; a character stands for the code point of
      the same number (the Latin-1 block), and [lower], [strip] and [in]
      follow [str.lower], [str.strip] and substring search on that block.
    - A JSON number is the rational it denotes ([Z] for the integer fields,
      [Q] for the probabilities and the asymmetry); Python compares numbers
      by value, so [<] and [>=] are the comparisons of [Z] and [Q].  The
      values [NaN] and [Infinity], which are not JSON, are left out of the
      data.  A float that a route reads with [float(...)], or computes, is a
      [PyFloat]: a rational, an infinity or [nan]; [b64] is the rounding of
      binary64 arithmetic (to nearest, ties to even).
    - A [dict] is an association list in insertion order, which is the order
      [items()] and [for k in d] walk it in.
    - [list.sort(key=..., reverse=...)] is the runtime's stable sort.  It is
      modelled by a stable insertion sort; [list_sort_unique] shows that the
      stable sorted arrangement of a list is unique, so every stable sort
      computes the same list. *)

From Stdlib Require Import List String Ascii ZArith NArith QArith Bool Lia.
From Stdlib Require Import Qround Qabs Lqa Permutation Sorted Arith.
From Stdlib Require Import DecimalString.
Import ListNotations.

(* ------------------------------------------------------------------ *)
(** ** Python strings *)

Module PyStr.

Definition isspace (c : ascii) : bool :=
  let n := N_of_ascii c in
  (((9 <=? n) && (n <=? 13)) || ((28 <=? n) && (n <=? 32))
   || (n =? 133) || (n =? 160))%N.

Definition is_upper (c : ascii) : bool :=
  let n := N_of_ascii c in
  (((65 <=? n) && (n <=? 90))
   || ((192 <=? n) && (n <=? 222) && negb (n =? 215)))%N.

Definition lower_char (c : ascii) : ascii :=
  if is_upper c then ascii_of_N (N_of_ascii c + 32) else c.

Fixpoint lower (s : string) : string :=
  match s with
  | EmptyString => EmptyString
  | String c s' => String (lower_char c) (lower s')
  end.

Fixpoint lstrip (s : string) : string :=
  match s with
  | EmptyString => EmptyString
  | String c s' => if isspace c then lstrip s' else s
  end.

Fixpoint rstrip (s : string) : string :=
  match s with
  | EmptyString => EmptyString
  | String c s' =>
      match rstrip s' with
      | EmptyString => if isspace c then EmptyString else String c EmptyString
      | t => String c t
      end
  end.

Definition strip (s : string) : string := rstrip (lstrip s).

(** [bool(s)]: a string is truthy unless it is empty. *)
Definition truthy (s : string) : bool :=
  match s with EmptyString => false | _ => true end.

(** [needle in hay]. *)
Fixpoint contains (needle hay : string) : bool :=
  prefix needle hay ||
  match hay with
  | EmptyString => false
  | String _ hay' => contains needle hay'
  end.

(** What [needle in hay] means. *)
Definition is_substring (needle hay : string) : Prop :=
  exists pre post, hay = (pre ++ needle ++ post)%string.

(** [str] comparison: lexicographic on code points. *)
Definition le (a b : string) : bool := String.leb a b.

Definition all_space (s : string) : bool :=
  forallb isspace (list_ascii_of_string s).

End PyStr.

(* ------------------------------------------------------------------ *)
(** ** Python numbers *)

Definition Qltb (a b : Q) : bool := negb (Qle_bool b a).
Definition Qgeb (a b : Q) : bool := Qle_bool b a.

(** A float that is not read from the data: what [float(...)] makes of a
    query parameter, or what an operation returns.  A finite one is the
    rational it denotes. *)
Inductive PyFloat :=
| Finite (q : Q)
| PosInf
| NegInf
| NaN.

Coercion Finite : Q >-> PyFloat.

(** [v < m] for a number [v] of the data and a float [m]. *)
Definition num_lt (v : Q) (m : PyFloat) : bool :=
  match m with
  | Finite q => Qltb v q
  | PosInf => true
  | NegInf => false
  | NaN => false
  end.

(** [v >= m]. *)
Definition num_ge (v : Q) (m : PyFloat) : bool :=
  match m with
  | Finite q => Qgeb v q
  | PosInf => false
  | NegInf => true
  | NaN => false
  end.

(* ------------------------------------------------------------------ *)
(** ** [list.sort(key=..., reverse=...)] and slices *)

Section ListSort.
Context {A K : Type}.
Variable kle : K -> K -> bool.
Variable key : A -> K.
Variable reverse : bool.

(** [a] may stand before [b] in the sorted list. *)
Definition before (a b : A) : bool :=
  if reverse then kle (key b) (key a) else kle (key a) (key b).

(** A set of elements any two of which may stand in either order: a class of
    equal keys, or a part of one. *)
Definition tied (P : A -> bool) : Prop :=
  forall a b, P a = true -> P b = true -> before a b = true.

Fixpoint insert (x : A) (l : list A) : list A :=
  match l with
  | [] => [x]
  | y :: l' => if before x y then x :: l else y :: insert x l'
  end.

Fixpoint list_sort (l : list A) : list A :=
  match l with
  | [] => []
  | x :: l' => insert x (list_sort l')
  end.
End ListSort.

(** [l[:limit]], with Python's reading of a negative bound. *)
Definition slice_to {A : Type} (l : list A) (limit : Z) : list A :=
  if (0 <=? limit)%Z then firstn (Z.to_nat limit) l
  else firstn (Z.to_nat (Z.of_nat (List.length l) + limit)) l.

(* ------------------------------------------------------------------ *)
(** ** Data model *)

Record Relationship := mkRel {
  narrower_id : string;
  broader_id : string;
  narrower_name : string;
  broader_name : string;
  narrower_count : Z;
  broader_count : Z;
  cooc_count : Z;
  p_broader_given_narrower : Q;
  p_narrower_given_broader : Q;
  asymmetry : Q
}.

Record CooccurrenceEngine := mkEngine {
  concept_names : list (string * string);
  concept_counts : list (string * Z);
  total_citations : Z;
  relationships : list Relationship
}.

(** [d.get(k)] on an insertion-ordered dict. *)
Fixpoint dict_get {V : Type} (d : list (string * V)) (k : string) : option V :=
  match d with
  | [] => None
  | (k', v) :: d' => if String.eqb k' k then Some v else dict_get d' k
  end.

(* ------------------------------------------------------------------ *)
(** ** [get_filtered_relationships] *)

Section FilteredRelationships.
Variable self : CooccurrenceEngine.
Variables (min_narrower_count min_cooc : Z).
Variables (min_p_broader min_asymmetry : PyFloat).
Variable concept_filter : option string.

Definition concept_filter_lower : option string :=
  match concept_filter with
  | Some f => if PyStr.truthy f then Some (PyStr.strip (PyStr.lower f)) else None
  | None => None
  end.

(** The body of the [for] loop: [true] when [r] reaches [results.append]. *)
Definition keeps (r : Relationship) : bool :=
  if (narrower_count r <? min_narrower_count)%Z then false
  else if (cooc_count r <? min_cooc)%Z then false
  else if num_lt (p_broader_given_narrower r) min_p_broader then false
  else if num_lt (asymmetry r) min_asymmetry then false
  else
    match concept_filter_lower with
    | Some f =>
        if PyStr.truthy f then
          if negb (PyStr.contains f (PyStr.lower (narrower_name r)))
             && negb (PyStr.contains f (PyStr.lower (broader_name r)))
          then false else true
        else true
    | None => true
    end.

Definition filtered : list Relationship := filter keeps (relationships self).

Definition sorted_results (sort_by : string) (sort_desc : bool)
  : list Relationship :=
  let results := filtered in
  let reverse := sort_desc in
  if String.eqb sort_by "asymmetry" then
    list_sort Qle_bool asymmetry reverse results
  else if String.eqb sort_by "p_broader_given_narrower" then
    list_sort Qle_bool p_broader_given_narrower reverse results
  else if String.eqb sort_by "cooc_count" then
    list_sort Z.leb cooc_count reverse results
  else if String.eqb sort_by "narrower_name" then
    list_sort PyStr.le (fun r => PyStr.lower (narrower_name r)) reverse results
  else if String.eqb sort_by "broader_name" then
    list_sort PyStr.le (fun r => PyStr.lower (broader_name r)) reverse results
  else results.

Definition get_filtered_relationships (sort_by : string) (sort_desc : bool)
    (limit : Z) : list Relationship * Z :=
  let results := sorted_results sort_by sort_desc in
  (slice_to results limit, Z.of_nat (List.length results)).
End FilteredRelationships.

(* ------------------------------------------------------------------ *)
(** ** Exceptions *)

Inductive PyExn :=
| KeyError (k : string)
| TypeError
| FileNotFoundError
| OSError
| JSONDecodeError
| RecursionError.

Inductive result (A : Type) :=
| Ok (a : A)
| Raise (e : PyExn).
Arguments Ok {A} a.
Arguments Raise {A} e.

Definition bind {A B : Type} (m : result A) (f : A -> result B) : result B :=
  match m with
  | Ok a => f a
  | Raise e => Raise e
  end.

Notation "x <- m ;; k" := (bind m (fun x => k))
  (at level 61, m at next level, right associativity).

(** [d[k]]. *)
Definition dict_item {V : Type} (d : list (string * V)) (k : string) : result V :=
  match dict_get d k with
  | Some v => Ok v
  | None => Raise (KeyError k)
  end.

(** [d[k].append(x)] on a [defaultdict(list)]. *)
Fixpoint dict_append {V : Type} (d : list (string * list V)) (k : string) (x : V)
  : list (string * list V) :=
  match d with
  | [] => [(k, [x])]
  | (k', l) :: d' =>
      if String.eqb k' k then (k', l ++ [x]) :: d'
      else (k', l) :: dict_append d' k x
  end.

(** A [set] of strings; only membership is ever asked of it. *)
Definition set_mem (x : string) (s : list string) : bool :=
  existsb (String.eqb x) s.
Definition set_add (x : string) (s : list string) : list string :=
  if set_mem x s then s else x :: s.

(* ------------------------------------------------------------------ *)
(** ** [get_concept_tree] and its route *)

Record Suggestion := mkSuggestion {
  sg_id : string;
  sg_name : string;
  sg_count : Z
}.

Inductive ConceptTree :=
| SuggestionsResponse (suggestions : list Suggestion)
    (broader narrower symmetric : list Relationship)
| Neighbourhood (concept_id concept_name : string) (concept_count : Z)
    (broader narrower symmetric : list Relationship).

(** The float literal [0.2]: the binary64 number nearest to one fifth. *)
Definition float_0_2 : Q := 3602879701896397 # 18014398509481984.

Section ConceptTreeQuery.
Variable self : CooccurrenceEngine.

(** First loop: the first concept whose lowered name equals the query. *)
Fixpoint find_exact (names : list (string * string)) (q : string)
  : option string :=
  match names with
  | [] => None
  | (cbid, name) :: rest =>
      if String.eqb (PyStr.lower name) q then Some cbid
      else find_exact rest q
  end.

(** Second loop: every concept whose lowered name contains the query. *)
Fixpoint collect_matches (names : list (string * string)) (q : string)
  : list Suggestion :=
  match names with
  | [] => []
  | (cbid, name) :: rest =>
      if PyStr.contains q (PyStr.lower name) then
        mkSuggestion cbid name
          (match dict_get (concept_counts self) cbid with
           | Some c => c
           | None => 0%Z
           end)
        :: collect_matches rest q
      else collect_matches rest q
  end.

Variables (min_p_broader min_asymmetry : Q) (min_cooc min_count : Z).

Definition passes_filters (r : Relationship) : bool :=
  (min_cooc <=? cooc_count r)%Z && (min_count <=? narrower_count r)%Z.

Definition directional (r : Relationship) : bool :=
  Qgeb (p_broader_given_narrower r) min_p_broader
  && Qgeb (asymmetry r) min_asymmetry.

(** First pass over the relationships: what reaches [broader.append]. *)
Definition in_broader (cid : string) (r : Relationship) : bool :=
  if negb (passes_filters r) then false
  else if String.eqb (narrower_id r) cid then directional r
  else false.

(** First pass: what reaches [narrower.append] (the [elif] branch). *)
Definition in_narrower (cid : string) (r : Relationship) : bool :=
  if negb (passes_filters r) then false
  else if String.eqb (narrower_id r) cid then false
  else if String.eqb (broader_id r) cid then directional r
  else false.

(** Second pass: what reaches [symmetric.append]. *)
Definition in_symmetric (cid : string) (r : Relationship) : bool :=
  if (cooc_count r <? min_cooc)%Z then false
  else if String.eqb (narrower_id r) cid || String.eqb (broader_id r) cid then
    Qltb (asymmetry r) min_asymmetry
    && Qgeb (p_broader_given_narrower r) float_0_2
  else false.

Definition get_concept_tree (concept_name : string) : result ConceptTree :=
  let concept_name_lower := PyStr.strip (PyStr.lower concept_name) in
  let concept_id := find_exact (concept_names self) concept_name_lower in
  let suggest :=
    let matches := collect_matches (concept_names self) concept_name_lower in
    let matches := list_sort Z.leb sg_count true matches in
    Ok (SuggestionsResponse (slice_to matches 20) [] [] []) in
  match concept_id with
  | None => suggest
  | Some cid =>
      if negb (PyStr.truthy cid) then suggest
      else
        let broader := filter (in_broader cid) (relationships self) in
        let narrower := filter (in_narrower cid) (relationships self) in
        let symmetric := filter (in_symmetric cid) (relationships self) in
        let broader := list_sort Qle_bool p_broader_given_narrower true broader in
        let narrower := list_sort Qle_bool p_broader_given_narrower true narrower in
        let symmetric := list_sort Z.leb cooc_count true symmetric in
        name <- dict_item (concept_names self) cid ;;
        count <- dict_item (concept_counts self) cid ;;
        Ok (Neighbourhood cid name count
              (slice_to broader 50) (slice_to narrower 50)
              (slice_to symmetric 30))
  end.

(** The route: [request.args.get('concept', '')] is [concept]; the
    thresholds are the already converted query parameters. *)
Inductive HttpResponse :=
| Http400 (error : string)
| Http200 (body : ConceptTree)
| Http500 (e : PyExn).

Definition api_concept_tree (concept : string) : HttpResponse :=
  if negb (PyStr.truthy concept) then Http400 "No concept specified"
  else
    match get_concept_tree concept with
    | Ok tree => Http200 tree
    | Raise e => Http500 e
    end.
End ConceptTreeQuery.


(* ------------------------------------------------------------------ *)
(** ** [build_hierarchy_tree] *)

Record Child := mkChild {
  child_id : string;
  child_name : string;
  child_count : Z;
  child_p : Q;
  child_asymmetry : Q
}.

(** [{**child, 'children': subtree}]. *)
#[warnings="-register-all"] Inductive TreeNode :=
| Node (child : Child) (children : list TreeNode).

Record Root := mkRoot {
  root_id : string;
  root_name : string;
  root_count : Z
}.

(** [{**root, 'children': subtree}]. *)
Definition RootNode : Type := Root * list TreeNode.

Fixpoint mapM {A B : Type} (f : A -> result B) (l : list A) : result (list B) :=
  match l with
  | [] => Ok []
  | x :: l' => y <- f x ;; ys <- mapM f l' ;; Ok (y :: ys)
  end.

(** [children_of.get(node_id, [])]. *)
Definition dict_get_list {V : Type} (d : list (string * list V)) (k : string)
  : list V :=
  match dict_get d k with
  | Some l => l
  | None => []
  end.

(** The nested function.  Python recurses on its call stack; [fuel] is the
    number of nested calls the interpreter still allows, and running out of
    it is the interpreter's [RecursionError]. *)
Fixpoint build_subtree (fuel : nat) (children_of : list (string * list Child))
    (node_id : string) (depth : Z) (visited : list string)
  : result (list TreeNode) :=
  match fuel with
  | O => Raise RecursionError
  | S fuel' =>
      if set_mem node_id visited || (5 <? depth)%Z then Ok []
      else
        let visited := set_add node_id visited in
        mapM (fun child =>
                subtree <- build_subtree fuel' children_of (child_id child)
                             (depth + 1) visited ;;
                Ok (Node child subtree))
             (dict_get_list children_of node_id)
  end.

Section HierarchyTree.
Variable self : CooccurrenceEngine.
Variables (min_p_broader min_asymmetry : Q) (min_cooc min_count : Z).

Definition admitted (r : Relationship) : bool :=
  Qgeb (p_broader_given_narrower r) min_p_broader
  && Qgeb (asymmetry r) min_asymmetry
  && (min_cooc <=? cooc_count r)%Z
  && (min_count <=? narrower_count r)%Z.

Definition child_of (r : Relationship) : Child :=
  mkChild (narrower_id r) (narrower_name r) (narrower_count r)
          (p_broader_given_narrower r) (asymmetry r).

(** One turn of the first loop, on the pair [(children_of, has_parent)]. *)
Definition index_step (acc : list (string * list Child) * list string)
    (r : Relationship) : list (string * list Child) * list string :=
  if admitted r then
    (dict_append (fst acc) (broader_id r) (child_of r),
     set_add (narrower_id r) (snd acc))
  else acc.

Definition index_relationships : list (string * list Child) * list string :=
  fold_left index_step (relationships self) ([], []).

Definition sort_children (children_of : list (string * list Child))
  : list (string * list Child) :=
  map (fun kl => (fst kl, list_sort Qle_bool child_p true (snd kl))) children_of.

Fixpoint collect_roots (parents : list string) (has_parent : list string)
  : result (list Root) :=
  match parents with
  | [] => Ok []
  | parent_id :: rest =>
      if negb (set_mem parent_id has_parent) then
        name <- dict_item (concept_names self) parent_id ;;
        count <- dict_item (concept_counts self) parent_id ;;
        roots <- collect_roots rest has_parent ;;
        Ok (mkRoot parent_id name count :: roots)
      else collect_roots rest has_parent
  end.

Fixpoint grow_forest (fuel : nat) (children_of : list (string * list Child))
    (roots : list Root) : result (list RootNode) :=
  match roots with
  | [] => Ok []
  | root :: rest =>
      subtree <- build_subtree fuel children_of (root_id root) 0 [] ;;
      tree <- grow_forest fuel children_of rest ;;
      Ok (match subtree with
          | [] => tree
          | _ :: _ => (root, subtree) :: tree
          end)
  end.

Definition build_hierarchy_tree (recursion_limit : nat)
  : result (list RootNode) :=
  let children_of := sort_children (fst index_relationships) in
  let has_parent := snd index_relationships in
  roots <- collect_roots (map fst children_of) has_parent ;;
  let roots := list_sort Z.leb root_count true roots in
  grow_forest recursion_limit children_of roots.
End HierarchyTree.

(** Root-to-leaf paths of the forest, as lists of concept IDs, and the nodes
    found at a given depth (a root is at depth 0). *)
Fixpoint node_paths (t : TreeNode) : list (list string) :=
  match t with
  | Node c children =>
      match children with
      | [] => [[child_id c]]
      | _ :: _ => map (cons (child_id c)) (flat_map node_paths children)
      end
  end.

Definition root_paths (t : RootNode) : list (list string) :=
  match snd t with
  | [] => [[root_id (fst t)]]
  | _ :: _ => map (cons (root_id (fst t))) (flat_map node_paths (snd t))
  end.

Fixpoint node_ids_at (d : nat) (t : TreeNode) : list string :=
  match t with
  | Node c children =>
      match d with
      | O => [child_id c]
      | S d' => flat_map (node_ids_at d') children
      end
  end.

Definition root_ids_at (d : nat) (t : RootNode) : list string :=
  match d with
  | O => [root_id (fst t)]
  | S d' => flat_map (node_ids_at d') (snd t)
  end.

(* ------------------------------------------------------------------ *)
(** ** [load_precomputed] *)

Module Loader.

(** What [json.load] hands back.  The loader stores these values as they
    are, so at this level the engine's attributes are JSON values. *)
#[warnings="-register-all"] Inductive JSON :=
| JNull
| JBool (b : bool)
| JInt (z : Z)
| JFloat (q : Q)
| JStr (s : string)
| JArr (items : list JSON)
| JObj (members : list (string * JSON)).

(** The outcome of [open(path, 'r')] followed by [json.load(f)]. *)
Inductive ReadOutcome :=
| NoSuchFile
| Unreadable
| Malformed
| Parsed (data : JSON).

Definition FileSystem : Type := string -> ReadOutcome.

Record EngineState := mkState {
  concept_names : JSON;
  concept_counts : JSON;
  total_citations : JSON;
  relationships : JSON;
  loaded : bool
}.

(** [__init__]. *)
Definition init : EngineState :=
  mkState (JObj []) (JObj []) (JInt 0) (JArr []) false.

(** [data[k]] for a string [k]. *)
Definition subscript (data : JSON) (k : string) : result JSON :=
  match data with
  | JObj members => dict_item members k
  | _ => Raise TypeError
  end.

(** [len(v)]. *)
Definition py_len (v : JSON) : result nat :=
  match v with
  | JObj members => Ok (List.length members)
  | JArr items => Ok (List.length items)
  | JStr s => Ok (String.length s)
  | _ => Raise TypeError
  end.

(** Statements that read and write [self] and may raise. *)
Definition M (A : Type) : Type := EngineState -> EngineState * result A.

Definition ret {A : Type} (a : A) : M A := fun s => (s, Ok a).

Definition lift {A : Type} (r : result A) : M A := fun s => (s, r).

Definition assign (f : EngineState -> EngineState) : M unit :=
  fun s => (f s, Ok tt).

Definition mbind {A B : Type} (m : M A) (f : A -> M B) : M B :=
  fun s =>
    match m s with
    | (s', Ok a) => f a s'
    | (s', Raise e) => (s', Raise e)
    end.

Notation "x <~ m ;; k" := (mbind m (fun x => k))
  (at level 61, m at next level, right associativity).
Notation "m ;;; k" := (mbind m (fun _ => k))
  (at level 61, right associativity).

Definition read (fs : FileSystem) (path : string) : result JSON :=
  match fs path with
  | NoSuchFile => Raise FileNotFoundError
  | Unreadable => Raise OSError
  | Malformed => Raise JSONDecodeError
  | Parsed data => Ok data
  end.

Definition set_concept_names (v : JSON) (s : EngineState) : EngineState :=
  mkState v (concept_counts s) (total_citations s) (relationships s) (loaded s).
Definition set_concept_counts (v : JSON) (s : EngineState) : EngineState :=
  mkState (concept_names s) v (total_citations s) (relationships s) (loaded s).
Definition set_total_citations (v : JSON) (s : EngineState) : EngineState :=
  mkState (concept_names s) (concept_counts s) v (relationships s) (loaded s).
Definition set_relationships (v : JSON) (s : EngineState) : EngineState :=
  mkState (concept_names s) (concept_counts s) (total_citations s) v (loaded s).
Definition set_loaded (b : bool) (s : EngineState) : EngineState :=
  mkState (concept_names s) (concept_counts s) (total_citations s)
          (relationships s) b.

(** The [print] at the end: its f-string takes two lengths. *)
Definition report : M unit :=
  fun self =>
    (self,
     _ <- py_len (concept_names self) ;;
     _ <- py_len (relationships self) ;;
     Ok tt).

Definition load_precomputed (fs : FileSystem) (path : string) : M unit :=
  fun self =>
    if loaded self then (self, Ok tt)
    else
      (data <~ lift (read fs path) ;;
       v <~ lift (subscript data "concept_names") ;;
       assign (set_concept_names v) ;;;
       v <~ lift (subscript data "concept_counts") ;;
       assign (set_concept_counts v) ;;;
       v <~ lift (subscript data "total_citations") ;;
       assign (set_total_citations v) ;;;
       v <~ lift (subscript data "relationships") ;;
       assign (set_relationships v) ;;;
       assign (set_loaded true) ;;;
       report) self.

(** A run of calls, each with the file system as it is at that moment. *)
Fixpoint load_many (calls : list (FileSystem * string)) (self : EngineState)
  : EngineState :=
  match calls with
  | [] => self
  | (fs, path) :: rest => load_many rest (fst (load_precomputed fs path self))
  end.

Definition has_key (data : JSON) (k : string) : bool :=
  match data with
  | JObj members =>
      match dict_get members k with Some _ => true | None => false end
  | _ => false
  end.

Definition required_keys : list string :=
  ["concept_names"; "concept_counts"; "total_citations"; "relationships"]%string.

Definition has_required_keys (data : JSON) : bool :=
  forallb (has_key data) required_keys.

Definition raises {A : Type} (r : EngineState * result A) : Prop :=
  exists e, snd r = Raise e.

(** The four failures of the input: the file is missing, unreadable or not
    valid JSON, or the document lacks a required top-level key. *)
Definition bad_input (fs : FileSystem) (path : string) : Prop :=
  match fs path with
  | Parsed data => has_required_keys data = false
  | _ => True
  end.

(** A value [len] accepts. *)
Definition sized (v : JSON) : bool :=
  match v with
  | JObj _ | JArr _ | JStr _ => true
  | _ => false
  end.

Definition sized_at (data : JSON) (k : string) : bool :=
  match subscript data k with
  | Ok v => sized v
  | Raise _ => false
  end.

(** All four keys are there, but [concept_names] or [relationships] holds a
    value without a length. *)
Definition unsized_tables (fs : FileSystem) (path : string) : Prop :=
  match fs path with
  | Parsed data =>
      has_required_keys data = true
      /\ sized_at data "concept_names" && sized_at data "relationships" = false
  | _ => False
  end.

(** Sample documents and file systems. *)
Definition good_doc : JSON :=
  JObj [("concept_names"%string, JObj [("c1"%string, JStr "Astronomy")]);
        ("concept_counts"%string, JObj [("c1"%string, JInt 100)]);
        ("total_citations"%string, JInt 1000);
        ("relationships"%string, JArr [])].

Definition other_doc : JSON :=
  JObj [("concept_names"%string, JObj [("c9"%string, JStr "Zoology")]);
        ("concept_counts"%string, JObj [("c9"%string, JInt 7)]);
        ("total_citations"%string, JInt 7);
        ("relationships"%string, JArr [])].

Definition unsized_doc : JSON :=
  JObj [("concept_names"%string, JInt 1);
        ("concept_counts"%string, JObj []);
        ("total_citations"%string, JInt 0);
        ("relationships"%string, JArr [])].

Definition sample_fs : FileSystem :=
  fun path =>
    if String.eqb path "good.json" then Parsed good_doc
    else if String.eqb path "other.json" then Parsed other_doc
    else if String.eqb path "unsized.json" then Parsed unsized_doc
    else if String.eqb path "broken.json" then Malformed
    else NoSuchFile.

Definition loaded_state : EngineState :=
  fst (load_precomputed sample_fs "good.json" init).

End Loader.

(* ------------------------------------------------------------------ *)
(** ** [api_export_yaml] *)

(** The nearest integer, a tie going to the even one. *)
Definition round_half_even (x : Q) : Z :=
  let f := Qfloor x in
  let r := (x - inject_Z f)%Q in
  if Qltb r (1 # 2) then f
  else if Qltb (1 # 2) r then (f + 1)%Z
  else if Z.even f then f else (f + 1)%Z.

(** The nearest multiple of one tenth, a tie going to the even one. *)
Definition round1 (x : Q) : Q := round_half_even (x * 10) # 10.

(** [2 ** e]. *)
Definition pow2 (e : Z) : Q :=
  if (0 <=? e)%Z then inject_Z (2 ^ e) else 1 # Z.to_pos (2 ^ (- e)).

(** [floor(log2(x))] for a positive [x]. *)
Definition floor_log2 (x : Q) : Z :=
  let k := (Z.log2 (Qnum x) - Z.log2 (Zpos (Qden x)))%Z in
  if Qle_bool (pow2 k) x then k else (k - 1)%Z.

(** The exponent of the last place of the binary64 numbers around [x]:
    53 significant bits, and never below the subnormal spacing. *)
Definition b64_exponent (x : Q) : Z :=
  Z.max (floor_log2 (Qabs x) - 52) (-1074).

(** The binary64 number nearest to [x], ties to even; an infinity once the
    rounded value reaches [2 ** 1024]. *)
Definition b64 (x : Q) : PyFloat :=
  if Qeq_bool x 0 then Finite 0
  else
    let e := b64_exponent x in
    let m := round_half_even (x / pow2 e) in
    let y := Qred (inject_Z m * pow2 e) in
    if Qle_bool (pow2 1024) (Qabs y) then
      if (0 <? m)%Z then PosInf else NegInf
    else Finite y.

(** [a * b] on floats with finite operands. *)
Definition fmul (a b : Q) : PyFloat := b64 (a * b).

(** [round(x, 1)] on a float: the decimal nearest to [x], a tie going to the
    even digit, and then the float nearest to that decimal; an infinity or
    [nan] rounds to itself. *)
Definition py_round1 (x : PyFloat) : PyFloat :=
  match x with
  | Finite q => b64 (round1 q)
  | _ => x
  end.

Definition newline : string := String (ascii_of_nat 10) EmptyString.

Section TextExport.
(** [str] of a float and of an int, as an f-string prints them. *)
Variable str_float : PyFloat -> string.
Variable str_int : Z -> string.
Variable self : CooccurrenceEngine.
Variables (min_p min_asym : PyFloat) (min_cooc min_count : Z).

Definition export_results : list Relationship * Z :=
  get_filtered_relationships self min_count min_cooc min_p min_asym None
    "broader_name" false 5000.

(** [groups[r['broader_name']].append(r)] for every [r] of the page. *)
Definition group_results (results : list Relationship)
  : list (string * list Relationship) :=
  fold_left (fun groups r => dict_append groups (broader_name r) r) results [].

Definition pct (r : Relationship) : PyFloat :=
  py_round1 (fmul (p_broader_given_narrower r) 100).

Definition member_line (r : Relationship) : string :=
  ("      - " ++ narrower_name r ++ "  # " ++ str_float (pct r) ++ "%")%string.

Definition sorted_members (groups : list (string * list Relationship))
    (broader_name : string) : list Relationship :=
  list_sort Qle_bool p_broader_given_narrower true
    (dict_get_list groups broader_name).

Definition block_lines (groups : list (string * list Relationship))
    (broader_name : string) : list string :=
  [("  - broader: " ++ broader_name)%string; "    narrower:"%string]
  ++ map member_line (sorted_members groups broader_name)
  ++ [""%string].

Definition header_lines (total : Z) : list string :=
  [ "# CB Co-occurrence Relationships (Empirically Derived)"%string;
    ("# Filters: P(broader|narrower) >= " ++ str_float min_p
     ++ ", asymmetry >= " ++ str_float min_asym
     ++ ", co-occurrences >= " ++ str_int min_cooc
     ++ ", min citations >= " ++ str_int min_count)%string;
    ("# Total relationships: " ++ str_int total)%string;
    ""%string;
    "cb_cooccurrence:"%string ].

Definition sorted_keys (groups : list (string * list Relationship))
  : list string :=
  list_sort PyStr.le (fun k => k) false (map fst groups).

Definition export_lines : list string :=
  let (results, total) := export_results in
  let groups := group_results results in
  header_lines total ++ flat_map (block_lines groups) (sorted_keys groups).

Definition api_export_yaml : string := String.concat newline export_lines.
End TextExport.


(* ------------------------------------------------------------------ *)
(** ** Vocabulary of the statements *)

Section ListingSpec.
Variables (min_narrower_count min_cooc : Z) (min_p_broader min_asymmetry : Q).
Variable concept_filter : option string.

(** The four thresholds, each met on its own. *)
Definition meets_thresholds (r : Relationship) : Prop :=
  (min_narrower_count <= narrower_count r)%Z
  /\ (min_cooc <= cooc_count r)%Z
  /\ (min_p_broader <= p_broader_given_narrower r)%Q
  /\ (min_asymmetry <= asymmetry r)%Q.

(** The substring condition, asked only when a non-empty filter is given. *)
Definition meets_text_filter (r : Relationship) : Prop :=
  match concept_filter with
  | Some f =>
      f <> EmptyString ->
      let q := PyStr.strip (PyStr.lower f) in
      PyStr.is_substring q (PyStr.lower (narrower_name r))
      \/ PyStr.is_substring q (PyStr.lower (broader_name r))
  | None => True
  end.
End ListingSpec.

(** What the listing asks of a value and a float threshold: the value is
    not below it, [not (v < m)]. *)
Definition not_below (m : PyFloat) (v : Q) : Prop := num_lt v m = false.

(** What meeting a float threshold means: [v >= m]. *)
Definition reaches (m : PyFloat) (v : Q) : Prop := num_ge v m = true.

(** The four tests of the listing, as it makes them. *)
Definition passes_thresholds (min_narrower_count min_cooc : Z)
    (min_p_broader min_asymmetry : PyFloat) (r : Relationship) : Prop :=
  (min_narrower_count <= narrower_count r)%Z
  /\ (min_cooc <= cooc_count r)%Z
  /\ not_below min_p_broader (p_broader_given_narrower r)
  /\ not_below min_asymmetry (asymmetry r).

(** The four thresholds, each met. *)
Definition reaches_thresholds (min_narrower_count min_cooc : Z)
    (min_p_broader min_asymmetry : PyFloat) (r : Relationship) : Prop :=
  (min_narrower_count <= narrower_count r)%Z
  /\ (min_cooc <= cooc_count r)%Z
  /\ reaches min_p_broader (p_broader_given_narrower r)
  /\ reaches min_asymmetry (asymmetry r).

(** The five sort fields the listing knows. *)
Inductive SortField :=
| ByAsymmetry
| ByPBroader
| ByCooc
| ByNarrowerName
| ByBroaderName.

Definition field_name (f : SortField) : string :=
  match f with
  | ByAsymmetry => "asymmetry"
  | ByPBroader => "p_broader_given_narrower"
  | ByCooc => "cooc_count"
  | ByNarrowerName => "narrower_name"
  | ByBroaderName => "broader_name"
  end.

(** [a] is at most [b] in the field: numbers by value, names by their
    lowered form in string order. *)
Definition field_le (f : SortField) (a b : Relationship) : Prop :=
  match f with
  | ByAsymmetry => (asymmetry a <= asymmetry b)%Q
  | ByPBroader => (p_broader_given_narrower a <= p_broader_given_narrower b)%Q
  | ByCooc => (cooc_count a <= cooc_count b)%Z
  | ByNarrowerName =>
      PyStr.le (PyStr.lower (narrower_name a)) (PyStr.lower (narrower_name b)) = true
  | ByBroaderName =>
      PyStr.le (PyStr.lower (broader_name a)) (PyStr.lower (broader_name b)) = true
  end.

Definition ordered_by (f : SortField) (desc : bool) (a b : Relationship) : Prop :=
  if desc then field_le f b a else field_le f a b.

(** [b] has the same sort key as [a]. *)
Definition same_key (f : SortField) (a b : Relationship) : bool :=
  match f with
  | ByAsymmetry => Qeq_bool (asymmetry a) (asymmetry b)
  | ByPBroader =>
      Qeq_bool (p_broader_given_narrower a) (p_broader_given_narrower b)
  | ByCooc => (cooc_count a =? cooc_count b)%Z
  | ByNarrowerName =>
      String.eqb (PyStr.lower (narrower_name a)) (PyStr.lower (narrower_name b))
  | ByBroaderName =>
      String.eqb (PyStr.lower (broader_name a)) (PyStr.lower (broader_name b))
  end.

Definition Q_eq_dec (a b : Q) : {a = b} + {a <> b}.
Proof. decide equality; [apply Pos.eq_dec | apply Z.eq_dec]. Defined.

Definition Relationship_eq_dec (a b : Relationship) : {a = b} + {a <> b}.
Proof.
  decide equality; try apply Q_eq_dec; try apply Z.eq_dec; apply string_dec.
Defined.

(** How often a relationship record occurs in a list. *)
Definition occurrences (l : list Relationship) (r : Relationship) : nat :=
  count_occ Relationship_eq_dec l r.

(** The suggestion entry of every concept, in table order. *)
Definition all_suggestions (self : CooccurrenceEngine) : list Suggestion :=
  map (fun entry =>
         mkSuggestion (fst entry) (snd entry)
           (match dict_get (concept_counts self) (fst entry) with
            | Some c => c
            | None => 0%Z
            end))
      (concept_names self).

(** Strictly earlier in string order. *)
Definition str_lt (a b : string) : Prop := PyStr.le a b = true /\ a <> b.

(** The block of one broader concept, from its name and its members in the
    order they are listed. *)
Definition group_block (str_float : PyFloat -> string) (name : string)
    (members : list Relationship) : list string :=
  [("  - broader: " ++ name)%string; "    narrower:"%string]
  ++ map (fun r =>
            ("      - " ++ narrower_name r ++ "  # "
             ++ str_float (py_round1 (fmul (p_broader_given_narrower r) 100))
             ++ "%")%string)
         members
  ++ [""%string].

Definition has_broader_name (name : string) (r : Relationship) : bool :=
  String.eqb (broader_name r) name.

(* ------------------------------------------------------------------ *)
(** ** Sample data *)

Module Sample.
Open Scope string_scope.

Definition names : list (string * string) :=
  [("c1", "Astronomy"); ("c2", "Astrophysics"); ("c3", "Cosmology");
   ("c4", "Physics")].

Definition counts : list (string * Z) :=
  [("c1", 100%Z); ("c2", 50%Z); ("c3", 30%Z); ("c4", 400%Z)].

Definition astrophysics_astronomy : Relationship :=
  mkRel "c2" "c1" "Astrophysics" "Astronomy" 50 100 20 (723 # 1000) (4 # 10)
    (3 # 1).

Definition cosmology_astronomy : Relationship :=
  mkRel "c3" "c1" "Cosmology" "Astronomy" 30 100 18 (61 # 100) (18 # 100)
    (3 # 1).

Definition astronomy_physics : Relationship :=
  mkRel "c1" "c4" "Astronomy" "Physics" 100 400 60 (6 # 10) (15 # 100) (4 # 1).

Definition cosmology_astrophysics : Relationship :=
  mkRel "c3" "c2" "Cosmology" "Astrophysics" 30 50 12 (4 # 10) (24 # 100) (12 # 10).

Definition engine : CooccurrenceEngine :=
  mkEngine names counts 1000
    [astrophysics_astronomy; cosmology_astronomy; astronomy_physics;
     cosmology_astrophysics].

(** An admitted edge from the narrower concept to the broader one; every
    concept is named after its ID. *)
Definition edge (narrower broader : string) : Relationship :=
  mkRel narrower broader narrower broader 50 100 20 (8 # 10) (4 # 10) (3 # 1).

Definition table (ids : list string) : list (string * string) :=
  map (fun i => (i, i)) ids.

Definition count_table (ids : list string) : list (string * Z) :=
  map (fun i => (i, 100%Z)) ids.

(** [R] above [A], and the cycle [A], [B], [C], [A] below it. *)
Definition cycle_engine : CooccurrenceEngine :=
  let ids := ["R"; "A"; "B"; "C"] in
  mkEngine (table ids) (count_table ids) 1000
    [edge "A" "R"; edge "B" "A"; edge "C" "B"; edge "A" "C"].

(** A chain of eight concepts, each admitted under the one before. *)
Definition chain_engine : CooccurrenceEngine :=
  let ids := ["n0"; "n1"; "n2"; "n3"; "n4"; "n5"; "n6"; "n7"] in
  mkEngine (table ids) (count_table ids) 1000
    [edge "n1" "n0"; edge "n2" "n1"; edge "n3" "n2"; edge "n4" "n3";
     edge "n5" "n4"; edge "n6" "n5"; edge "n7" "n6"].

(** 5001 relationships under one broader concept, told apart by their
    narrower count. *)
Definition numbered (i : Z) : Relationship :=
  mkRel "A" "R" "A" "R" i 100 20 (8 # 10) (4 # 10) (3 # 1).

Definition big_engine : CooccurrenceEngine :=
  mkEngine (table ["R"; "A"]) (count_table ["R"; "A"]) 1000
    (map (fun i => numbered (Z.of_nat i)) (seq 0 (Z.to_nat 5001))).

(** Two broader names that differ in case. *)
Definition mixed_case_engine : CooccurrenceEngine :=
  mkEngine [] [] 0
    [mkRel "a" "b" "optics" "astronomy" 50 100 20 (8 # 10) (4 # 10) (3 # 1);
     mkRel "c" "z" "Botany" "Zoology" 50 100 20 (8 # 10) (4 # 10) (3 # 1)].

(** Printers good enough for the samples: an integer in decimal, and a
    number that is not negative with one decimal. *)
Definition show_int (z : Z) : string := NilZero.string_of_int (Z.to_int z).

Definition show_float (x : PyFloat) : string :=
  match x with
  | Finite q =>
      let tenths := round_half_even (q * 10) in
      show_int (tenths / 10) ++ "." ++ show_int (tenths mod 10)
  | PosInf => "inf"
  | NegInf => "-inf"
  | NaN => "nan"
  end.

(** The data of the examples of the specification. *)
Definition abc_engine : CooccurrenceEngine :=
  mkEngine [("a", "A"); ("b", "B"); ("c", "C")]
    [("a", 100%Z); ("b", 50%Z); ("c", 30%Z)] 180
    [mkRel "b" "a" "B" "A" 50 100 20 (8 # 10) (4 # 10) (3 # 1)].

Definition forest_of (r : result (list RootNode)) : list RootNode :=
  match r with
  | Ok forest => forest
  | Raise _ => []
  end.

Definition chain_forest : list RootNode :=
  Eval vm_compute in
    forest_of (build_hierarchy_tree chain_engine (5 # 10) (2 # 1) 5 10 7).

Definition no_tree : RootNode := (mkRoot "" "" 0, []).

(** Two trees; the root stored first has the smaller count. *)
Definition two_root_engine : CooccurrenceEngine :=
  mkEngine
    [("r1", "Optics"); ("r2", "Physics"); ("a", "Lenses"); ("b", "Mechanics")]
    [("r1", 50%Z); ("r2", 400%Z); ("a", 20%Z); ("b", 30%Z)] 500
    [mkRel "a" "r1" "Lenses" "Optics" 20 50 10 (8 # 10) (3 # 10) (3 # 1);
     mkRel "b" "r2" "Mechanics" "Physics" 30 400 15 (9 # 10) (1 # 10) (4 # 1)].

Definition two_root_forest : list RootNode :=
  Eval vm_compute in
    forest_of (build_hierarchy_tree two_root_engine (5 # 10) (2 # 1) 5 10 7).
End Sample.

(* ------------------------------------------------------------------ *)
(** ** [get_all_concepts] and [get_stats] *)

(** The loop of [get_all_concepts]; an entry has the keys [id], [name] and
    [count], as a suggestion has. *)
Fixpoint concepts_from (self : CooccurrenceEngine)
    (names : list (string * string)) (min_count : Z) : list Suggestion :=
  match names with
  | [] => []
  | (cbid, name) :: rest =>
      let count :=
        match dict_get (concept_counts self) cbid with
        | Some c => c
        | None => 0%Z
        end in
      if (min_count <=? count)%Z then
        mkSuggestion cbid name count :: concepts_from self rest min_count
      else concepts_from self rest min_count
  end.

Definition get_all_concepts (self : CooccurrenceEngine) (min_count : Z)
  : list Suggestion :=
  let concepts := concepts_from self (concept_names self) min_count in
  list_sort Z.leb sg_count true concepts.

Record Stats := mkStats {
  stat_total_concepts : Z;
  stat_total_citations : Z;
  stat_total_pairs : Z;
  stat_total_relationships : Z
}.

Definition get_stats (self : CooccurrenceEngine) : Stats :=
  mkStats (Z.of_nat (List.length (concept_names self)))
          (total_citations self)
          (Z.of_nat (List.length (relationships self)))
          (Z.of_nat (List.length (relationships self))).

(* ------------------------------------------------------------------ *)
(** ** Vocabulary for the forest *)

Section ForestSpec.
Variable self : CooccurrenceEngine.
Variables (min_p_broader min_asymmetry : Q) (min_cooc min_count : Z).

(** A concept that is the broader end of an admitted relationship and the
    narrower end of none. *)
Definition is_root (id : string) : Prop :=
  (exists r, In r (relationships self)
             /\ admitted min_p_broader min_asymmetry min_cooc min_count r = true
             /\ broader_id r = id)
  /\ (forall r, In r (relationships self) ->
                admitted min_p_broader min_asymmetry min_cooc min_count r = true ->
                narrower_id r <> id).

(** The children the admitted relationships give a concept, in stored
    order. *)
Definition admitted_children (id : string) : list Child :=
  map child_of
    (filter (fun r =>
               admitted min_p_broader min_asymmetry min_cooc min_count r
               && String.eqb (broader_id r) id)
       (relationships self)).
End ForestSpec.

Definition node_child (t : TreeNode) : Child :=
  match t with Node c _ => c end.

(** Every node of a tree that has children, with the children it lists. *)
Fixpoint node_families (t : TreeNode) : list (string * list Child) :=
  match t with
  | Node c children =>
      match children with
      | [] => []
      | _ :: _ =>
          (child_id c, map node_child children)
          :: flat_map node_families children
      end
  end.

Definition root_families (t : RootNode) : list (string * list Child) :=
  (root_id (fst t), map node_child (snd t)) :: flat_map node_families (snd t).

(* ------------------------------------------------------------------ *)
(** ** The page's [escHtml] *)

Module Js.

(** [s.replace(/c/g, by)] for a pattern of one literal character. *)
Fixpoint replace_all (c : ascii) (by_ : string) (s : string) : string :=
  match s with
  | EmptyString => EmptyString
  | String x s' =>
      if Ascii.eqb x c then (by_ ++ replace_all c by_ s')%string
      else String x (replace_all c by_ s')
  end.

Definition amp : ascii := ascii_of_nat 38.
Definition lt : ascii := ascii_of_nat 60.
Definition gt : ascii := ascii_of_nat 62.
Definition quot : ascii := ascii_of_nat 34.
Definition apos : ascii := ascii_of_nat 39.

Definition escHtml (str : string) : string :=
  replace_all apos "&#39;"
    (replace_all quot "&quot;"
       (replace_all gt "&gt;"
          (replace_all lt "&lt;"
             (replace_all amp "&amp;" str)))).

(** What one character becomes. *)
Definition escape_char (x : ascii) : string :=
  if Ascii.eqb x amp then "&amp;"
  else if Ascii.eqb x lt then "&lt;"
  else if Ascii.eqb x gt then "&gt;"
  else if Ascii.eqb x quot then "&quot;"
  else if Ascii.eqb x apos then "&#39;"
  else String x EmptyString.

Fixpoint occurs (c : ascii) (s : string) : bool :=
  match s with
  | EmptyString => false
  | String x s' => Ascii.eqb x c || occurs c s'
  end.

End Js.
(* ================================================================== *)
(** * Properties *)

(* ------------------------------------------------------------------ *)
(** ** Strings *)

Module PyStrFacts.
Import PyStr.

Lemma prefix_spec (a b : string) :
  prefix a b = true <-> exists t, b = (a ++ t)%string.
Proof.
  revert b; induction a as [|c a IH]; intros b; simpl.
  - split; [intros _; exists b; reflexivity | destruct b; reflexivity].
  - destruct b as [|d b].
    + split; [discriminate | intros [t Ht]; discriminate].
    + simpl. destruct (ascii_dec c d) as [->|Hne].
      * rewrite IH. split; intros [t Ht]; exists t.
        -- now rewrite Ht.
        -- now inversion Ht.
      * split; [discriminate | intros [t Ht]; simpl in Ht; congruence].
Qed.

Lemma contains_nil (needle : string) :
  contains needle EmptyString = prefix needle EmptyString || false.
Proof. reflexivity. Qed.

Lemma contains_cons (needle : string) (c : ascii) (hay : string) :
  contains needle (String c hay)
  = prefix needle (String c hay) || contains needle hay.
Proof. reflexivity. Qed.

Lemma contains_spec (needle hay : string) :
  contains needle hay = true <-> is_substring needle hay.
Proof.
  induction hay as [|c hay IH].
  - rewrite contains_nil, orb_false_r, prefix_spec. split.
    + intros [t Ht]. exists EmptyString, t. exact Ht.
    + intros [pre [post H]]. destruct pre; simpl in H.
      * exists post. exact H.
      * discriminate.
  - rewrite contains_cons, orb_true_iff, prefix_spec, IH. split.
    + intros [[t Ht]|[pre [post H]]].
      * exists EmptyString, t. exact Ht.
      * exists (String c pre), post. simpl. now rewrite H.
    + intros [pre [post H]]. destruct pre as [|d pre]; simpl in H.
      * left. exists post. exact H.
      * right. exists pre, post. now inversion H.
Qed.

Lemma contains_empty (hay : string) : contains EmptyString hay = true.
Proof. destruct hay; reflexivity. Qed.

Lemma lower_empty_iff (s : string) : lower s = EmptyString <-> s = EmptyString.
Proof. destruct s; simpl; split; congruence. Qed.

Lemma isspace_not_upper (c : ascii) : isspace c = true -> is_upper c = false.
Proof.
  unfold isspace, is_upper. generalize (N_of_ascii c). intros n H.
  repeat rewrite ?orb_true_iff, ?andb_true_iff, ?N.leb_le, ?N.eqb_eq in H.
  apply not_true_is_false. intros U.
  repeat rewrite ?orb_true_iff, ?andb_true_iff, ?N.leb_le, ?negb_true_iff,
    ?N.eqb_neq in U.
  lia.
Qed.

Lemma lower_all_space (s : string) : all_space s = true -> lower s = s.
Proof.
  unfold all_space. induction s as [|c s IH]; simpl; [reflexivity|].
  rewrite andb_true_iff. intros [Hc Hs].
  unfold lower_char. rewrite (isspace_not_upper _ Hc), (IH Hs). reflexivity.
Qed.

Lemma lstrip_all_space (s : string) : all_space s = true -> lstrip s = EmptyString.
Proof.
  unfold all_space. induction s as [|c s IH]; simpl; [reflexivity|].
  rewrite andb_true_iff. intros [Hc Hs]. now rewrite Hc, IH.
Qed.

(** A query made of whitespace only is the empty query once normalised. *)
Lemma strip_lower_all_space (s : string) :
  all_space s = true -> strip (lower s) = EmptyString.
Proof.
  intros H. rewrite (lower_all_space _ H). unfold strip.
  now rewrite (lstrip_all_space _ H).
Qed.

Lemma ascii_compare_N (a b : ascii) :
  Ascii.compare a b = N.compare (N_of_ascii a) (N_of_ascii b).
Proof. reflexivity. Qed.

Lemma compare_trans_le (a b c : string) :
  String.compare a b <> Gt -> String.compare b c <> Gt ->
  String.compare a c <> Gt.
Proof.
  revert b c; induction a as [|x a IH]; intros [|y b] [|z c]; simpl;
    try congruence.
  rewrite !ascii_compare_N.
  destruct (N.compare_spec (N_of_ascii x) (N_of_ascii y)) as [E1|L1|G1];
    destruct (N.compare_spec (N_of_ascii y) (N_of_ascii z)) as [E2|L2|G2];
    destruct (N.compare_spec (N_of_ascii x) (N_of_ascii z)) as [E3|L3|G3];
    try congruence; try lia.
  apply IH.
Qed.

Lemma le_trans (a b c : string) :
  le a b = true -> le b c = true -> le a c = true.
Proof.
  unfold le, String.leb. intros H1 H2.
  pose proof (@compare_trans_le a b c) as T.
  destruct (String.compare a b), (String.compare b c), (String.compare a c);
    try reflexivity; try discriminate; exfalso; apply T; congruence.
Qed.

Lemma le_total (a b : string) : le a b = false -> le b a = true.
Proof.
  unfold le. intros H. destruct (String.leb_total a b) as [T|T]; congruence.
Qed.

Lemma le_antisym (a b : string) : le a b = true -> le b a = true -> a = b.
Proof. apply String.leb_antisym. Qed.

End PyStrFacts.

(* ------------------------------------------------------------------ *)
(** ** The stable sort *)

Section ListSortFacts.
Context {A K : Type}.
Variable kle : K -> K -> bool.
Variable key : A -> K.
Variable reverse : bool.

#[local] Abbreviation bef := (before kle key reverse).
#[local] Abbreviation ins := (insert kle key reverse).
#[local] Abbreviation srt := (list_sort kle key reverse).

#[local] Abbreviation tied := (tied kle key reverse).

Lemma insert_perm (x : A) (l : list A) : Permutation (ins x l) (x :: l).
Proof.
  induction l as [|y l IH]; simpl; [reflexivity|].
  destruct (bef x y); [reflexivity|].
  rewrite IH. apply perm_swap.
Qed.

Lemma list_sort_perm (l : list A) : Permutation (srt l) l.
Proof.
  induction l as [|x l IH]; simpl; [reflexivity|].
  rewrite insert_perm. now constructor.
Qed.

Lemma list_sort_length (l : list A) : List.length (srt l) = List.length l.
Proof. apply Permutation_length, list_sort_perm. Qed.

Lemma list_sort_In (l : list A) (x : A) : In x (srt l) <-> In x l.
Proof.
  split; apply Permutation_in; [|symmetry]; apply list_sort_perm.
Qed.

Lemma insert_filter (P : A -> bool) (x : A) (l : list A) :
  tied P -> filter P (ins x l) = filter P (x :: l).
Proof.
  intros HP. induction l as [|y l IH]; simpl; [reflexivity|].
  destruct (bef x y) eqn:E; [reflexivity|].
  simpl in *. rewrite IH.
  destruct (P x) eqn:Px, (P y) eqn:Py; try reflexivity.
  rewrite (HP x y Px Py) in E. discriminate.
Qed.

(** Stability: the elements of a tied set keep the order they came in. *)
Lemma list_sort_stable (P : A -> bool) (l : list A) :
  tied P -> filter P (srt l) = filter P l.
Proof.
  intros HP. induction l as [|x l IH]; simpl; [reflexivity|].
  rewrite (insert_filter _ _ _ HP). simpl. now rewrite IH.
Qed.

Hypothesis kle_total : forall a b, kle a b = false -> kle b a = true.
Hypothesis kle_trans :
  forall a b c, kle a b = true -> kle b c = true -> kle a c = true.

Lemma before_total (a b : A) : bef a b = false -> bef b a = true.
Proof. unfold before. destruct reverse; apply kle_total. Qed.

Lemma before_refl (a : A) : bef a a = true.
Proof.
  destruct (bef a a) eqn:E; [reflexivity|].
  pose proof (before_total _ _ E) as T. congruence.
Qed.

Lemma before_trans (a b c : A) :
  bef a b = true -> bef b c = true -> bef a c = true.
Proof.
  unfold before. destruct reverse; intros H1 H2;
    eapply kle_trans; eassumption.
Qed.

Lemma insert_sorted (x : A) (l : list A) :
  StronglySorted (fun a b => bef a b = true) l ->
  StronglySorted (fun a b => bef a b = true) (ins x l).
Proof.
  induction 1 as [|y l Hs IH Hy]; simpl.
  - repeat constructor.
  - destruct (bef x y) eqn:E.
    + constructor; [now constructor|].
      constructor; [exact E|].
      rewrite Forall_forall in *. intros z Hz.
      eapply before_trans; [exact E | now apply Hy].
    + constructor; [exact IH|].
      rewrite Forall_forall in *. intros z Hz.
      apply (Permutation_in _ (insert_perm x l)) in Hz.
      destruct Hz as [<-|Hz]; [now apply before_total | now apply Hy].
Qed.

Lemma list_sort_sorted (l : list A) :
  StronglySorted (fun a b => bef a b = true) (srt l).
Proof.
  induction l as [|x l IH]; simpl; [constructor | now apply insert_sorted].
Qed.

(** Two sorted arrangements of the same elements that both keep every tied
    set in the same order are the same list. *)
Lemma sorted_stable_unique (l1 l2 : list A) :
  Permutation l1 l2 ->
  StronglySorted (fun a b => bef a b = true) l1 ->
  StronglySorted (fun a b => bef a b = true) l2 ->
  (forall P, tied P -> filter P l1 = filter P l2) ->
  l1 = l2.
Proof.
  revert l2; induction l1 as [|x l1 IH]; intros l2 Hp S1 S2 Hf.
  - apply Permutation_nil in Hp. now subst.
  - destruct l2 as [|y l2].
    + symmetry in Hp. apply Permutation_nil in Hp. discriminate.
    + inversion S1 as [|? ? S1' F1]; inversion S2 as [|? ? S2' F2]; subst.
      rewrite Forall_forall in F1, F2.
      assert (Hxy : bef x y = true).
      { assert (I : In y (x :: l1))
          by (apply (Permutation_in _ (Permutation_sym Hp)); now left).
        destruct I as [->|I]; [apply before_refl | now apply F1]. }
      assert (Hyx : bef y x = true).
      { assert (I : In x (y :: l2)) by (apply (Permutation_in _ Hp); now left).
        destruct I as [->|I]; [apply before_refl | now apply F2]. }
      set (P := fun a => bef a x && bef x a).
      assert (TP : tied P).
      { intros a b Ha Hb. unfold P in Ha, Hb.
        apply andb_true_iff in Ha, Hb.
        eapply before_trans; [apply Ha | apply Hb]. }
      assert (Px : P x = true).
      { unfold P. now rewrite before_refl. }
      assert (Py : P y = true) by (unfold P; now rewrite Hxy, Hyx).
      pose proof (Hf P TP) as H0. simpl in H0. rewrite Px, Py in H0.
      injection H0 as -> _.
      f_equal. apply IH; auto.
      * eapply Permutation_cons_inv. exact Hp.
      * intros Q TQ. pose proof (Hf Q TQ) as HQ. simpl in HQ.
        destruct (Q y); [now injection HQ|exact HQ].
Qed.

(** Hence the list a stable sort returns does not depend on the algorithm. *)
Lemma list_sort_unique (l l' : list A) :
  Permutation l' l ->
  StronglySorted (fun a b => bef a b = true) l' ->
  (forall P, tied P -> filter P l' = filter P l) ->
  l' = srt l.
Proof.
  intros Hp Hs Hf. apply sorted_stable_unique; auto.
  - rewrite Hp. symmetry. apply list_sort_perm.
  - apply list_sort_sorted.
  - intros P TP. rewrite (Hf P TP). symmetry. now apply list_sort_stable.
Qed.
End ListSortFacts.

(* ------------------------------------------------------------------ *)
(** ** Orders on the sort keys *)

Lemma Qle_bool_total (a b : Q) : Qle_bool a b = false -> Qle_bool b a = true.
Proof.
  intros H. apply Qle_bool_iff, Qlt_le_weak, Qnot_le_lt.
  intros L. apply Qle_bool_iff in L. congruence.
Qed.

Lemma Qle_bool_trans (a b c : Q) :
  Qle_bool a b = true -> Qle_bool b c = true -> Qle_bool a c = true.
Proof. rewrite !Qle_bool_iff. apply Qle_trans. Qed.

Lemma Zleb_total (a b : Z) : (a <=? b)%Z = false -> (b <=? a)%Z = true.
Proof. rewrite Z.leb_gt, Z.leb_le. lia. Qed.

Lemma Zleb_trans (a b c : Z) :
  (a <=? b)%Z = true -> (b <=? c)%Z = true -> (a <=? c)%Z = true.
Proof. rewrite !Z.leb_le. lia. Qed.

Lemma Qltb_false (a b : Q) : Qltb a b = false <-> (b <= a)%Q.
Proof. unfold Qltb. rewrite negb_false_iff. apply Qle_bool_iff. Qed.

Lemma Qltb_true (a b : Q) : Qltb a b = true <-> (a < b)%Q.
Proof.
  unfold Qltb. rewrite negb_true_iff. split.
  - intros H. apply Qnot_le_lt. intros L. apply Qle_bool_iff in L. congruence.
  - intros H. apply not_true_is_false. intros L. apply Qle_bool_iff in L.
    apply (Qlt_not_le _ _ H L).
Qed.

(* ------------------------------------------------------------------ *)
(** ** Slices *)

Lemma slice_to_prefix {A : Type} (l : list A) (limit : Z) :
  exists n, slice_to l limit = firstn n l.
Proof. unfold slice_to. destruct (0 <=? limit)%Z; eexists; reflexivity. Qed.

Lemma slice_to_length {A : Type} (l : list A) (limit : Z) :
  (0 <= limit)%Z ->
  Z.of_nat (List.length (slice_to l limit))
  = Z.min (Z.of_nat (List.length l)) limit.
Proof.
  intros H. unfold slice_to. apply Z.leb_le in H. rewrite H.
  apply Z.leb_le in H. rewrite length_firstn. lia.
Qed.

Lemma slice_to_all {A : Type} (l : list A) (limit : Z) :
  (Z.of_nat (List.length l) <= limit)%Z -> slice_to l limit = l.
Proof.
  intros H. unfold slice_to.
  assert (E : (0 <=? limit)%Z = true) by (apply Z.leb_le; lia).
  rewrite E. apply firstn_all2. lia.
Qed.

Lemma filter_firstn {A : Type} (P : A -> bool) (n : nat) (l : list A) :
  exists m, filter P (firstn n l) = firstn m (filter P l).
Proof.
  revert n; induction l as [|x l IH]; intros [|n]; simpl;
    try (exists 0%nat; reflexivity).
  destruct (IH n) as [m Hm]. destruct (P x).
  - exists (S m). simpl. now rewrite Hm.
  - exists m. exact Hm.
Qed.

Lemma StronglySorted_firstn {A : Type} (R : A -> A -> Prop) (n : nat) (l : list A) :
  StronglySorted R l -> StronglySorted R (firstn n l).
Proof.
  intros H. revert n. induction H as [|x l Hs IH Hx]; intros [|n]; simpl;
    try constructor.
  - apply IH.
  - rewrite Forall_forall in *. intros y Hy. apply Hx.
    rewrite <- (firstn_skipn n l). apply in_or_app. now left.
Qed.

Lemma In_firstn {A : Type} (n : nat) (l : list A) (x : A) :
  In x (firstn n l) -> In x l.
Proof.
  intros H. rewrite <- (firstn_skipn n l). apply in_or_app. now left.
Qed.

Lemma StronglySorted_weaken {A : Type} (R R' : A -> A -> Prop) (l : list A) :
  (forall a b, R a b -> R' a b) -> StronglySorted R l -> StronglySorted R' l.
Proof.
  intros HR. induction 1 as [|x l Hs IH Hx]; constructor; auto.
  eapply Forall_impl; [|exact Hx]. auto.
Qed.

(* ------------------------------------------------------------------ *)
(** ** The filtered listing *)

Lemma not_below_finite (q v : Q) : not_below (Finite q) v <-> (q <= v)%Q.
Proof. unfold not_below. simpl. apply Qltb_false. Qed.

(** Unless the threshold is [nan], a value is not below it exactly when it
    reaches it. *)
Lemma not_below_reaches (m : PyFloat) (v : Q) :
  m <> NaN -> (not_below m v <-> reaches m v).
Proof.
  unfold not_below, reaches. destruct m as [q| | |]; simpl; intros H.
  - unfold Qltb, Qgeb. rewrite negb_false_iff. reflexivity.
  - split; discriminate.
  - split; reflexivity.
  - congruence.
Qed.

Section ListingFacts.
Variable self : CooccurrenceEngine.
Variables (min_narrower_count min_cooc : Z).
Variables (min_p_broader min_asymmetry : PyFloat).
Variable concept_filter : option string.

#[local] Abbreviation keeps' :=
  (keeps min_narrower_count min_cooc min_p_broader min_asymmetry concept_filter).
#[local] Abbreviation results_of :=
  (sorted_results self min_narrower_count min_cooc min_p_broader min_asymmetry
     concept_filter).

Lemma text_filter_spec (r : Relationship) :
  match concept_filter_lower concept_filter with
  | Some f =>
      if PyStr.truthy f then
        if negb (PyStr.contains f (PyStr.lower (narrower_name r)))
           && negb (PyStr.contains f (PyStr.lower (broader_name r)))
        then false else true
      else true
  | None => true
  end = true <-> meets_text_filter concept_filter r.
Proof.
  unfold concept_filter_lower, meets_text_filter.
  destruct concept_filter as [f|]; [|tauto].
  destruct f as [|c f]; simpl PyStr.truthy; cbv iota.
  - split; [intros _ H; congruence | reflexivity].
  - cbv zeta.
    destruct (PyStr.strip (PyStr.lower (String c f))) as [|d q];
      simpl PyStr.truthy; cbv iota.
    + split; [|reflexivity]. intros _ _. left.
      apply PyStrFacts.contains_spec, PyStrFacts.contains_empty.
    + rewrite <- !PyStrFacts.contains_spec.
      destruct (PyStr.contains (String d q) (PyStr.lower (narrower_name r)));
        destruct (PyStr.contains (String d q) (PyStr.lower (broader_name r)));
        simpl; split; auto; try discriminate.
      intros H. destruct H as [H|H]; [discriminate | | ]; discriminate.
Qed.

Lemma keeps_spec (r : Relationship) :
  keeps' r = true <->
  passes_thresholds min_narrower_count min_cooc min_p_broader min_asymmetry r
  /\ meets_text_filter concept_filter r.
Proof.
  unfold keeps, passes_thresholds, not_below.
  destruct (narrower_count r <? min_narrower_count)%Z eqn:E1.
  { apply Z.ltb_lt in E1. split; [discriminate | intros [[H _] _]; lia]. }
  apply Z.ltb_ge in E1.
  destruct (cooc_count r <? min_cooc)%Z eqn:E2.
  { apply Z.ltb_lt in E2. split; [discriminate | intros [[_ [H _]] _]; lia]. }
  apply Z.ltb_ge in E2.
  destruct (num_lt (p_broader_given_narrower r) min_p_broader) eqn:E3.
  { split; [discriminate | intros [[_ [_ [H _]]] _]; discriminate H]. }
  destruct (num_lt (asymmetry r) min_asymmetry) eqn:E4.
  { split; [discriminate | intros [[_ [_ [_ H]]] _]; discriminate H]. }
  rewrite text_filter_spec. tauto.
Qed.

Lemma sorted_results_perm (sort_by : string) (sort_desc : bool) :
  Permutation (results_of sort_by sort_desc)
    (filter keeps' (relationships self)).
Proof.
  unfold sorted_results, filtered.
  repeat match goal with
         | |- context [if ?b then _ else _] => destruct b
         end; try apply list_sort_perm; reflexivity.
Qed.

Lemma sorted_results_field (f : SortField) (sort_desc : bool) :
  results_of (field_name f) sort_desc =
  match f with
  | ByAsymmetry => list_sort Qle_bool asymmetry sort_desc
  | ByPBroader => list_sort Qle_bool p_broader_given_narrower sort_desc
  | ByCooc => list_sort Z.leb cooc_count sort_desc
  | ByNarrowerName =>
      list_sort PyStr.le (fun r => PyStr.lower (narrower_name r)) sort_desc
  | ByBroaderName =>
      list_sort PyStr.le (fun r => PyStr.lower (broader_name r)) sort_desc
  end (filter keeps' (relationships self)).
Proof. destruct f; reflexivity. Qed.
End ListingFacts.

(** A page cut from a stable sort is sorted, and each class of equal keys
    is a prefix of that class in the list that was sorted. *)
Lemma page_sorted_stable {A K : Type} (kle eqk : K -> K -> bool) (key : A -> K)
    (reverse : bool) (l : list A) (limit : Z) :
  (forall a b, kle a b = false -> kle b a = true) ->
  (forall a b c, kle a b = true -> kle b c = true -> kle a c = true) ->
  (forall x a b, eqk x a = true -> eqk x b = true -> kle a b = true) ->
  StronglySorted (fun a b => before kle key reverse a b = true)
    (slice_to (list_sort kle key reverse l) limit)
  /\ forall r0, exists n,
       filter (fun r => eqk (key r0) (key r))
         (slice_to (list_sort kle key reverse l) limit)
       = firstn n (filter (fun r => eqk (key r0) (key r)) l).
Proof.
  intros Htot Htrans Heq.
  destruct (slice_to_prefix (list_sort kle key reverse l) limit) as [n ->].
  split.
  - apply StronglySorted_firstn, list_sort_sorted; assumption.
  - intros r0.
    destruct (filter_firstn (fun r => eqk (key r0) (key r)) n
                (list_sort kle key reverse l)) as [m ->].
    exists m. f_equal. apply list_sort_stable.
    intros a b Ha Hb. unfold before. destruct reverse; eapply Heq; eauto.
Qed.

Lemma Qeq_bool_le (x a b : Q) :
  Qeq_bool x a = true -> Qeq_bool x b = true -> Qle_bool a b = true.
Proof.
  intros Ha Hb. apply Qeq_bool_iff in Ha, Hb. apply Qle_bool_iff.
  rewrite <- Ha, <- Hb. apply Qle_refl.
Qed.

Lemma Zeqb_le (x a b : Z) :
  (x =? a)%Z = true -> (x =? b)%Z = true -> (a <=? b)%Z = true.
Proof. rewrite !Z.eqb_eq, Z.leb_le. lia. Qed.

Lemma String_eqb_le (x a b : string) :
  String.eqb x a = true -> String.eqb x b = true -> PyStr.le a b = true.
Proof.
  rewrite !String.eqb_eq. intros <- <-.
  destruct (PyStr.le x x) eqn:E; [reflexivity|].
  pose proof (PyStrFacts.le_total _ _ E). congruence.
Qed.

(** C1, as the claim has it, fails at a threshold that is [nan], which the
    route's [float(...)] accepts: no value is below [nan], so the loop keeps
    a record whose probability does not reach the threshold. *)
Lemma nan_threshold_keeps_every_record :
  let r := Sample.astrophysics_astronomy in
  In r (sorted_results Sample.engine 10 5 NaN (15 # 10) None "asymmetry" true)
  /\ ~ reaches NaN (p_broader_given_narrower r)
  /\ ~ (In r (sorted_results Sample.engine 10 5 NaN (15 # 10) None
               "asymmetry" true)
        <-> In r (relationships Sample.engine)
            /\ reaches_thresholds 10 5 NaN (15 # 10) r
            /\ meets_text_filter None r).
Proof.
  assert (Hin : In Sample.astrophysics_astronomy
                  (sorted_results Sample.engine 10 5 NaN (15 # 10) None
                     "asymmetry" true))
    by (vm_compute; right; left; reflexivity).
  split; [exact Hin|]. split.
  - unfold reaches. simpl. discriminate.
  - intros [H _]. destruct (H Hin) as [_ [[_ [_ [Hp _]]] _]].
    unfold reaches in Hp. simpl in Hp. discriminate Hp.
Qed.

(** C1 (filter conjunction), amended.  A relationship is in the result list
    of [get_filtered_relationships] before the slice is taken, whatever the
    sort, exactly when it is a stored relationship whose two counts meet
    their thresholds, whose probability and asymmetry are not below theirs
    and, if a non-empty text filter is given, whose lowered narrower or
    broader name contains the lowered, stripped filter.  Not being below a
    threshold is reaching it, unless the threshold is [nan], which nothing
    is below. *)
Theorem filter_conjunction :
  forall (self : CooccurrenceEngine) (min_narrower_count min_cooc : Z)
         (min_p_broader min_asymmetry : PyFloat)
         (concept_filter : option string)
         (sort_by : string) (sort_desc : bool) (r : Relationship),
    (In r (sorted_results self min_narrower_count min_cooc min_p_broader
             min_asymmetry concept_filter sort_by sort_desc)
     <->
     In r (relationships self)
     /\ passes_thresholds min_narrower_count min_cooc min_p_broader
          min_asymmetry r
     /\ meets_text_filter concept_filter r)
    /\ (min_p_broader <> NaN -> min_asymmetry <> NaN ->
        (passes_thresholds min_narrower_count min_cooc min_p_broader
           min_asymmetry r
         <-> reaches_thresholds min_narrower_count min_cooc min_p_broader
               min_asymmetry r)).
Proof.
  intros. split; [split|].
  - intros H. apply (Permutation_in _ (sorted_results_perm _ _ _ _ _ _ _ _)) in H.
    apply filter_In in H. destruct H as [Hin Hk].
    apply keeps_spec in Hk. tauto.
  - intros [Hin Hm].
    apply (Permutation_in _ (Permutation_sym (sorted_results_perm _ _ _ _ _ _ _ _))).
    apply filter_In. split; [exact Hin|]. apply keeps_spec. tauto.
  - intros Hp Ha. unfold passes_thresholds, reaches_thresholds.
    rewrite (not_below_reaches _ (p_broader_given_narrower r) Hp).
    rewrite (not_below_reaches _ (asymmetry r) Ha). reflexivity.
Qed.

Lemma filter_conjunction_witness :
  let r := Sample.astrophysics_astronomy in
  (In r (sorted_results Sample.engine 10 5 NaN (15 # 10) None "asymmetry" true)
   <-> In r (relationships Sample.engine)
       /\ passes_thresholds 10 5 NaN (15 # 10) r
       /\ meets_text_filter None r)
  /\ Finite (3 # 10) <> NaN
  /\ Finite (15 # 10) <> NaN
  /\ (passes_thresholds 10 5 (3 # 10) (15 # 10) r
      <-> reaches_thresholds 10 5 (3 # 10) (15 # 10) r).
Proof.
  split; [|split; [|split]].
  - exact (proj1 (filter_conjunction Sample.engine 10 5 NaN (15 # 10) None
                    "asymmetry" true Sample.astrophysics_astronomy)).
  - discriminate.
  - discriminate.
  - apply (proj2 (filter_conjunction Sample.engine 10 5 (3 # 10) (15 # 10)
                    None "asymmetry" true Sample.astrophysics_astronomy));
      discriminate.
Defined.

(** C4, as the claim has it, fails for a negative limit: with four matching
    relationships and [limit = -1] the page holds three of them, which is
    not [min(4, -1)]. *)
Lemma pagination_negative_limit :
  let result :=
    get_filtered_relationships Sample.engine 0 0 0 0 None "asymmetry" true (-1)
  in
  snd result = 4%Z
  /\ Z.of_nat (List.length (fst result)) = 3%Z
  /\ Z.of_nat (List.length (fst result)) <> Z.min (snd result) (-1).
Proof. vm_compute. repeat split; discriminate. Qed.

(** C4 (pagination consistency), amended.  The total is the number of stored
    relationships that pass the filter, for every limit; and for a limit
    that is not negative the page has [min(total, limit)] entries. *)
Theorem pagination_consistency :
  forall (self : CooccurrenceEngine) (min_narrower_count min_cooc : Z)
         (min_p_broader min_asymmetry : PyFloat)
         (concept_filter : option string)
         (sort_by : string) (sort_desc : bool) (limit : Z),
    let result :=
      get_filtered_relationships self min_narrower_count min_cooc
        min_p_broader min_asymmetry concept_filter sort_by sort_desc limit in
    snd result
    = Z.of_nat (List.length
                  (filter (keeps min_narrower_count min_cooc min_p_broader
                             min_asymmetry concept_filter)
                     (relationships self)))
    /\ ((0 <= limit)%Z ->
        Z.of_nat (List.length (fst result)) = Z.min (snd result) limit).
Proof.
  intros self mn mc mp ma cf sort_by desc limit. simpl. split.
  - f_equal. apply Permutation_length, sorted_results_perm.
  - intros Hl. now apply slice_to_length.
Qed.

Lemma pagination_consistency_witness :
  (let result :=
     get_filtered_relationships Sample.engine 10 5 (3 # 10) (15 # 10)
       (Some "ASTRO"%string) "cooc_count" true (-1) in
   snd result
   = Z.of_nat (List.length
                 (filter (keeps 10 5 (3 # 10) (15 # 10) (Some "ASTRO"%string))
                    (relationships Sample.engine))))
  /\ (0 <= 2)%Z
  /\ (let result :=
        get_filtered_relationships Sample.engine 10 5 (3 # 10) (15 # 10)
          (Some "ASTRO"%string) "cooc_count" true 2 in
      Z.of_nat (List.length (fst result)) = Z.min (snd result) 2).
Proof.
  split; [|split].
  - exact (proj1 (pagination_consistency Sample.engine 10 5 (3 # 10)
                    (15 # 10) (Some "ASTRO"%string) "cooc_count" true (-1))).
  - lia.
  - apply (proj2 (pagination_consistency Sample.engine 10 5 (3 # 10)
                    (15 # 10) (Some "ASTRO"%string) "cooc_count" true 2)).
    lia.
Defined.

(** C5 (sort correctness and stability).  For each of the five sort fields
    and either direction the page is ordered by that field (names by their
    lowered form), and the relationships of the page that share a sort key
    stand in the order they have in the stored list: they are a prefix of
    the stored relationships that pass the filter and have that key. *)
Theorem sort_correct_and_stable :
  forall (self : CooccurrenceEngine) (min_narrower_count min_cooc : Z)
         (min_p_broader min_asymmetry : PyFloat) (concept_filter : option string)
         (f : SortField) (sort_desc : bool) (limit : Z),
    let page :=
      fst (get_filtered_relationships self min_narrower_count min_cooc
             min_p_broader min_asymmetry concept_filter (field_name f)
             sort_desc limit) in
    StronglySorted (ordered_by f sort_desc) page
    /\ forall r0, exists n,
         filter (same_key f r0) page
         = firstn n
             (filter (same_key f r0)
                (filter (keeps min_narrower_count min_cooc min_p_broader
                           min_asymmetry concept_filter)
                   (relationships self))).
Proof.
  intros self mn mc mp ma cf f desc limit. simpl.
  rewrite sorted_results_field.
  destruct f.
  - destruct (page_sorted_stable Qle_bool Qeq_bool asymmetry desc
                (filter (keeps mn mc mp ma cf) (relationships self)) limit
                Qle_bool_total Qle_bool_trans Qeq_bool_le)
      as [S T].
    split; [|exact T].
    eapply StronglySorted_weaken; [|exact S].
    intros a b. unfold before, ordered_by, field_le.
    destruct desc; apply Qle_bool_iff.
  - destruct (page_sorted_stable Qle_bool Qeq_bool p_broader_given_narrower desc
                (filter (keeps mn mc mp ma cf) (relationships self)) limit
                Qle_bool_total Qle_bool_trans Qeq_bool_le)
      as [S T].
    split; [|exact T].
    eapply StronglySorted_weaken; [|exact S].
    intros a b. unfold before, ordered_by, field_le.
    destruct desc; apply Qle_bool_iff.
  - destruct (page_sorted_stable Z.leb Z.eqb cooc_count desc
                (filter (keeps mn mc mp ma cf) (relationships self)) limit
                Zleb_total Zleb_trans Zeqb_le)
      as [S T].
    split; [|exact T].
    eapply StronglySorted_weaken; [|exact S].
    intros a b. unfold before, ordered_by, field_le.
    destruct desc; apply Z.leb_le.
  - destruct (page_sorted_stable PyStr.le String.eqb
                (fun r => PyStr.lower (narrower_name r)) desc
                (filter (keeps mn mc mp ma cf) (relationships self)) limit
                PyStrFacts.le_total PyStrFacts.le_trans String_eqb_le)
      as [S T].
    split; [|exact T].
    eapply StronglySorted_weaken; [|exact S].
    intros a b. unfold before, ordered_by, field_le.
    destruct desc; auto.
  - destruct (page_sorted_stable PyStr.le String.eqb
                (fun r => PyStr.lower (broader_name r)) desc
                (filter (keeps mn mc mp ma cf) (relationships self)) limit
                PyStrFacts.le_total PyStrFacts.le_trans String_eqb_le)
      as [S T].
    split; [|exact T].
    eapply StronglySorted_weaken; [|exact S].
    intros a b. unfold before, ordered_by, field_le.
    destruct desc; auto.
Qed.

(* ------------------------------------------------------------------ *)
(** ** The concept neighbourhood *)

Lemma occurrences_firstn (n : nat) (l : list Relationship) (r : Relationship) :
  (occurrences (firstn n l) r <= occurrences l r)%nat.
Proof.
  unfold occurrences. revert n; induction l as [|x l IH]; intros [|n]; simpl;
    try lia.
  specialize (IH n). destruct (Relationship_eq_dec x r); lia.
Qed.

Lemma occurrences_slice (l : list Relationship) (limit : Z) (r : Relationship) :
  (occurrences (slice_to l limit) r <= occurrences l r)%nat.
Proof.
  destruct (slice_to_prefix l limit) as [n ->]. apply occurrences_firstn.
Qed.

Lemma occurrences_filter (P : Relationship -> bool) (l : list Relationship)
    (r : Relationship) :
  occurrences (filter P l) r = if P r then occurrences l r else 0%nat.
Proof.
  unfold occurrences. induction l as [|x l IH]; simpl.
  - now destruct (P r).
  - destruct (P x) eqn:Px; simpl; destruct (Relationship_eq_dec x r) as [->|N];
      rewrite IH; try reflexivity.
    + now rewrite Px.
    + now rewrite Px.
Qed.

Lemma occurrences_sort {K : Type} (kle : K -> K -> bool)
    (key : Relationship -> K) (reverse : bool) (l : list Relationship)
    (r : Relationship) :
  occurrences (list_sort kle key reverse l) r = occurrences l r.
Proof.
  unfold occurrences. apply Permutation_count_occ, list_sort_perm.
Qed.

Lemma In_sorted_slice {K : Type} (kle : K -> K -> bool)
    (key : Relationship -> K) (reverse : bool) (P : Relationship -> bool)
    (l : list Relationship) (limit : Z) (r : Relationship) :
  In r (slice_to (list_sort kle key reverse (filter P l)) limit) ->
  In r l /\ P r = true.
Proof.
  destruct (slice_to_prefix (list_sort kle key reverse (filter P l)) limit)
    as [n ->].
  intros H. apply In_firstn, list_sort_In, filter_In in H. exact H.
Qed.

Section NeighbourhoodFacts.
Variable self : CooccurrenceEngine.
Variables (min_p_broader min_asymmetry : Q) (min_cooc min_count : Z).

#[local] Abbreviation in_b := (in_broader min_p_broader min_asymmetry min_cooc min_count).
#[local] Abbreviation in_n := (in_narrower min_p_broader min_asymmetry min_cooc min_count).
#[local] Abbreviation in_s := (in_symmetric min_asymmetry min_cooc).

Lemma broader_not_narrower (cid : string) (r : Relationship) :
  in_b cid r = true -> in_n cid r = false.
Proof.
  unfold in_broader, in_narrower.
  destruct (negb (passes_filters min_cooc min_count r)); [discriminate|].
  destruct (String.eqb (narrower_id r) cid); [reflexivity | discriminate].
Qed.

Lemma directional_not_symmetric (cid : string) (r : Relationship) :
  directional min_p_broader min_asymmetry r = true -> in_s cid r = false.
Proof.
  unfold directional, in_symmetric, Qltb, Qgeb. intros H.
  apply andb_true_iff in H. destruct H as [_ H]. rewrite H. simpl.
  destruct (cooc_count r <? min_cooc)%Z; [reflexivity|].
  destruct (String.eqb (narrower_id r) cid || String.eqb (broader_id r) cid);
    reflexivity.
Qed.

Lemma broader_not_symmetric (cid : string) (r : Relationship) :
  in_b cid r = true -> in_s cid r = false.
Proof.
  unfold in_broader.
  destruct (negb (passes_filters min_cooc min_count r)); [discriminate|].
  destruct (String.eqb (narrower_id r) cid); [|discriminate].
  apply directional_not_symmetric.
Qed.

Lemma narrower_not_symmetric (cid : string) (r : Relationship) :
  in_n cid r = true -> in_s cid r = false.
Proof.
  unfold in_narrower.
  destruct (negb (passes_filters min_cooc min_count r)); [discriminate|].
  destruct (String.eqb (narrower_id r) cid); [discriminate|].
  destruct (String.eqb (broader_id r) cid); [|discriminate].
  apply directional_not_symmetric.
Qed.

(** What a resolved lookup returns. *)
Lemma get_concept_tree_resolved (concept_name cid cname : string) (ccount : Z)
    (broader narrower symmetric : list Relationship) :
  get_concept_tree self min_p_broader min_asymmetry min_cooc min_count
    concept_name
  = Ok (Neighbourhood cid cname ccount broader narrower symmetric) ->
  broader = slice_to (list_sort Qle_bool p_broader_given_narrower true
                        (filter (in_b cid) (relationships self))) 50
  /\ narrower = slice_to (list_sort Qle_bool p_broader_given_narrower true
                            (filter (in_n cid) (relationships self))) 50
  /\ symmetric = slice_to (list_sort Z.leb cooc_count true
                             (filter (in_s cid) (relationships self))) 30.
Proof.
  unfold get_concept_tree.
  destruct (find_exact (concept_names self) _) as [c|]; [|discriminate].
  destruct (negb (PyStr.truthy c)); [discriminate|].
  destruct (dict_item (concept_names self) c); [|discriminate].
  destruct (dict_item (concept_counts self) c); [|discriminate].
  simpl. intros H. injection H as <- _ _ <- <- <-. auto.
Qed.
End NeighbourhoodFacts.

(** C6 (neighbourhood partition).  When [get_concept_tree] resolves a
    concept, no relationship is in two of the lists broader, narrower and
    symmetric, and a relationship is listed, over the three lists together,
    no more often than it is stored. *)
Theorem neighbourhood_partition :
  forall (self : CooccurrenceEngine) (min_p_broader min_asymmetry : Q)
         (min_cooc min_count : Z) (concept_name cid cname : string)
         (ccount : Z) (broader narrower symmetric : list Relationship),
    get_concept_tree self min_p_broader min_asymmetry min_cooc min_count
      concept_name
    = Ok (Neighbourhood cid cname ccount broader narrower symmetric) ->
    (forall r, ~ (In r broader /\ In r narrower))
    /\ (forall r, ~ (In r broader /\ In r symmetric))
    /\ (forall r, ~ (In r narrower /\ In r symmetric))
    /\ (forall r,
          (occurrences broader r + occurrences narrower r
           + occurrences symmetric r
           <= occurrences (relationships self) r)%nat).
Proof.
  intros self mp ma mc mn name cid cname ccount b n s H.
  apply get_concept_tree_resolved in H. destruct H as [-> [-> ->]].
  repeat split.
  - intros r [Hb Hn]. apply In_sorted_slice in Hb, Hn.
    destruct Hb as [_ Hb], Hn as [_ Hn].
    rewrite (broader_not_narrower _ _ _ _ _ _ Hb) in Hn. discriminate.
  - intros r [Hb Hs]. apply In_sorted_slice in Hb, Hs.
    destruct Hb as [_ Hb], Hs as [_ Hs].
    rewrite (broader_not_symmetric _ _ _ _ _ _ Hb) in Hs. discriminate.
  - intros r [Hn Hs]. apply In_sorted_slice in Hn, Hs.
    destruct Hn as [_ Hn], Hs as [_ Hs].
    rewrite (narrower_not_symmetric _ _ _ _ _ _ Hn) in Hs. discriminate.
  - intros r.
    pose proof (occurrences_slice
      (list_sort Qle_bool p_broader_given_narrower true
         (filter (in_broader mp ma mc mn cid) (relationships self))) 50 r) as Lb.
    pose proof (occurrences_slice
      (list_sort Qle_bool p_broader_given_narrower true
         (filter (in_narrower mp ma mc mn cid) (relationships self))) 50 r) as Ln.
    pose proof (occurrences_slice
      (list_sort Z.leb cooc_count true
         (filter (in_symmetric ma mc cid) (relationships self))) 30 r) as Ls.
    rewrite occurrences_sort, occurrences_filter in Lb.
    rewrite occurrences_sort, occurrences_filter in Ln.
    rewrite occurrences_sort, occurrences_filter in Ls.
    destruct (in_broader mp ma mc mn cid r) eqn:Eb.
    + rewrite (broader_not_narrower _ _ _ _ _ _ Eb) in Ln.
      rewrite (broader_not_symmetric _ _ _ _ _ _ Eb) in Ls. lia.
    + destruct (in_narrower mp ma mc mn cid r) eqn:En.
      * rewrite (narrower_not_symmetric _ _ _ _ _ _ En) in Ls. lia.
      * destruct (in_symmetric ma mc cid r); lia.
Qed.

Lemma neighbourhood_partition_witness :
  let broader := [Sample.astrophysics_astronomy] in
  let narrower := @nil Relationship in
  let symmetric := [Sample.cosmology_astrophysics] in
  get_concept_tree Sample.engine (3 # 10) (15 # 10) 3 5 "  astroPHYSICS "
  = Ok (Neighbourhood "c2" "Astrophysics" 50 broader narrower symmetric)
  /\ (forall r, ~ (In r broader /\ In r narrower))
  /\ (forall r, ~ (In r broader /\ In r symmetric))
  /\ (forall r, ~ (In r narrower /\ In r symmetric))
  /\ (forall r,
        (occurrences broader r + occurrences narrower r
         + occurrences symmetric r
         <= occurrences (relationships Sample.engine) r)%nat).
Proof.
  intros broader narrower symmetric.
  assert (H : get_concept_tree Sample.engine (3 # 10) (15 # 10) 3 5
                "  astroPHYSICS "
              = Ok (Neighbourhood "c2" "Astrophysics" 50 broader narrower
                      symmetric)) by (vm_compute; reflexivity).
  split; [exact H|].
  exact (neighbourhood_partition Sample.engine (3 # 10) (15 # 10) 3 5
           "  astroPHYSICS " "c2" "Astrophysics" 50 broader narrower symmetric
           H).
Defined.

(* ------------------------------------------------------------------ *)
(** ** Queries made of whitespace *)

Lemma StronglySorted_app_cross {A : Type} (R : A -> A -> Prop) (l1 l2 : list A) :
  StronglySorted R (l1 ++ l2) ->
  forall a b, In a l1 -> In b l2 -> R a b.
Proof.
  induction l1 as [|x l1 IH]; simpl; intros H a b Ha Hb; [contradiction|].
  inversion H as [|? ? Hs Hx]; subst. destruct Ha as [<-|Ha].
  - rewrite Forall_forall in Hx. apply Hx, in_or_app. now right.
  - now apply IH.
Qed.

Section WhitespaceQuery.
Variable self : CooccurrenceEngine.

Lemma find_exact_empty (names : list (string * string)) :
  (forall cbid name, In (cbid, name) names -> name <> EmptyString) ->
  find_exact names EmptyString = None.
Proof.
  induction names as [|[cbid name] names IH]; intros H; simpl; [reflexivity|].
  destruct (String.eqb (PyStr.lower name) EmptyString) eqn:E.
  - apply String.eqb_eq in E.
    apply (proj1 (PyStrFacts.lower_empty_iff _)) in E.
    exfalso. apply (H cbid name); [now left | exact E].
  - apply IH. intros c n Hin. apply (H c n). now right.
Qed.

Lemma collect_matches_empty (names : list (string * string)) :
  collect_matches self names EmptyString
  = map (fun entry =>
           mkSuggestion (fst entry) (snd entry)
             (match dict_get (concept_counts self) (fst entry) with
              | Some c => c
              | None => 0%Z
              end)) names.
Proof.
  induction names as [|[cbid name] names IH]; simpl; [reflexivity|].
  rewrite PyStrFacts.contains_empty, IH. reflexivity.
Qed.
End WhitespaceQuery.

(** C10 (whitespace-only query).  If the name consists of whitespace only
    and no concept has an empty display name, [get_concept_tree] does not
    raise and resolves nothing: it answers with suggestions and three empty
    lists.  The suggestions are [min(20, number of concepts)] concepts, in
    descending order of count, and no concept left out has a higher count
    than one that is listed.  The route lets such a name through whenever it
    is not the empty string, and then returns this answer. *)
Theorem whitespace_query_suggests :
  forall (self : CooccurrenceEngine) (min_p_broader min_asymmetry : Q)
         (min_cooc min_count : Z) (concept_name : string),
    PyStr.all_space concept_name = true ->
    (forall cbid name,
        In (cbid, name) (concept_names self) -> name <> EmptyString) ->
    exists suggestions rest,
      get_concept_tree self min_p_broader min_asymmetry min_cooc min_count
        concept_name
      = Ok (SuggestionsResponse suggestions [] [] [])
      /\ (concept_name <> EmptyString ->
          api_concept_tree self min_p_broader min_asymmetry min_cooc min_count
            concept_name
          = Http200 (SuggestionsResponse suggestions [] [] []))
      /\ List.length suggestions
         = Nat.min 20 (List.length (concept_names self))
      /\ Permutation (suggestions ++ rest) (all_suggestions self)
      /\ StronglySorted (fun a b => (sg_count b <= sg_count a)%Z) suggestions
      /\ (forall a b,
             In a suggestions -> In b rest -> (sg_count b <= sg_count a)%Z).
Proof.
  intros self mp ma mc mn name Hws Hnames.
  set (sorted := list_sort Z.leb sg_count true (all_suggestions self)).
  assert (Hs : StronglySorted (fun a b => (sg_count b <= sg_count a)%Z) sorted).
  { eapply StronglySorted_weaken;
      [|apply (list_sort_sorted Z.leb sg_count true Zleb_total Zleb_trans
                 (all_suggestions self))].
    intros a b. unfold before. apply Z.leb_le. }
  assert (Hget : get_concept_tree self mp ma mc mn name
                 = Ok (SuggestionsResponse (firstn 20 sorted) [] [] [])).
  { unfold get_concept_tree.
    rewrite (PyStrFacts.strip_lower_all_space _ Hws).
    rewrite (find_exact_empty _ Hnames), collect_matches_empty.
    reflexivity. }
  exists (firstn 20 sorted), (skipn 20 sorted). repeat split.
  - exact Hget.
  - intros Hne. unfold api_concept_tree. rewrite Hget.
    destruct name; [congruence | reflexivity].
  - rewrite length_firstn. unfold sorted.
    rewrite list_sort_length. unfold all_suggestions. now rewrite length_map.
  - rewrite firstn_skipn. apply list_sort_perm.
  - now apply StronglySorted_firstn.
  - rewrite <- (firstn_skipn 20 sorted) in Hs.
    intros a b Ha Hb. exact (StronglySorted_app_cross _ _ _ Hs a b Ha Hb).
Qed.

Lemma whitespace_query_suggests_witness :
  exists suggestions rest,
    get_concept_tree Sample.engine (3 # 10) (15 # 10) 3 5 "   "
    = Ok (SuggestionsResponse suggestions [] [] [])
    /\ ("   "%string <> EmptyString ->
        api_concept_tree Sample.engine (3 # 10) (15 # 10) 3 5 "   "
        = Http200 (SuggestionsResponse suggestions [] [] []))
    /\ List.length suggestions
       = Nat.min 20 (List.length (concept_names Sample.engine))
    /\ Permutation (suggestions ++ rest) (all_suggestions Sample.engine)
    /\ StronglySorted (fun a b => (sg_count b <= sg_count a)%Z) suggestions
    /\ (forall a b,
           In a suggestions -> In b rest -> (sg_count b <= sg_count a)%Z).
Proof.
  apply (whitespace_query_suggests Sample.engine (3 # 10) (15 # 10) 3 5 "   ").
  - reflexivity.
  - intros cbid name H. simpl in H.
    repeat (destruct H as [H|H]; [injection H as _ <-; discriminate|]).
    contradiction.
Defined.

(* ------------------------------------------------------------------ *)
(** ** The hierarchy forest *)

Lemma set_mem_add (x y : string) (s : list string) :
  set_mem x (set_add y s) = String.eqb x y || set_mem x s.
Proof.
  unfold set_add. destruct (set_mem y s) eqn:E; [|reflexivity].
  destruct (String.eqb x y) eqn:Exy; [|reflexivity].
  apply String.eqb_eq in Exy. subst. now rewrite E.
Qed.

Lemma mapM_Ok_In {A B : Type} (f : A -> result B) (l : list A) (ys : list B) :
  mapM f l = Ok ys ->
  forall y, In y ys -> exists x, In x l /\ f x = Ok y.
Proof.
  revert ys; induction l as [|x l IH]; simpl; intros ys H y Hy.
  - injection H as <-. contradiction.
  - destruct (f x) as [b|] eqn:Fx; simpl in H; [|discriminate].
    destruct (mapM f l) as [bs|] eqn:Fl; simpl in H; [|discriminate].
    injection H as <-. destruct Hy as [<-|Hy].
    + exists x. split; [now left | exact Fx].
    + destruct (IH bs eq_refl y Hy) as [x' [Hin Hx']].
      exists x'. split; [now right | exact Hx'].
Qed.

Lemma mapM_total {A B : Type} (f : A -> result B) (l : list A) :
  (forall x, In x l -> exists y, f x = Ok y) -> exists ys, mapM f l = Ok ys.
Proof.
  induction l as [|x l IH]; simpl; intros H; [eexists; reflexivity|].
  destruct (H x (or_introl eq_refl)) as [y ->].
  destruct IH as [ys ->]; [intros z Hz; apply H; now right|].
  eexists; reflexivity.
Qed.

Lemma mapM_ext_Ok {A B : Type} (f g : A -> result B) (l : list A) (ys : list B) :
  (forall x y, In x l -> f x = Ok y -> g x = Ok y) ->
  mapM f l = Ok ys -> mapM g l = Ok ys.
Proof.
  revert ys; induction l as [|x l IH]; simpl; intros ys H E; [exact E|].
  destruct (f x) as [b|] eqn:Fx; simpl in E; [|discriminate].
  destruct (mapM f l) as [bs|] eqn:Fl; simpl in E; [|discriminate].
  rewrite (H x b (or_introl eq_refl) Fx). simpl.
  rewrite (IH bs); [exact E | | reflexivity].
  intros z y Hz. apply H. now right.
Qed.

Lemma node_paths_nonempty (t : TreeNode) (path : list string) :
  In path (node_paths t) -> path <> [].
Proof.
  destruct t as [c [|t' ts]]; simpl.
  - intros [<-|[]]. discriminate.
  - intros H E. subst. apply in_map_iff in H. destruct H as [p [Hp _]].
    discriminate.
Qed.

Lemma removelast_cons {A : Type} (x : A) (l : list A) :
  l <> [] -> removelast (x :: l) = x :: removelast l.
Proof. destruct l; [congruence | reflexivity]. Qed.

Lemma flat_map_nil {A B : Type} (f : A -> list B) (l : list A) :
  (forall x, In x l -> f x = []) -> flat_map f l = [].
Proof.
  induction l as [|x l IH]; simpl; intros H; [reflexivity|].
  rewrite (H x (or_introl eq_refl)). simpl. apply IH.
  intros y Hy. apply H. now right.
Qed.

Section SubtreeFacts.
Variable children_of : list (string * list Child).

(** One call, unfolded: what each entry of a non-trivial result is. *)
Lemma build_subtree_entry (fuel : nat) (node_id : string) (depth : Z)
    (visited : list string) (subtree : list TreeNode) (t : TreeNode) :
  build_subtree (S fuel) children_of node_id depth visited = Ok subtree ->
  In t subtree ->
  set_mem node_id visited = false /\ (depth <= 5)%Z
  /\ exists child sub,
       t = Node child sub
       /\ build_subtree fuel children_of (child_id child) (depth + 1)
            (set_add node_id visited) = Ok sub.
Proof.
  simpl. destruct (set_mem node_id visited) eqn:Ev; simpl.
  { intros H. injection H as <-. contradiction. }
  destruct (5 <? depth)%Z eqn:Ed.
  { intros H. injection H as <-. contradiction. }
  apply Z.ltb_ge in Ed. intros H Hin.
  destruct (mapM_Ok_In _ _ _ H t Hin) as [child [_ Hc]].
  repeat split; [exact Ed|].
  destruct (build_subtree fuel children_of (child_id child) (depth + 1)
              (set_add node_id visited)) as [sub|] eqn:Es; simpl in Hc;
    [|discriminate].
  injection Hc as <-. exists child, sub. auto.
Qed.

(** The traversal returns as soon as the fuel covers the levels left. *)
Lemma build_subtree_total (fuel : nat) :
  forall (node_id : string) (depth : Z) (visited : list string),
    (Z.max 0 (6 - depth) < Z.of_nat fuel)%Z ->
    exists subtree,
      build_subtree fuel children_of node_id depth visited = Ok subtree.
Proof.
  induction fuel as [|fuel IH]; intros node_id depth visited H.
  - lia.
  - simpl. destruct (set_mem node_id visited || (5 <? depth)%Z) eqn:G;
      [eexists; reflexivity|].
    apply orb_false_iff in G. destruct G as [_ G]. apply Z.ltb_ge in G.
    apply mapM_total. intros child _.
    destruct (IH (child_id child) (depth + 1)%Z (set_add node_id visited))
      as [sub ->]; [lia|].
    eexists; reflexivity.
Qed.

(** More fuel does not change a result. *)
Lemma build_subtree_fuel_mono (fuel : nat) :
  forall (fuel' : nat) (node_id : string) (depth : Z) (visited : list string)
         (subtree : list TreeNode),
    (fuel <= fuel')%nat ->
    build_subtree fuel children_of node_id depth visited = Ok subtree ->
    build_subtree fuel' children_of node_id depth visited = Ok subtree.
Proof.
  induction fuel as [|fuel IH]; intros fuel' node_id depth visited subtree L H;
    [discriminate|].
  destruct fuel' as [|fuel']; [lia|]. simpl in *.
  destruct (set_mem node_id visited || (5 <? depth)%Z); [exact H|].
  eapply mapM_ext_Ok; [|exact H].
  intros child t _ E. cbv beta in E |- *.
  destruct (build_subtree fuel children_of (child_id child) (depth + 1)
              (set_add node_id visited)) as [sub|] eqn:Es; simpl in E;
    [|discriminate].
  rewrite (IH fuel' _ _ _ sub); [exact E | lia | exact Es].
Qed.

(** On every path below a call, a concept that has children is neither the
    node of the call, nor on the path above it, nor repeated. *)
Lemma build_subtree_paths (fuel : nat) :
  forall (node_id : string) (depth : Z) (visited : list string)
         (subtree : list TreeNode) (t : TreeNode) (path : list string),
    build_subtree fuel children_of node_id depth visited = Ok subtree ->
    In t subtree -> In path (node_paths t) ->
    NoDup (removelast path)
    /\ forall x, In x (removelast path) ->
                 set_mem x (set_add node_id visited) = false.
Proof.
  induction fuel as [|fuel IH];
    intros node_id depth visited subtree t path H Ht Hp; [discriminate|].
  destruct (build_subtree_entry _ _ _ _ _ _ H Ht)
    as [_ [_ [child [sub [-> Hsub]]]]].
  simpl in Hp. destruct sub as [|t' ts] eqn:Esub.
  - destruct Hp as [<-|[]]. simpl. split; [constructor | contradiction].
  - rewrite <- Esub in *.
    apply in_map_iff in Hp. destruct Hp as [p [<- Hp]].
    apply in_flat_map in Hp. destruct Hp as [u [Hu Hpu]].
    destruct (IH _ _ _ _ u p Hsub Hu Hpu) as [Hnd Hfresh].
    rewrite (removelast_cons _ _ (node_paths_nonempty _ _ Hpu)).
    assert (Hc : set_mem (child_id child) (set_add node_id visited) = false).
    { destruct fuel as [|fuel']; [discriminate|].
      assert (Hin : In t' sub) by (rewrite Esub; now left).
      apply (build_subtree_entry _ _ _ _ _ _ Hsub Hin). }
    split.
    + constructor; [|exact Hnd]. intros Hin. apply Hfresh in Hin.
      rewrite set_mem_add, String.eqb_refl in Hin. discriminate.
    + intros x [<-|Hx]; [exact Hc|].
      apply Hfresh in Hx. rewrite set_mem_add in Hx.
      apply orb_false_iff in Hx. tauto.
Qed.

(** Below a call at [depth], nothing lies more than [5 - depth] levels under
    the entries of its result. *)
Lemma build_subtree_depth (fuel : nat) :
  forall (node_id : string) (depth : Z) (visited : list string)
         (subtree : list TreeNode) (t : TreeNode) (d : nat),
    build_subtree fuel children_of node_id depth visited = Ok subtree ->
    In t subtree -> (5 < depth + Z.of_nat d)%Z ->
    node_ids_at d t = [].
Proof.
  induction fuel as [|fuel IH];
    intros node_id depth visited subtree t d H Ht Hd; [discriminate|].
  destruct (build_subtree_entry _ _ _ _ _ _ H Ht)
    as [_ [Hdepth [child [sub [-> Hsub]]]]].
  destruct d as [|d]; [lia|]. simpl.
  assert (Hall : forall u, In u sub -> node_ids_at d u = []).
  { intros u Hu. apply (IH _ _ _ _ u d Hsub Hu). lia. }
  now apply flat_map_nil.
Qed.

Lemma grow_forest_In (fuel : nat) (roots : list Root) (forest : list RootNode)
    (t : RootNode) :
  grow_forest fuel children_of roots = Ok forest -> In t forest ->
  snd t <> []
  /\ build_subtree fuel children_of (root_id (fst t)) 0 [] = Ok (snd t).
Proof.
  revert forest; induction roots as [|root roots IH]; simpl; intros forest H Ht.
  - injection H as <-. contradiction.
  - destruct (build_subtree fuel children_of (root_id root) 0 [])
      as [subtree|] eqn:Es; simpl in H; [|discriminate].
    destruct (grow_forest fuel children_of roots) as [tree|]; simpl in H;
      [|discriminate].
    injection H as <-. destruct subtree as [|u us].
    + now apply (IH tree).
    + destruct Ht as [<-|Ht]; [|now apply (IH tree)].
      simpl. split; [discriminate | exact Es].
Qed.

Lemma grow_forest_total (fuel : nat) (roots : list Root) :
  (7 <= fuel)%nat -> exists forest, grow_forest fuel children_of roots = Ok forest.
Proof.
  intros Hf. induction roots as [|root roots [tree IH]]; simpl;
    [eexists; reflexivity|].
  destruct (build_subtree_total fuel (root_id root) 0 []) as [subtree ->]; [lia|].
  rewrite IH. eexists; reflexivity.
Qed.

Lemma grow_forest_fuel (fuel : nat) (roots : list Root) :
  (7 <= fuel)%nat ->
  grow_forest fuel children_of roots = grow_forest 7 children_of roots.
Proof.
  intros Hf. induction roots as [|root roots IH]; cbn [grow_forest];
    [reflexivity|].
  destruct (build_subtree_total 7 (root_id root) 0 []) as [subtree E]; [lia|].
  rewrite E, (build_subtree_fuel_mono 7 fuel _ _ _ _ Hf E), IH. reflexivity.
Qed.
End SubtreeFacts.

Section ForestFacts.
Variable self : CooccurrenceEngine.
Variables (min_p_broader min_asymmetry : Q) (min_cooc min_count : Z).

#[local] Abbreviation build :=
  (build_hierarchy_tree self min_p_broader min_asymmetry min_cooc min_count).

Lemma collect_roots_result (parents has_parent : list string) :
  (exists roots, collect_roots self parents has_parent = Ok roots)
  \/ (exists k, collect_roots self parents has_parent = Raise (KeyError k)).
Proof.
  induction parents as [|parent_id rest IH]; simpl.
  - left. eexists; reflexivity.
  - destruct (negb (set_mem parent_id has_parent)); [|exact IH].
    unfold dict_item.
    destruct (dict_get (concept_names self) parent_id); simpl;
      [|right; eexists; reflexivity].
    destruct (dict_get (concept_counts self) parent_id); simpl;
      [|right; eexists; reflexivity].
    destruct IH as [[roots ->]|[k ->]]; simpl.
    + left. eexists; reflexivity.
    + right. eexists; reflexivity.
Qed.

(** The traversal always returns: only a concept missing from the tables
    can make the call raise. *)
Lemma build_returns (recursion_limit : nat) :
  (7 <= recursion_limit)%nat ->
  (exists forest, build recursion_limit = Ok forest)
  \/ (exists k, build recursion_limit = Raise (KeyError k)).
Proof.
  intros Hl. unfold build_hierarchy_tree.
  destruct (collect_roots_result
              (map fst (sort_children
                 (fst (index_relationships self min_p_broader min_asymmetry
                         min_cooc min_count))))
              (snd (index_relationships self min_p_broader min_asymmetry
                      min_cooc min_count)))
    as [[roots ->]|[k ->]]; simpl.
  - left. now apply grow_forest_total.
  - right. eexists; reflexivity.
Qed.

Lemma build_fuel (recursion_limit : nat) :
  (7 <= recursion_limit)%nat -> build recursion_limit = build 7.
Proof.
  intros Hl. unfold build_hierarchy_tree.
  destruct (collect_roots self _ _); simpl; [|reflexivity].
  now apply grow_forest_fuel.
Qed.

Lemma build_In (recursion_limit : nat) (forest : list RootNode) (t : RootNode) :
  build recursion_limit = Ok forest -> In t forest ->
  exists children_of,
    snd t <> []
    /\ build_subtree recursion_limit children_of (root_id (fst t)) 0 []
       = Ok (snd t).
Proof.
  unfold build_hierarchy_tree.
  destruct (collect_roots self _ _); simpl; [|discriminate].
  intros H Ht. eexists. exact (grow_forest_In _ _ _ _ _ H Ht).
Qed.
End ForestFacts.

(** C2, as the claim has it, fails: below the root [R], with the admitted
    cycle [A], [B], [C], [A], the forest has the root-to-leaf path
    [R, A, B, C, A], on which [A] stands twice. *)
Lemma cycle_path_repeats :
  exists forest t,
    build_hierarchy_tree Sample.cycle_engine (5 # 10) (2 # 1) 5 10 1000
    = Ok forest
    /\ In t forest
    /\ In ["R"; "A"; "B"; "C"; "A"]%string (root_paths t)
    /\ ~ NoDup ["R"; "A"; "B"; "C"; "A"]%string.
Proof.
  eexists. eexists. split; [vm_compute; reflexivity|].
  split; [left; reflexivity|].
  split; [left; reflexivity|].
  intros H. inversion H as [|? ? _ H1]; subst.
  inversion H1 as [|? ? N _]; subst.
  apply N. right. right. left. reflexivity.
Qed.

(** C2 (forest acyclic-safety), amended.  With room for seven nested calls
    the traversal returns, and returns the same whatever the room beyond
    that: [build_hierarchy_tree] gives a forest unless a concept is missing
    from the tables.  On every root-to-leaf path of the forest the concepts
    before the last one are pairwise distinct: only the leaf that ends a
    path may repeat a concept met earlier on it. *)
Theorem forest_acyclic_safety :
  forall (self : CooccurrenceEngine) (min_p_broader min_asymmetry : Q)
         (min_cooc min_count : Z) (recursion_limit : nat),
    (7 <= recursion_limit)%nat ->
    build_hierarchy_tree self min_p_broader min_asymmetry min_cooc min_count
      recursion_limit
    = build_hierarchy_tree self min_p_broader min_asymmetry min_cooc min_count 7
    /\ ((exists forest,
            build_hierarchy_tree self min_p_broader min_asymmetry min_cooc
              min_count recursion_limit = Ok forest)
        \/ (exists k,
               build_hierarchy_tree self min_p_broader min_asymmetry min_cooc
                 min_count recursion_limit = Raise (KeyError k)))
    /\ forall forest t path,
         build_hierarchy_tree self min_p_broader min_asymmetry min_cooc
           min_count recursion_limit = Ok forest ->
         In t forest -> In path (root_paths t) ->
         NoDup (removelast path).
Proof.
  intros self mp ma mc mn limit Hl.
  split; [now apply build_fuel|]. split; [now apply build_returns|].
  intros forest t path H Ht Hp.
  destruct (build_In _ _ _ _ _ _ _ _ H Ht) as [children_of [Hne Hsub]].
  unfold root_paths in Hp. destruct (snd t) as [|u us] eqn:Et; [congruence|].
  apply in_map_iff in Hp. destruct Hp as [p [<- Hp]].
  apply in_flat_map in Hp. destruct Hp as [v [Hv Hpv]].
  destruct (build_subtree_paths _ _ _ _ _ _ _ _ Hsub Hv Hpv) as [Hnd Hfresh].
  rewrite (removelast_cons _ _ (node_paths_nonempty _ _ Hpv)).
  constructor; [|exact Hnd].
  intros Hin. apply Hfresh in Hin.
  rewrite set_mem_add, String.eqb_refl in Hin. discriminate.
Qed.

Lemma forest_acyclic_safety_witness :
  (7 <= 8)%nat
  /\ build_hierarchy_tree Sample.cycle_engine (5 # 10) (2 # 1) 5 10 8
     = build_hierarchy_tree Sample.cycle_engine (5 # 10) (2 # 1) 5 10 7
  /\ ((exists forest,
          build_hierarchy_tree Sample.cycle_engine (5 # 10) (2 # 1) 5 10 8
          = Ok forest)
      \/ (exists k,
             build_hierarchy_tree Sample.cycle_engine (5 # 10) (2 # 1) 5 10 8
             = Raise (KeyError k)))
  /\ forall forest t path,
       build_hierarchy_tree Sample.cycle_engine (5 # 10) (2 # 1) 5 10 8
       = Ok forest ->
       In t forest -> In path (root_paths t) ->
       NoDup (removelast path).
Proof.
  split; [lia|].
  apply (forest_acyclic_safety Sample.cycle_engine (5 # 10) (2 # 1) 5 10 8).
  lia.
Defined.

(** C3, as the claim has it, fails: in a chain of admitted edges the concept
    six steps below the root is in the forest, at depth 6. *)
Lemma chain_reaches_depth_six :
  exists forest t,
    build_hierarchy_tree Sample.chain_engine (5 # 10) (2 # 1) 5 10 1000
    = Ok forest
    /\ In t forest
    /\ root_ids_at 6 t = ["n6"%string].
Proof.
  eexists. eexists. split; [vm_compute; reflexivity|].
  split; [left; reflexivity | reflexivity].
Qed.

(** C3 (depth cap), amended.  Every node of the forest lies at depth at most
    6 from its root (roots at depth 0, so at most 7 levels): nothing is at
    depth 7 or deeper, and so a node at depth 6 has no children. *)
Theorem forest_depth_bound :
  forall (self : CooccurrenceEngine) (min_p_broader min_asymmetry : Q)
         (min_cooc min_count : Z) (recursion_limit : nat)
         (forest : list RootNode) (t : RootNode) (d : nat),
    build_hierarchy_tree self min_p_broader min_asymmetry min_cooc min_count
      recursion_limit = Ok forest ->
    In t forest -> (6 < d)%nat ->
    root_ids_at d t = [].
Proof.
  intros self mp ma mc mn limit forest t d H Ht Hd.
  destruct (build_In _ _ _ _ _ _ _ _ H Ht) as [children_of [_ Hsub]].
  destruct d as [|d]; [lia|]. simpl.
  apply flat_map_nil. intros u Hu.
  apply (build_subtree_depth _ _ _ _ _ _ u d Hsub Hu). lia.
Qed.

Lemma forest_depth_bound_witness :
  build_hierarchy_tree Sample.chain_engine (5 # 10) (2 # 1) 5 10 7
  = Ok Sample.chain_forest
  /\ In (nth 0 Sample.chain_forest Sample.no_tree) Sample.chain_forest
  /\ (6 < 7)%nat
  /\ root_ids_at 6 (nth 0 Sample.chain_forest Sample.no_tree) = ["n6"%string]
  /\ root_ids_at 7 (nth 0 Sample.chain_forest Sample.no_tree) = [].
Proof.
  assert (H : build_hierarchy_tree Sample.chain_engine (5 # 10) (2 # 1) 5 10 7
              = Ok Sample.chain_forest) by (vm_compute; reflexivity).
  assert (Ht : In (nth 0 Sample.chain_forest Sample.no_tree)
                 Sample.chain_forest) by (left; reflexivity).
  assert (Hd : (6 < 7)%nat) by lia.
  split; [exact H|]. split; [exact Ht|]. split; [exact Hd|].
  split; [reflexivity|].
  exact (forest_depth_bound Sample.chain_engine (5 # 10) (2 # 1) 5 10 7
           Sample.chain_forest (nth 0 Sample.chain_forest Sample.no_tree) 7
           H Ht Hd).
Defined.

(* ------------------------------------------------------------------ *)
(** ** Loading *)

Module LoaderFacts.
Import Loader.

Lemma load_when_loaded (fs : FileSystem) (path : string) (self : EngineState) :
  loaded self = true -> load_precomputed fs path self = (self, Ok tt).
Proof. intros H. unfold load_precomputed. now rewrite H. Qed.

Lemma load_many_loaded (calls : list (FileSystem * string)) (self : EngineState) :
  loaded self = true -> load_many calls self = self.
Proof.
  intros H. induction calls as [|[fs path] calls IH]; simpl; [reflexivity|].
  rewrite (load_when_loaded fs path self H). exact IH.
Qed.

(** A first load, step by step. *)
Lemma load_unloaded (fs : FileSystem) (path : string) (self : EngineState) :
  loaded self = false ->
  load_precomputed fs path self =
  match read fs path with
  | Raise e => (self, Raise e)
  | Ok data =>
      match subscript data "concept_names" with
      | Raise e => (self, Raise e)
      | Ok v1 =>
          let s1 := set_concept_names v1 self in
          match subscript data "concept_counts" with
          | Raise e => (s1, Raise e)
          | Ok v2 =>
              let s2 := set_concept_counts v2 s1 in
              match subscript data "total_citations" with
              | Raise e => (s2, Raise e)
              | Ok v3 =>
                  let s3 := set_total_citations v3 s2 in
                  match subscript data "relationships" with
                  | Raise e => (s3, Raise e)
                  | Ok v4 =>
                      let s5 := set_loaded true (set_relationships v4 s3) in
                      (s5,
                       _ <- py_len v1 ;; _ <- py_len v4 ;; Ok tt)
                  end
              end
          end
      end
  end.
Proof.
  intros H. unfold load_precomputed. rewrite H.
  unfold mbind, lift, assign, report.
  destruct (read fs path) as [data|e]; [|reflexivity].
  destruct (subscript data "concept_names") as [v1|e]; [|reflexivity].
  destruct (subscript data "concept_counts") as [v2|e]; [|reflexivity].
  destruct (subscript data "total_citations") as [v3|e]; [|reflexivity].
  destruct (subscript data "relationships") as [v4|e]; reflexivity.
Qed.

Lemma py_len_sized (v : JSON) :
  (exists n, py_len v = Ok n) <-> sized v = true.
Proof.
  destruct v; simpl; split; intros H; try discriminate;
    try (destruct H; discriminate); try reflexivity; eexists; reflexivity.
Qed.
End LoaderFacts.

(** C7 (idempotent load).  After a call of [load_precomputed] that returned
    normally, every later call, with any path and any state of the files, is
    a no-op: it returns normally and leaves the engine as it is, and so does
    any run of later calls.  If that call was the first to load, the four
    tables hold the values of the document it read. *)
Theorem load_idempotent :
  forall (fs : Loader.FileSystem) (path : string)
         (self self' : Loader.EngineState),
    Loader.load_precomputed fs path self = (self', Ok tt) ->
    (forall fs' path', Loader.load_precomputed fs' path' self' = (self', Ok tt))
    /\ (forall calls, Loader.load_many calls self' = self')
    /\ (Loader.loaded self = false ->
        exists data,
          fs path = Loader.Parsed data
          /\ Loader.subscript data "concept_names"
             = Ok (Loader.concept_names self')
          /\ Loader.subscript data "concept_counts"
             = Ok (Loader.concept_counts self')
          /\ Loader.subscript data "total_citations"
             = Ok (Loader.total_citations self')
          /\ Loader.subscript data "relationships"
             = Ok (Loader.relationships self')).
Proof.
  intros fs path self self' H.
  assert (Hl : Loader.loaded self' = true
               /\ (Loader.loaded self = false ->
                   exists data,
                     fs path = Loader.Parsed data
                     /\ Loader.subscript data "concept_names"
                        = Ok (Loader.concept_names self')
                     /\ Loader.subscript data "concept_counts"
                        = Ok (Loader.concept_counts self')
                     /\ Loader.subscript data "total_citations"
                        = Ok (Loader.total_citations self')
                     /\ Loader.subscript data "relationships"
                        = Ok (Loader.relationships self'))).
  { destruct (Loader.loaded self) eqn:E.
    - rewrite (LoaderFacts.load_when_loaded fs path self E) in H.
      injection H as <-. split; [exact E | discriminate].
    - rewrite (LoaderFacts.load_unloaded fs path self E) in H.
      unfold Loader.read in H.
      destruct (fs path) as [| | |data] eqn:Efs; try discriminate H.
      destruct (Loader.subscript data "concept_names") as [v1|] eqn:E1;
        [|discriminate H].
      destruct (Loader.subscript data "concept_counts") as [v2|] eqn:E2;
        [|discriminate H].
      destruct (Loader.subscript data "total_citations") as [v3|] eqn:E3;
        [|discriminate H].
      destruct (Loader.subscript data "relationships") as [v4|] eqn:E4;
        [|discriminate H].
      cbv zeta in H. injection H as <- _. simpl.
      split; [reflexivity|]. intros _. exists data. auto. }
  destruct Hl as [Hl Hd]. repeat split.
  - intros fs' path'. now apply LoaderFacts.load_when_loaded.
  - intros calls. now apply LoaderFacts.load_many_loaded.
  - exact Hd.
Qed.

Lemma load_idempotent_witness :
  Loader.load_precomputed Loader.sample_fs "good.json" Loader.init
  = (Loader.loaded_state, Ok tt)
  /\ Loader.load_precomputed Loader.sample_fs "other.json" Loader.loaded_state
     = (Loader.loaded_state, Ok tt)
  /\ Loader.load_many
       [(Loader.sample_fs, "other.json"%string);
        (Loader.sample_fs, "missing.json"%string)] Loader.loaded_state
     = Loader.loaded_state
  /\ Loader.concept_names Loader.loaded_state
     = Loader.JObj [("c1"%string, Loader.JStr "Astronomy")].
Proof.
  assert (H : Loader.load_precomputed Loader.sample_fs "good.json" Loader.init
              = (Loader.loaded_state, Ok tt)) by reflexivity.
  destruct (load_idempotent Loader.sample_fs "good.json" Loader.init
              Loader.loaded_state H) as [Hnoop [Hmany _]].
  split; [exact H|]. split; [apply Hnoop|]. split; [apply Hmany|].
  reflexivity.
Defined.

(** C8, as the claim has it, fails in both directions.  A document with all
    four keys whose [concept_names] is a number makes the call raise, in the
    closing [print], after the load has been marked successful; and on an
    engine that has loaded, a missing file raises nothing. *)
Lemma load_failure_not_exact :
  ~ (Loader.raises
       (Loader.load_precomputed Loader.sample_fs "unsized.json" Loader.init)
     <-> Loader.bad_input Loader.sample_fs "unsized.json")
  /\ Loader.loaded
       (fst (Loader.load_precomputed Loader.sample_fs "unsized.json"
               Loader.init)) = true
  /\ ~ (Loader.raises
          (Loader.load_precomputed Loader.sample_fs "missing.json"
             Loader.loaded_state)
        <-> Loader.bad_input Loader.sample_fs "missing.json").
Proof.
  split; [|split].
  - intros [H _].
    assert (R : Loader.raises
                  (Loader.load_precomputed Loader.sample_fs "unsized.json"
                     Loader.init))
      by (exists TypeError; reflexivity).
    apply H in R. vm_compute in R. discriminate R.
  - reflexivity.
  - intros [_ H].
    assert (B : Loader.bad_input Loader.sample_fs "missing.json")
      by exact I.
    apply H in B. destruct B as [e He]. vm_compute in He. discriminate He.
Qed.

(** C8 (load failures), amended.  On an engine that has loaded,
    [load_precomputed] never raises, whatever the path, and leaves the engine
    as it is.  On an engine that has not loaded yet, it raises exactly when
    the file is missing, unreadable or not valid JSON, or the parsed document
    lacks one of the four required top-level keys, or the document has the
    four keys but the value of [concept_names] or of [relationships] is one
    [len] does not accept; and on a failure of the first four kinds the load
    is not marked successful. *)
Theorem load_failure :
  forall (fs : Loader.FileSystem) (path : string) (self : Loader.EngineState),
    (Loader.loaded self = true ->
     ~ Loader.raises (Loader.load_precomputed fs path self)
     /\ fst (Loader.load_precomputed fs path self) = self)
    /\ (Loader.loaded self = false ->
        (Loader.raises (Loader.load_precomputed fs path self)
         <-> Loader.bad_input fs path \/ Loader.unsized_tables fs path)
        /\ (Loader.bad_input fs path ->
            Loader.loaded (fst (Loader.load_precomputed fs path self))
            = false)).
Proof.
  intros fs path self. split.
  { intros Hl. rewrite (LoaderFacts.load_when_loaded fs path self Hl).
    split; [|reflexivity]. intros [e He]. discriminate He. }
  intros Hl.
  rewrite (LoaderFacts.load_unloaded fs path self Hl).
  unfold Loader.bad_input, Loader.unsized_tables, Loader.read, Loader.raises.
  destruct (fs path) as [| | |data]; simpl;
    try (split; [split; [auto | intros _; eexists; reflexivity] | auto]).
  destruct data as [| | | | | |members];
    try (simpl; split;
         [split; [auto | intros _; eexists; reflexivity] | auto]).
  unfold Loader.has_required_keys, Loader.required_keys, Loader.sized_at,
    Loader.has_key, Loader.subscript, dict_item.
  cbn [forallb].
  destruct (dict_get members "concept_names") as [v1|]; simpl;
    [|split; [split; [auto | intros _; eexists; reflexivity] | auto]].
  destruct (dict_get members "concept_counts") as [v2|]; simpl;
    [|split; [split; [auto | intros _; eexists; reflexivity] | auto]].
  destruct (dict_get members "total_citations") as [v3|]; simpl;
    [|split; [split; [auto | intros _; eexists; reflexivity] | auto]].
  destruct (dict_get members "relationships") as [v4|]; simpl;
    [|split; [split; [auto | intros _; eexists; reflexivity] | auto]].
  split; [|discriminate].
  destruct v1, v4; simpl; split;
    try (intros [e He]; discriminate He);
    try (intros [Hf|[_ Hf]]; discriminate Hf);
    try (intros _; right; split; reflexivity);
    try (intros _; eexists; reflexivity).
Qed.

Lemma load_failure_witness :
  (Loader.loaded Loader.loaded_state = true
   /\ ~ Loader.raises
          (Loader.load_precomputed Loader.sample_fs "missing.json"
             Loader.loaded_state)
   /\ fst (Loader.load_precomputed Loader.sample_fs "missing.json"
             Loader.loaded_state) = Loader.loaded_state)
  /\ Loader.loaded Loader.init = false
  /\ (Loader.raises
        (Loader.load_precomputed Loader.sample_fs "broken.json" Loader.init)
      <-> Loader.bad_input Loader.sample_fs "broken.json"
          \/ Loader.unsized_tables Loader.sample_fs "broken.json")
  /\ (Loader.bad_input Loader.sample_fs "broken.json" ->
      Loader.loaded
        (fst (Loader.load_precomputed Loader.sample_fs "broken.json"
                Loader.init)) = false).
Proof.
  split; [split; [reflexivity|]|split; [reflexivity|]].
  - apply (proj1 (load_failure Loader.sample_fs "missing.json"
                    Loader.loaded_state)).
    reflexivity.
  - apply (proj2 (load_failure Loader.sample_fs "broken.json" Loader.init)).
    reflexivity.
Defined.

(* ------------------------------------------------------------------ *)
(** ** The text export *)

Lemma dict_get_list_append {V : Type} (d : list (string * list V))
    (k : string) (x : V) (b : string) :
  dict_get_list (dict_append d k x) b
  = if String.eqb k b then dict_get_list d b ++ [x] else dict_get_list d b.
Proof.
  unfold dict_get_list. induction d as [|[k' l] d IH]; simpl.
  - destruct (String.eqb k b); reflexivity.
  - destruct (String.eqb k' k) eqn:E; simpl.
    + apply String.eqb_eq in E. subst k'.
      destruct (String.eqb k b); reflexivity.
    + destruct (String.eqb k' b) eqn:E'; [|exact IH].
      apply String.eqb_eq in E'. subst k'.
      rewrite String.eqb_sym, E. reflexivity.
Qed.

Lemma dict_append_keys {V : Type} (d : list (string * list V))
    (k : string) (x : V) :
  map fst (dict_append d k x)
  = if set_mem k (map fst d) then map fst d else map fst d ++ [k].
Proof.
  unfold set_mem. induction d as [|[k' l] d IH]; simpl; [reflexivity|].
  rewrite (String.eqb_sym k k').
  destruct (String.eqb k' k); simpl; [reflexivity|].
  rewrite IH. destruct (existsb (String.eqb k) (map fst d)); reflexivity.
Qed.

Lemma set_mem_In (x : string) (s : list string) :
  set_mem x s = true <-> In x s.
Proof.
  unfold set_mem. rewrite existsb_exists. split.
  - intros [y [Hy E]]. apply String.eqb_eq in E. now subst.
  - intros H. exists x. split; [exact H | apply String.eqb_refl].
Qed.

Section GroupFacts.
Variable results : list Relationship.

(** The groups after the loop has gone through a prefix of the page. *)
Lemma group_fold (done todo : list Relationship)
    (groups : list (string * list Relationship)) :
  NoDup (map fst groups) ->
  (forall b, dict_get_list groups b = filter (has_broader_name b) done) ->
  (forall b, In b (map fst groups) <-> exists r, In r done /\ broader_name r = b) ->
  let groups' :=
    fold_left (fun g r => dict_append g (broader_name r) r) todo groups in
  NoDup (map fst groups')
  /\ (forall b, dict_get_list groups' b
                = filter (has_broader_name b) (done ++ todo))
  /\ (forall b, In b (map fst groups')
                <-> exists r, In r (done ++ todo) /\ broader_name r = b).
Proof.
  revert done groups. induction todo as [|r todo IH];
    intros done groups Hnd Hget Hkeys; simpl.
  - rewrite app_nil_r. auto.
  - replace (done ++ r :: todo) with ((done ++ [r]) ++ todo)
      by (rewrite <- app_assoc; reflexivity).
    apply IH.
    + rewrite dict_append_keys.
      destruct (set_mem (broader_name r) (map fst groups)) eqn:E; [exact Hnd|].
      apply NoDup_app_remove_l with (l := []). simpl.
      apply Permutation_NoDup with (l := broader_name r :: map fst groups).
      * apply Permutation_cons_append.
      * constructor; [|exact Hnd]. intros Hin.
        apply set_mem_In in Hin. congruence.
    + intros b. rewrite dict_get_list_append, filter_app, Hget.
      cbn [filter]. unfold has_broader_name.
      destruct (String.eqb (broader_name r) b);
        [reflexivity | now rewrite app_nil_r].
    + intros b. rewrite dict_append_keys.
      assert (Hb : In b (map fst groups ++ [broader_name r])
                   <-> exists r0, In r0 (done ++ [r]) /\ broader_name r0 = b).
      { rewrite in_app_iff, Hkeys. simpl. split.
        - intros [[r0 [H0 E0]]|[<-|[]]].
          + exists r0. split; [apply in_or_app; now left | exact E0].
          + exists r. split; [apply in_or_app; right; now left | reflexivity].
        - intros [r0 [H0 E0]]. apply in_app_or in H0.
          destruct H0 as [H0|[<-|[]]]; [left; now exists r0 | right; now left]. }
      destruct (set_mem (broader_name r) (map fst groups)) eqn:E; [|exact Hb].
      rewrite <- Hb, in_app_iff. simpl. apply set_mem_In in E.
      split; [auto|]. intros [H|[<-|[]]]; assumption.
Qed.

Lemma group_results_spec :
  NoDup (map fst (group_results results))
  /\ (forall b, dict_get_list (group_results results) b
                = filter (has_broader_name b) results)
  /\ (forall b, In b (map fst (group_results results))
                <-> exists r, In r results /\ broader_name r = b).
Proof.
  apply (group_fold [] results []).
  - constructor.
  - reflexivity.
  - intros b. simpl. split; [contradiction | intros [r [[] _]]].
Qed.
End GroupFacts.

Lemma sorted_nodup_strict (l : list string) :
  StronglySorted (fun a b => PyStr.le a b = true) l -> NoDup l ->
  StronglySorted str_lt l.
Proof.
  induction 1 as [|x l Hs IH Hx]; intros Hnd; constructor.
  - apply IH. now inversion Hnd.
  - inversion Hnd as [|? ? Hnin _]; subst.
    rewrite Forall_forall in *. intros y Hy. split; [now apply Hx|].
    intros ->. contradiction.
Qed.

Lemma round_half_even_near (x : Q) :
  Qabs (x - inject_Z (round_half_even x)) <= 1 # 2.
Proof.
  unfold round_half_even. cbv zeta.
  pose proof (Qfloor_le x) as Hlo. pose proof (Qlt_floor x) as Hhi.
  rewrite inject_Z_plus in Hhi. change (inject_Z 1) with 1 in Hhi.
  destruct (Qltb (x - inject_Z (Qfloor x)) (1 # 2)) eqn:E1.
  { apply Qltb_true in E1. apply Qabs_case; intros; lra. }
  apply Qltb_false in E1.
  destruct (Qltb (1 # 2) (x - inject_Z (Qfloor x))) eqn:E2.
  { apply Qltb_true in E2. rewrite inject_Z_plus.
    change (inject_Z 1) with 1. apply Qabs_case; intros; lra. }
  apply Qltb_false in E2.
  destruct (Z.even (Qfloor x));
    [|rewrite inject_Z_plus; change (inject_Z 1) with 1];
    apply Qabs_case; intros; lra.
Qed.

(** [round1] gives a number of tenths, at most a twentieth away. *)
Lemma round1_spec (x : Q) :
  (exists n : Z, round1 x = n # 10) /\ Qabs (x - round1 x) <= 1 # 20.
Proof.
  split; [eexists; reflexivity|].
  unfold round1. pose proof (round_half_even_near (x * 10)) as H.
  set (n := round_half_even (x * 10)) in *.
  assert (E : n # 10 == inject_Z n * (1 # 10)).
  { unfold Qeq, inject_Z, Qmult. simpl. lia. }
  rewrite E. revert H. apply Qabs_case; intros H1 H2;
    apply Qabs_case; intros H3; lra.
Qed.

Lemma flat_map_map {A B C : Type} (f : B -> list C) (g : A -> B) (l : list A) :
  flat_map f (map g l) = flat_map (fun x => f (g x)) l.
Proof.
  induction l as [|x l IH]; simpl; [reflexivity | now rewrite IH].
Qed.

Lemma sorted_results_In (self : CooccurrenceEngine)
    (min_narrower_count min_cooc : Z) (min_p_broader min_asymmetry : PyFloat)
    (concept_filter : option string) (sort_by : string) (sort_desc : bool)
    (r : Relationship) :
  In r (sorted_results self min_narrower_count min_cooc min_p_broader
          min_asymmetry concept_filter sort_by sort_desc)
  <-> In r (relationships self)
      /\ keeps min_narrower_count min_cooc min_p_broader min_asymmetry
           concept_filter r = true.
Proof.
  rewrite <- filter_In. split; apply Permutation_in;
    [|symmetry]; apply sorted_results_perm.
Qed.

(** *** Binary64 arithmetic *)

Lemma pow2_pos (e : Z) : 0 < pow2 e.
Proof.
  unfold pow2. destruct (0 <=? e)%Z eqn:E.
  - apply Z.leb_le in E. change 0 with (inject_Z 0). rewrite <- Zlt_Qlt.
    apply Z.pow_pos_nonneg; lia.
  - reflexivity.
Qed.

(** A finite result of [b64] is within half a unit in the last place of the
    number that was rounded. *)
Lemma b64_near (x y : Q) :
  b64 x = Finite y -> Qabs (y - x) <= pow2 (b64_exponent x) * (1 # 2).
Proof.
  unfold b64. pose proof (pow2_pos (b64_exponent x)) as HP.
  destruct (Qeq_bool x 0) eqn:E0.
  - intros H. injection H as <-. apply Qeq_bool_iff in E0.
    apply Qabs_case; intros; lra.
  - cbv zeta.
    pose proof (Qred_correct
                  (inject_Z (round_half_even (x / pow2 (b64_exponent x)))
                   * pow2 (b64_exponent x))) as Hy.
    set (y' := Qred _) in *.
    destruct (Qle_bool (pow2 1024) _);
      [destruct (0 <? _)%Z; discriminate|].
    intros H. injection H as <-. rewrite Hy. clear Hy y'.
    pose proof (round_half_even_near (x / pow2 (b64_exponent x))) as Hm.
    assert (Hx : x == pow2 (b64_exponent x) * (x / pow2 (b64_exponent x))).
    { symmetry. apply Qmult_div_r. lra. }
    set (d := x / pow2 (b64_exponent x)) in *.
    set (m := inject_Z (round_half_even d)) in *.
    set (P := pow2 (b64_exponent x)) in *.
    clearbody P m d.
    apply Qabs_Qle_condition in Hm. destruct Hm as [Hlo Hhi].
    apply Qabs_Qle_condition. rewrite Hx. split; nra.
Qed.

(** The percentage of a member, [round(p * 100, 1)]: the product is the
    binary64 number nearest to [p * 100]; the percentage is the binary64
    number nearest to the number of tenths nearest to that product. *)
Lemma pct_spec (r : Relationship) (x : Q) :
  fmul (p_broader_given_narrower r) 100 = Finite x ->
  Qabs (x - p_broader_given_narrower r * 100)
  <= pow2 (b64_exponent (p_broader_given_narrower r * 100)) * (1 # 2)
  /\ exists n : Z, pct r = b64 (n # 10) /\ Qabs (x - (n # 10)) <= 1 # 20.
Proof.
  intros H. split.
  - apply b64_near. exact H.
  - unfold pct. rewrite H. simpl.
    exists (round_half_even (x * 10)). split; [reflexivity|].
    apply (proj2 (round1_spec x)).
Qed.

(** 0.0015, the binary64 number. *)
Example product_of_0_0015 :
  fmul (3458764513820541 # 2305843009213693952) 100
  = Finite (5404319552844595 # 36028797018963968).
Proof. vm_compute. reflexivity. Qed.

(** Its product with 100 is the binary64 number 0.15, which lies below
    3/20, so the percentage is 0.1; rounding the exact product would have
    given 0.2. *)
Example percentage_of_0_0015 :
  py_round1 (fmul (3458764513820541 # 2305843009213693952) 100)
  = Finite (3602879701896397 # 36028797018963968)
  /\ Sample.show_float
       (py_round1 (fmul (3458764513820541 # 2305843009213693952) 100))
     = "0.1"%string
  /\ round1 ((3458764513820541 # 2305843009213693952) * 100) = 2 # 10.
Proof. vm_compute. repeat split. Qed.

(** 0.723 gives 72.3, 0.145 gives 14.5 and 0.61 gives 61.0. *)
Example percentage_of_0_723 :
  fmul (6512205061177737 # 9007199254740992) 100
  = Finite (5087660204045107 # 70368744177664)
  /\ py_round1 (fmul (6512205061177737 # 9007199254740992) 100)
     = Finite (5087660204045107 # 70368744177664)
  /\ fmul (5224175567749775 # 36028797018963968) 100
     = Finite (8162774324609023 # 562949953421312)
  /\ py_round1 (fmul (5224175567749775 # 36028797018963968) 100)
     = Finite (29 # 2)
  /\ py_round1 (fmul (5494391545392005 # 9007199254740992) 100)
     = Finite (61 # 1).
Proof. vm_compute. repeat split. Qed.

(** The largest binary64 number times 100 overflows, and rounding keeps an
    infinity and a [nan]. *)
Example product_overflows :
  fmul ((2 ^ 53 - 1) * 2 ^ 971 # 1) 100 = PosInf
  /\ fmul (- ((2 ^ 53 - 1) * 2 ^ 971) # 1) 100 = NegInf
  /\ py_round1 PosInf = PosInf
  /\ py_round1 NaN = NaN.
Proof. vm_compute. repeat split. Qed.

(** C9 (text export), amended.  The export groups the page that the listing
    returns for the thresholds, sorted by lowered broader name and cut at
    5000.  The header reports the number of stored relationships that pass
    the filter.  The page is the first [min(total, 5000)] of the passing
    relationships in ascending order of lowered broader name, those of equal
    lowered name in stored order; so it holds all that pass when no more than
    5000 do.  The export is the header followed by one block per broader
    display name found on the page, the blocks in strictly ascending string
    order of that name.  The members of a block are the relationships of the
    page with that broader name, in descending order of
    [p_broader_given_narrower], each on a line that carries its narrower name
    and [round(p * 100, 1)]: the binary64 product of [p] and 100, taken to
    the nearest number of tenths, as a binary64 number. *)
Theorem export_grouped_and_ordered :
  forall (str_float : PyFloat -> string) (str_int : Z -> string)
         (self : CooccurrenceEngine) (min_p min_asym : PyFloat)
         (min_cooc min_count : Z),
    let result := export_results self min_p min_asym min_cooc min_count in
    let page := fst result in
    let passing :=
      filter (keeps min_count min_cooc min_p min_asym None)
        (relationships self) in
    exists blocks : list (string * list Relationship),
      export_lines str_float str_int self min_p min_asym min_cooc min_count
      = header_lines str_float str_int min_p min_asym min_cooc min_count
          (snd result)
        ++ flat_map (fun b => group_block str_float (fst b) (snd b)) blocks
      /\ StronglySorted str_lt (map fst blocks)
      /\ (forall name,
             In name (map fst blocks)
             <-> exists r, In r page /\ broader_name r = name)
      /\ (forall name members,
             In (name, members) blocks ->
             Permutation members (filter (has_broader_name name) page)
             /\ StronglySorted
                  (fun a b =>
                     p_broader_given_narrower b <= p_broader_given_narrower a)
                  members)
      /\ (forall r,
             In r passing
             <-> In r (relationships self)
                 /\ passes_thresholds min_count min_cooc min_p min_asym r)
      /\ snd result = Z.of_nat (List.length passing)
      /\ (exists rest : list Relationship,
             Permutation (page ++ rest) passing
             /\ StronglySorted (ordered_by ByBroaderName false) (page ++ rest)
             /\ Z.of_nat (List.length page) = Z.min (snd result) 5000)
      /\ (forall r0, exists n,
             filter (same_key ByBroaderName r0) page
             = firstn n (filter (same_key ByBroaderName r0) passing))
      /\ ((snd result <= 5000)%Z -> forall r, In r passing -> In r page)
      /\ (forall (r : Relationship) (x : Q),
             fmul (p_broader_given_narrower r) 100 = Finite x ->
             Qabs (x - p_broader_given_narrower r * 100)
             <= pow2 (b64_exponent (p_broader_given_narrower r * 100))
                * (1 # 2)
             /\ exists n : Z,
                  pct r = b64 (n # 10) /\ Qabs (x - (n # 10)) <= 1 # 20).
Proof.
  intros str_float str_int self min_p min_asym min_cooc min_count
    result page passing.
  set (groups := group_results page).
  destruct (group_results_spec page) as [Hnd [Hget Hkeys]].
  fold groups in Hnd, Hget, Hkeys.
  exists (map (fun name => (name, sorted_members groups name))
            (sorted_keys groups)).
  assert (Hfst : map fst (map (fun name => (name, sorted_members groups name))
                            (sorted_keys groups)) = sorted_keys groups).
  { rewrite map_map. simpl. apply map_id. }
  assert (Hres : result
                 = (slice_to
                      (list_sort PyStr.le
                         (fun r => PyStr.lower (broader_name r)) false passing)
                      5000,
                    Z.of_nat
                      (List.length
                         (list_sort PyStr.le
                            (fun r => PyStr.lower (broader_name r)) false
                            passing)))).
  { reflexivity. }
  assert (Htotal : snd result = Z.of_nat (List.length passing)).
  { rewrite Hres. simpl. f_equal. apply list_sort_length. }
  destruct (page_sorted_stable PyStr.le String.eqb
              (fun r => PyStr.lower (broader_name r)) false passing 5000
              PyStrFacts.le_total PyStrFacts.le_trans String_eqb_le)
    as [_ Hstable].
  split; [|split; [|split; [|split; [|split; [|split; [|split;
    [|split; [|split]]]]]]]].
  - unfold export_lines. fold result.
    replace result with (fst result, snd result) by (now destruct result).
    fold page. fold groups. f_equal.
    rewrite flat_map_map. reflexivity.
  - rewrite Hfst. unfold sorted_keys. apply sorted_nodup_strict.
    + eapply StronglySorted_weaken;
        [|apply (list_sort_sorted PyStr.le (fun k : string => k) false
                   PyStrFacts.le_total PyStrFacts.le_trans)].
      intros a b H. exact H.
    + eapply Permutation_NoDup; [|exact Hnd].
      symmetry. apply list_sort_perm.
  - intros name. rewrite Hfst. unfold sorted_keys.
    rewrite list_sort_In. apply Hkeys.
  - intros name members Hin. apply in_map_iff in Hin.
    destruct Hin as [name' [E _]]. injection E as -> <-.
    unfold sorted_members. rewrite Hget. split.
    + apply list_sort_perm.
    + eapply StronglySorted_weaken;
        [|apply (list_sort_sorted Qle_bool p_broader_given_narrower true
                   Qle_bool_total Qle_bool_trans)].
      intros a b. unfold before. apply Qle_bool_iff.
  - intros r. unfold passing. rewrite filter_In, keeps_spec.
    unfold meets_text_filter. tauto.
  - exact Htotal.
  - unfold page. rewrite Htotal, Hres. cbn [fst snd].
    destruct (slice_to_prefix
                (list_sort PyStr.le (fun r => PyStr.lower (broader_name r))
                   false passing) 5000) as [n En].
    exists (skipn n (list_sort PyStr.le
                       (fun r => PyStr.lower (broader_name r)) false passing)).
    split; [|split].
    + rewrite En, firstn_skipn. apply list_sort_perm.
    + rewrite En, firstn_skipn.
      eapply StronglySorted_weaken;
        [|apply (list_sort_sorted PyStr.le
                   (fun r => PyStr.lower (broader_name r)) false
                   PyStrFacts.le_total PyStrFacts.le_trans)].
      intros a b H. exact H.
    + rewrite slice_to_length by lia. now rewrite list_sort_length.
  - intros r0. unfold page. rewrite Hres. cbn [fst].
    destruct (Hstable r0) as [n Hn]. exists n. exact Hn.
  - intros Hlen r Hin. unfold page. rewrite Hres. cbn [fst].
    rewrite slice_to_all.
    + apply list_sort_In. exact Hin.
    + rewrite list_sort_length, <- Htotal. exact Hlen.
  - intros r x. apply pct_spec.
Qed.

(** C9, as the claim has it, fails once more than 5000 relationships pass
    the filter: of 5001 that pass, the export lists 5000 (its 5008 lines are
    the header of five, one block of two opening lines, 5000 members and a
    closing line), while its header reports 5001. *)
Lemma export_leaves_out_beyond_cap :
  let r := Sample.numbered 5000 in
  let result := export_results Sample.big_engine 0 0 0 0 in
  In r (relationships Sample.big_engine)
  /\ reaches_thresholds 0 0 0 0 r
  /\ ~ In r (fst result)
  /\ snd result = 5001%Z
  /\ Z.of_nat
       (List.length
          (export_lines Sample.show_float Sample.show_int Sample.big_engine
             0 0 0 0)) = 5008%Z.
Proof.
  split; [|split; [|split; [|split]]].
  - apply (count_occ_In Relationship_eq_dec). vm_compute. constructor.
  - unfold reaches_thresholds, reaches. simpl. repeat split; lia.
  - apply (count_occ_not_In Relationship_eq_dec). vm_compute. reflexivity.
  - vm_compute. reflexivity.
  - vm_compute. reflexivity.
Qed.

(* ------------------------------------------------------------------ *)
(** ** The examples of the specification, run on the model *)

Example listing_returns_the_one_relationship :
  get_filtered_relationships Sample.abc_engine 10 5 (3 # 10) (15 # 10) None
    "asymmetry" true 500
  = (relationships Sample.abc_engine, 1%Z).
Proof. vm_compute. reflexivity. Qed.

Example lower_case_name_resolves :
  exists broader narrower symmetric,
    get_concept_tree Sample.abc_engine (3 # 10) (15 # 10) 3 5 "b"
    = Ok (Neighbourhood "b" "B" 50 broader narrower symmetric).
Proof. do 3 eexists. vm_compute. reflexivity. Qed.

Example unknown_name_gives_no_suggestion :
  get_concept_tree Sample.abc_engine (3 # 10) (15 # 10) 3 5 "xyz-nonexistent"
  = Ok (SuggestionsResponse [] [] [] []).
Proof. vm_compute. reflexivity. Qed.

Example empty_name_is_rejected_by_the_route :
  api_concept_tree Sample.abc_engine (3 # 10) (15 # 10) 3 5 ""
  = Http400 "No concept specified".
Proof. reflexivity. Qed.

Example export_of_the_sample :
  export_lines Sample.show_float Sample.show_int Sample.engine
    (6 # 10) (25 # 10) 5 10
  = ["# CB Co-occurrence Relationships (Empirically Derived)";
     "# Filters: P(broader|narrower) >= 0.6, asymmetry >= 2.5, co-occurrences >= 5, min citations >= 10";
     "# Total relationships: 3"; ""; "cb_cooccurrence:";
     "  - broader: Astronomy"; "    narrower:";
     "      - Astrophysics  # 72.3%"; "      - Cosmology  # 61.0%"; "";
     "  - broader: Physics"; "    narrower:";
     "      - Astronomy  # 60.0%"; ""]%string.
Proof. vm_compute. reflexivity. Qed.

(** The order of the blocks is the order of strings: a name in upper case
    comes before one in lower case. *)
Example export_order_is_case_sensitive :
  export_lines Sample.show_float Sample.show_int Sample.mixed_case_engine
    0 0 0 0
  = ["# CB Co-occurrence Relationships (Empirically Derived)";
     "# Filters: P(broader|narrower) >= 0.0, asymmetry >= 0.0, co-occurrences >= 0, min citations >= 0";
     "# Total relationships: 2"; ""; "cb_cooccurrence:";
     "  - broader: Zoology"; "    narrower:"; "      - Botany  # 80.0%"; "";
     "  - broader: astronomy"; "    narrower:"; "      - optics  # 80.0%";
     ""]%string.
Proof. vm_compute. reflexivity. Qed.

(* ================================================================== *)
(** * Further properties of the engine *)

(* ------------------------------------------------------------------ *)
(** ** More on the filtered listing *)

Lemma keeps_blank_filter (min_narrower_count min_cooc : Z)
    (min_p_broader min_asymmetry : PyFloat) (f : string) (r : Relationship) :
  PyStr.strip (PyStr.lower f) = EmptyString ->
  keeps min_narrower_count min_cooc min_p_broader min_asymmetry (Some f) r
  = keeps min_narrower_count min_cooc min_p_broader min_asymmetry None r.
Proof.
  intros H. unfold keeps, concept_filter_lower.
  destruct (PyStr.truthy f); [rewrite H|]; reflexivity.
Qed.

(** X1 (sort field the engine does not know).  When [sort_by] is none of the
    five names the listing compares it with, nothing is sorted: the page is
    cut from the matching relationships in stored order, whatever the
    direction asked for. *)
Theorem unknown_sort_field_keeps_stored_order :
  forall (self : CooccurrenceEngine) (min_narrower_count min_cooc : Z)
         (min_p_broader min_asymmetry : PyFloat) (concept_filter : option string)
         (sort_by : string) (sort_desc : bool) (limit : Z),
    ~ In sort_by
        ["asymmetry"; "p_broader_given_narrower"; "cooc_count";
         "narrower_name"; "broader_name"]%string ->
    get_filtered_relationships self min_narrower_count min_cooc min_p_broader
      min_asymmetry concept_filter sort_by sort_desc limit
    = (slice_to
         (filter (keeps min_narrower_count min_cooc min_p_broader
                    min_asymmetry concept_filter) (relationships self))
         limit,
       Z.of_nat
         (List.length
            (filter (keeps min_narrower_count min_cooc min_p_broader
                       min_asymmetry concept_filter) (relationships self)))).
Proof.
  intros self mn mc mp ma cf sort_by desc limit H.
  unfold get_filtered_relationships, sorted_results, filtered.
  repeat match goal with
         | |- context [String.eqb sort_by ?s] =>
             destruct (String.eqb_spec sort_by s) as [E|_];
             [exfalso; apply H; rewrite E; simpl; tauto|]
         end.
  reflexivity.
Qed.

Lemma unknown_sort_field_keeps_stored_order_witness :
  get_filtered_relationships Sample.engine 0 0 0 0 None
    "p_narrower_given_broader" true 500
  = (slice_to (filter (keeps 0 0 0 0 None) (relationships Sample.engine)) 500,
     Z.of_nat
       (List.length (filter (keeps 0 0 0 0 None) (relationships Sample.engine)))).
Proof.
  apply (unknown_sort_field_keeps_stored_order Sample.engine 0 0 0 0 None
           "p_narrower_given_broader" true 500).
  simpl. intros H.
  repeat (destruct H as [H|H]; [discriminate H|]). exact H.
Defined.

(** X2 (filter that strips to nothing).  A text filter whose lowered,
    stripped form is empty, such as one made of blanks, filters nothing: the
    listing answers as it does without a text filter. *)
Theorem blank_filter_is_no_filter :
  forall (self : CooccurrenceEngine) (min_narrower_count min_cooc : Z)
         (min_p_broader min_asymmetry : PyFloat) (f sort_by : string)
         (sort_desc : bool) (limit : Z),
    PyStr.strip (PyStr.lower f) = EmptyString ->
    get_filtered_relationships self min_narrower_count min_cooc min_p_broader
      min_asymmetry (Some f) sort_by sort_desc limit
    = get_filtered_relationships self min_narrower_count min_cooc
        min_p_broader min_asymmetry None sort_by sort_desc limit.
Proof.
  intros self mn mc mp ma f sort_by desc limit H.
  unfold get_filtered_relationships, sorted_results, filtered.
  rewrite (filter_ext _ _ (fun r => keeps_blank_filter mn mc mp ma f r H)).
  reflexivity.
Qed.

Lemma blank_filter_is_no_filter_witness :
  PyStr.strip (PyStr.lower "   ") = EmptyString
  /\ get_filtered_relationships Sample.engine 10 5 (3 # 10) (15 # 10)
       (Some "   "%string) "cooc_count" true 500
     = get_filtered_relationships Sample.engine 10 5 (3 # 10) (15 # 10)
         None "cooc_count" true 500.
Proof.
  split; [reflexivity|].
  apply (blank_filter_is_no_filter Sample.engine 10 5 (3 # 10) (15 # 10)
           "   " "cooc_count" true 500).
  reflexivity.
Defined.

(** X3 (negative limit).  With a negative limit the page is the sorted
    result list without its last [-limit] entries: it is a prefix of that
    list and has [max(0, total + limit)] entries. *)
Theorem negative_limit_drops_from_the_end :
  forall (self : CooccurrenceEngine) (min_narrower_count min_cooc : Z)
         (min_p_broader min_asymmetry : PyFloat) (concept_filter : option string)
         (sort_by : string) (sort_desc : bool) (limit : Z),
    (limit < 0)%Z ->
    let result :=
      get_filtered_relationships self min_narrower_count min_cooc
        min_p_broader min_asymmetry concept_filter sort_by sort_desc limit in
    fst result
    = firstn (Z.to_nat (snd result + limit))
        (sorted_results self min_narrower_count min_cooc min_p_broader
           min_asymmetry concept_filter sort_by sort_desc)
    /\ Z.of_nat (List.length (fst result)) = Z.max 0 (snd result + limit).
Proof.
  intros self mn mc mp ma cf sort_by desc limit H. simpl.
  unfold slice_to.
  assert (E : (0 <=? limit)%Z = false) by (apply Z.leb_gt; exact H).
  rewrite E. split; [reflexivity|]. rewrite length_firstn. lia.
Qed.

Lemma negative_limit_drops_from_the_end_witness :
  (-3 < 0)%Z
  /\ let result :=
       get_filtered_relationships Sample.engine 0 0 0 0 None "cooc_count"
         true (-3) in
     fst result
     = firstn (Z.to_nat (snd result + -3))
         (sorted_results Sample.engine 0 0 0 0 None "cooc_count" true)
     /\ Z.of_nat (List.length (fst result)) = Z.max 0 (snd result + -3).
Proof.
  split; [lia|].
  apply (negative_limit_drops_from_the_end Sample.engine 0 0 0 0 None
           "cooc_count" true (-3)).
  lia.
Defined.

(** X4 (limit that covers the total).  When the limit is at least the total,
    the page holds every matching relationship: it is a rearrangement of the
    stored relationships that pass the filter. *)
Theorem covering_limit_returns_every_match :
  forall (self : CooccurrenceEngine) (min_narrower_count min_cooc : Z)
         (min_p_broader min_asymmetry : PyFloat) (concept_filter : option string)
         (sort_by : string) (sort_desc : bool) (limit : Z),
    let result :=
      get_filtered_relationships self min_narrower_count min_cooc
        min_p_broader min_asymmetry concept_filter sort_by sort_desc limit in
    (snd result <= limit)%Z ->
    Permutation (fst result)
      (filter (keeps min_narrower_count min_cooc min_p_broader min_asymmetry
                 concept_filter) (relationships self)).
Proof.
  intros self mn mc mp ma cf sort_by desc limit. simpl. intros H.
  rewrite (slice_to_all _ _ H). apply sorted_results_perm.
Qed.

Lemma covering_limit_returns_every_match_witness :
  let result :=
    get_filtered_relationships Sample.engine 10 5 (3 # 10) (15 # 10) None
      "narrower_name" false 3 in
  (snd result <= 3)%Z
  /\ Permutation (fst result)
       (filter (keeps 10 5 (3 # 10) (15 # 10) None)
          (relationships Sample.engine)).
Proof.
  assert (H : (snd (get_filtered_relationships Sample.engine 10 5 (3 # 10)
                      (15 # 10) None "narrower_name" false 3) <= 3)%Z)
    by (vm_compute; discriminate).
  split; [exact H|].
  exact (covering_limit_returns_every_match Sample.engine 10 5 (3 # 10)
           (15 # 10) None "narrower_name" false 3 H).
Defined.

(* ------------------------------------------------------------------ *)
(** ** More on the concept lookup *)

Lemma dict_get_In {V : Type} (d : list (string * V)) (k : string) (v : V) :
  In (k, v) d -> exists v', dict_get d k = Some v'.
Proof.
  induction d as [|[k' v'] d IH]; simpl; [contradiction|].
  intros [E|H].
  - injection E as -> ->. rewrite String.eqb_refl. eexists; reflexivity.
  - destruct (String.eqb k' k); [eexists; reflexivity | now apply IH].
Qed.

Lemma dict_get_first {V : Type} (pre post : list (string * V)) (k : string)
    (v : V) :
  (forall k' v', In (k', v') pre -> k' <> k) ->
  dict_get (pre ++ (k, v) :: post) k = Some v.
Proof.
  induction pre as [|[k' v'] pre IH]; simpl; intros H.
  - now rewrite String.eqb_refl.
  - destruct (String.eqb_spec k' k) as [E|_].
    + exfalso. apply (H k' v'); [now left | exact E].
    + apply IH. intros k0 v0 H0. apply (H k0 v0). now right.
Qed.

Lemma find_exact_first (pre post : list (string * string))
    (cid name q : string) :
  (forall c n, In (c, n) pre -> PyStr.lower n <> q) ->
  PyStr.lower name = q ->
  find_exact (pre ++ (cid, name) :: post) q = Some cid.
Proof.
  induction pre as [|[c n] pre IH]; simpl; intros Hpre Hname.
  - rewrite Hname, String.eqb_refl. reflexivity.
  - destruct (String.eqb_spec (PyStr.lower n) q) as [E|_].
    + exfalso. apply (Hpre c n); [now left | exact E].
    + apply IH; [|exact Hname]. intros c0 n0 H0. apply (Hpre c0 n0). now right.
Qed.

Lemma find_exact_In (names : list (string * string)) (q cid : string) :
  find_exact names q = Some cid ->
  exists name, In (cid, name) names /\ PyStr.lower name = q.
Proof.
  induction names as [|[c n] names IH]; simpl; [discriminate|].
  destruct (String.eqb_spec (PyStr.lower n) q) as [E|_].
  - intros H. injection H as <-. exists n. split; [now left | exact E].
  - intros H. destruct (IH H) as [name [Hin Hl]].
    exists name. split; [now right | exact Hl].
Qed.

Lemma collect_matches_In (self : CooccurrenceEngine)
    (names : list (string * string)) (q : string) (x : Suggestion) :
  In x (collect_matches self names q) ->
  In (sg_id x, sg_name x) names
  /\ PyStr.contains q (PyStr.lower (sg_name x)) = true
  /\ sg_count x = match dict_get (concept_counts self) (sg_id x) with
                  | Some c => c
                  | None => 0%Z
                  end.
Proof.
  induction names as [|[c n] names IH]; simpl; [contradiction|].
  destruct (PyStr.contains q (PyStr.lower n)) eqn:E.
  - intros [<-|H]; simpl.
    + split; [now left|]. split; [exact E | reflexivity].
    + destruct (IH H) as [H1 H2]. split; [now right | exact H2].
  - intros H. destruct (IH H) as [H1 H2]. split; [now right | exact H2].
Qed.

Lemma slice_to_length_le {A : Type} (l : list A) (limit : Z) :
  (0 <= limit)%Z -> (Z.of_nat (List.length (slice_to l limit)) <= limit)%Z.
Proof. intros H. rewrite (slice_to_length l limit H). lia. Qed.

(** X5 (exact match).  The lookup is settled by the first concept of the
    table whose lowered name equals the lowered, stripped query: when its ID
    is not empty and it has a count, the answer is the neighbourhood of that
    concept, with its name and count, also when later concepts carry the
    same name. *)
Theorem exact_match_takes_first_concept :
  forall (self : CooccurrenceEngine) (min_p_broader min_asymmetry : Q)
         (min_cooc min_count : Z) (concept_name : string)
         (pre post : list (string * string)) (cid name : string) (count : Z),
    concept_names self = pre ++ (cid, name) :: post ->
    (forall c n, In (c, n) pre ->
                 PyStr.lower n <> PyStr.strip (PyStr.lower concept_name)
                 /\ c <> cid) ->
    PyStr.lower name = PyStr.strip (PyStr.lower concept_name) ->
    cid <> EmptyString ->
    dict_get (concept_counts self) cid = Some count ->
    exists broader narrower symmetric,
      get_concept_tree self min_p_broader min_asymmetry min_cooc min_count
        concept_name
      = Ok (Neighbourhood cid name count broader narrower symmetric).
Proof.
  intros self mp ma mc mn q pre post cid name count Hn Hpre Hname Hcid Hc.
  unfold get_concept_tree. rewrite Hn.
  rewrite (find_exact_first pre post cid name _
             (fun c n H => proj1 (Hpre c n H)) Hname).
  destruct cid as [|a cid]; [congruence|]. simpl PyStr.truthy. cbv iota.
  unfold dict_item.
  rewrite (dict_get_first pre post (String a cid) name
             (fun c n H => proj2 (Hpre c n H))).
  rewrite Hc. simpl. do 3 eexists. reflexivity.
Qed.

Lemma exact_match_takes_first_concept_witness :
  exists broader narrower symmetric,
    get_concept_tree Sample.engine (3 # 10) (15 # 10) 3 5 " COSMOLOGY"
    = Ok (Neighbourhood "c3" "Cosmology" 30 broader narrower symmetric).
Proof.
  apply (exact_match_takes_first_concept Sample.engine (3 # 10) (15 # 10) 3 5
           " COSMOLOGY"
           [("c1", "Astronomy"); ("c2", "Astrophysics")]%string
           [("c4", "Physics")]%string "c3" "Cosmology" 30).
  - reflexivity.
  - intros c n H. simpl in H.
    repeat (destruct H as [H|H];
            [injection H as <- <-; split; discriminate|]).
    contradiction.
  - reflexivity.
  - discriminate.
  - reflexivity.
Defined.

(** X6 (concept with the empty ID).  When the first exact match is a concept
    whose ID is the empty string, the lookup does not resolve it: it answers
    with suggestions, as if nothing had matched. *)
Theorem empty_id_is_not_resolved :
  forall (self : CooccurrenceEngine) (min_p_broader min_asymmetry : Q)
         (min_cooc min_count : Z) (concept_name : string)
         (pre post : list (string * string)) (name : string),
    concept_names self = pre ++ (EmptyString, name) :: post ->
    (forall c n, In (c, n) pre ->
                 PyStr.lower n <> PyStr.strip (PyStr.lower concept_name)) ->
    PyStr.lower name = PyStr.strip (PyStr.lower concept_name) ->
    exists suggestions,
      get_concept_tree self min_p_broader min_asymmetry min_cooc min_count
        concept_name
      = Ok (SuggestionsResponse suggestions [] [] []).
Proof.
  intros self mp ma mc mn q pre post name Hn Hpre Hname.
  unfold get_concept_tree. rewrite Hn.
  rewrite (find_exact_first pre post EmptyString name _ Hpre Hname).
  simpl. eexists. reflexivity.
Qed.

Lemma empty_id_is_not_resolved_witness :
  exists suggestions,
    get_concept_tree
      (mkEngine [("c1", "Astronomy"); ("", "Optics")]%string
         [("c1"%string, 100%Z); (EmptyString, 40%Z)] 140 [])
      (3 # 10) (15 # 10) 3 5 "optics"
    = Ok (SuggestionsResponse suggestions [] [] []).
Proof.
  apply (empty_id_is_not_resolved
           (mkEngine [("c1", "Astronomy"); ("", "Optics")]%string
              [("c1"%string, 100%Z); (EmptyString, 40%Z)] 140 [])
           (3 # 10) (15 # 10) 3 5 "optics"
           [("c1", "Astronomy")]%string [] "Optics").
  - reflexivity.
  - intros c n H. simpl in H. destruct H as [H|H]; [|contradiction].
    injection H as <- <-. discriminate.
  - reflexivity.
Defined.

(** X7 (resolved concept without a count).  A concept that the lookup
    resolves but that has no entry in [concept_counts] makes the call raise
    [KeyError] with its ID, whereas a suggestion without a count is listed
    with the count 0. *)
Theorem resolved_concept_without_count_raises :
  forall (self : CooccurrenceEngine) (min_p_broader min_asymmetry : Q)
         (min_cooc min_count : Z) (concept_name : string)
         (pre post : list (string * string)) (cid name : string),
    concept_names self = pre ++ (cid, name) :: post ->
    (forall c n, In (c, n) pre ->
                 PyStr.lower n <> PyStr.strip (PyStr.lower concept_name)) ->
    PyStr.lower name = PyStr.strip (PyStr.lower concept_name) ->
    cid <> EmptyString ->
    dict_get (concept_counts self) cid = None ->
    get_concept_tree self min_p_broader min_asymmetry min_cooc min_count
      concept_name
    = Raise (KeyError cid).
Proof.
  intros self mp ma mc mn q pre post cid name Hn Hpre Hname Hcid Hc.
  unfold get_concept_tree. rewrite Hn.
  rewrite (find_exact_first pre post cid name _ Hpre Hname).
  destruct cid as [|a cid]; [congruence|]. simpl PyStr.truthy. cbv iota.
  unfold dict_item. rewrite Hc.
  destruct (dict_get (pre ++ (String a cid, name) :: post) (String a cid));
    reflexivity.
Qed.

Lemma resolved_concept_without_count_raises_witness :
  get_concept_tree
    (mkEngine [("c1", "Astronomy"); ("c2", "Optics")]%string
       [("c1"%string, 100%Z)] 100 [])
    (3 # 10) (15 # 10) 3 5 "Optics"
  = Raise (KeyError "c2").
Proof.
  apply (resolved_concept_without_count_raises
           (mkEngine [("c1", "Astronomy"); ("c2", "Optics")]%string
              [("c1"%string, 100%Z)] 100 [])
           (3 # 10) (15 # 10) 3 5 "Optics"
           [("c1", "Astronomy")]%string [] "c2" "Optics").
  - reflexivity.
  - intros c n H. simpl in H. destruct H as [H|H]; [|contradiction].
    injection H as <- <-. discriminate.
  - reflexivity.
  - discriminate.
  - reflexivity.
Defined.

(** X8 (what a suggestions answer holds).  Whenever the lookup answers with
    suggestions, the three relationship lists are empty, there are at most
    20 suggestions, they stand in descending order of count, and each is a
    concept of the table whose lowered name contains the lowered, stripped
    query, listed with its count, or with 0 when it has none. *)
Theorem suggestions_answer_shape :
  forall (self : CooccurrenceEngine) (min_p_broader min_asymmetry : Q)
         (min_cooc min_count : Z) (concept_name : string)
         (suggestions : list Suggestion)
         (broader narrower symmetric : list Relationship),
    get_concept_tree self min_p_broader min_asymmetry min_cooc min_count
      concept_name
    = Ok (SuggestionsResponse suggestions broader narrower symmetric) ->
    broader = [] /\ narrower = [] /\ symmetric = []
    /\ (List.length suggestions <= 20)%nat
    /\ StronglySorted (fun a b => (sg_count b <= sg_count a)%Z) suggestions
    /\ forall x,
         In x suggestions ->
         In (sg_id x, sg_name x) (concept_names self)
         /\ PyStr.is_substring (PyStr.strip (PyStr.lower concept_name))
              (PyStr.lower (sg_name x))
         /\ sg_count x = match dict_get (concept_counts self) (sg_id x) with
                         | Some c => c
                         | None => 0%Z
                         end.
Proof.
  intros self mp ma mc mn q sugg b n s H.
  unfold get_concept_tree in H.
  remember (slice_to
              (list_sort Z.leb sg_count true
                 (collect_matches self (concept_names self)
                    (PyStr.strip (PyStr.lower q)))) 20) as page eqn:Ep.
  assert (E : sugg = page /\ b = [] /\ n = [] /\ s = []).
  { destruct (find_exact (concept_names self) (PyStr.strip (PyStr.lower q)))
      as [cid|].
    - destruct (negb (PyStr.truthy cid)).
      + injection H as <- <- <- <-. auto.
      + destruct (dict_item (concept_names self) cid); [|discriminate H].
        destruct (dict_item (concept_counts self) cid); discriminate H.
    - injection H as <- <- <- <-. auto. }
  destruct E as [-> [-> [-> ->]]]. clear H.
  split; [reflexivity|]. split; [reflexivity|]. split; [reflexivity|].
  split.
  { apply Nat2Z.inj_le. rewrite Ep. apply slice_to_length_le. lia. }
  destruct (slice_to_prefix
              (list_sort Z.leb sg_count true
                 (collect_matches self (concept_names self)
                    (PyStr.strip (PyStr.lower q)))) 20) as [m Em].
  rewrite Em in Ep. subst page. split.
  - apply StronglySorted_firstn.
    eapply StronglySorted_weaken;
      [|apply (list_sort_sorted Z.leb sg_count true Zleb_total Zleb_trans)].
    intros x y. unfold before. apply Z.leb_le.
  - intros x Hx. apply In_firstn, list_sort_In in Hx.
    apply collect_matches_In in Hx. destruct Hx as [H1 [H2 H3]].
    split; [exact H1|]. split; [|exact H3].
    now apply PyStrFacts.contains_spec.
Qed.

Lemma suggestions_answer_shape_witness :
  let suggestions :=
    [mkSuggestion "c1" "Astronomy" 100; mkSuggestion "c2" "Astrophysics" 50] in
  get_concept_tree Sample.engine (3 # 10) (15 # 10) 3 5 " Astro "
  = Ok (SuggestionsResponse suggestions [] [] [])
  /\ (List.length suggestions <= 20)%nat
  /\ StronglySorted (fun a b => (sg_count b <= sg_count a)%Z) suggestions.
Proof.
  intros suggestions.
  assert (H : get_concept_tree Sample.engine (3 # 10) (15 # 10) 3 5 " Astro "
              = Ok (SuggestionsResponse suggestions [] [] []))
    by (vm_compute; reflexivity).
  split; [exact H|].
  destruct (suggestions_answer_shape Sample.engine (3 # 10) (15 # 10) 3 5
              " Astro " suggestions [] [] [] H)
    as [_ [_ [_ [Hlen [Hsorted _]]]]].
  split; [exact Hlen | exact Hsorted].
Defined.

(** X9 (what a neighbourhood holds).  In the answer for a resolved concept
    the broader and narrower lists have at most 50 entries in descending
    order of [p_broader_given_narrower], the symmetric list at most 30 in
    descending order of [cooc_count].  A broader entry is a stored
    relationship with the concept as its narrower end that meets the four
    thresholds; a narrower entry has it as its broader end, and not as its
    narrower end, and meets the four thresholds; a symmetric entry touches
    the concept, has at least [min_cooc] co-occurrences, an asymmetry below
    [min_asymmetry] and a probability of at least the float 0.2. *)
Theorem neighbourhood_answer_shape :
  forall (self : CooccurrenceEngine) (min_p_broader min_asymmetry : Q)
         (min_cooc min_count : Z) (concept_name cid cname : string)
         (ccount : Z) (broader narrower symmetric : list Relationship),
    get_concept_tree self min_p_broader min_asymmetry min_cooc min_count
      concept_name
    = Ok (Neighbourhood cid cname ccount broader narrower symmetric) ->
    ((List.length broader <= 50)%nat /\ (List.length narrower <= 50)%nat
     /\ (List.length symmetric <= 30)%nat)
    /\ (StronglySorted
          (fun a b => p_broader_given_narrower b <= p_broader_given_narrower a)
          broader
        /\ StronglySorted
             (fun a b =>
                p_broader_given_narrower b <= p_broader_given_narrower a)
             narrower
        /\ StronglySorted (fun a b => (cooc_count b <= cooc_count a)%Z)
             symmetric)
    /\ (forall r, In r broader ->
          In r (relationships self) /\ narrower_id r = cid
          /\ meets_thresholds min_count min_cooc min_p_broader min_asymmetry r)
    /\ (forall r, In r narrower ->
          In r (relationships self) /\ broader_id r = cid
          /\ narrower_id r <> cid
          /\ meets_thresholds min_count min_cooc min_p_broader min_asymmetry r)
    /\ (forall r, In r symmetric ->
          In r (relationships self)
          /\ (narrower_id r = cid \/ broader_id r = cid)
          /\ (min_cooc <= cooc_count r)%Z
          /\ asymmetry r < min_asymmetry
          /\ float_0_2 <= p_broader_given_narrower r).
Proof.
  intros self mp ma mc mn q cid cname ccount b n s H.
  apply get_concept_tree_resolved in H. destruct H as [-> [-> ->]].
  assert (Hdir : forall r, directional mp ma r = true ->
                           mp <= p_broader_given_narrower r
                           /\ ma <= asymmetry r).
  { intros r Hd. unfold directional, Qgeb in Hd.
    apply andb_true_iff in Hd. now rewrite !Qle_bool_iff in Hd. }
  assert (Hpass : forall r, negb (passes_filters mc mn r) = false ->
                            (mc <= cooc_count r)%Z /\ (mn <= narrower_count r)%Z).
  { intros r Hp. apply negb_false_iff in Hp. unfold passes_filters in Hp.
    apply andb_true_iff in Hp. now rewrite !Z.leb_le in Hp. }
  split; [|split; [|split; [|split]]].
  - repeat split; apply Nat2Z.inj_le; apply slice_to_length_le; lia.
  - repeat split;
      match goal with
      | |- StronglySorted _ (slice_to ?l ?k) =>
          destruct (slice_to_prefix l k) as [m ->]
      end; apply StronglySorted_firstn.
    + eapply StronglySorted_weaken;
        [|apply (list_sort_sorted Qle_bool p_broader_given_narrower true
                   Qle_bool_total Qle_bool_trans)].
      intros x y. unfold before. apply Qle_bool_iff.
    + eapply StronglySorted_weaken;
        [|apply (list_sort_sorted Qle_bool p_broader_given_narrower true
                   Qle_bool_total Qle_bool_trans)].
      intros x y. unfold before. apply Qle_bool_iff.
    + eapply StronglySorted_weaken;
        [|apply (list_sort_sorted Z.leb cooc_count true Zleb_total Zleb_trans)].
      intros x y. unfold before. apply Z.leb_le.
  - intros r Hr. apply In_sorted_slice in Hr. destruct Hr as [Hin Hb].
    split; [exact Hin|]. unfold in_broader in Hb.
    destruct (negb (passes_filters mc mn r)) eqn:Ep; [discriminate|].
    destruct (String.eqb_spec (narrower_id r) cid) as [E|_]; [|discriminate].
    split; [exact E|]. unfold meets_thresholds.
    destruct (Hpass r Ep), (Hdir r Hb). tauto.
  - intros r Hr. apply In_sorted_slice in Hr. destruct Hr as [Hin Hn].
    split; [exact Hin|]. unfold in_narrower in Hn.
    destruct (negb (passes_filters mc mn r)) eqn:Ep; [discriminate|].
    destruct (String.eqb_spec (narrower_id r) cid) as [_|N]; [discriminate|].
    destruct (String.eqb_spec (broader_id r) cid) as [E|_]; [|discriminate].
    split; [exact E|]. split; [exact N|]. unfold meets_thresholds.
    destruct (Hpass r Ep), (Hdir r Hn). tauto.
  - intros r Hr. apply In_sorted_slice in Hr. destruct Hr as [Hin Hs].
    split; [exact Hin|]. unfold in_symmetric in Hs.
    destruct (cooc_count r <? mc)%Z eqn:Ec; [discriminate|].
    apply Z.ltb_ge in Ec.
    destruct (String.eqb_spec (narrower_id r) cid) as [E1|_];
      destruct (String.eqb_spec (broader_id r) cid) as [E2|_];
      simpl in Hs; try discriminate;
      apply andb_true_iff in Hs; destruct Hs as [Ha Hp];
      apply Qltb_true in Ha; unfold Qgeb in Hp; apply Qle_bool_iff in Hp;
      tauto.
Qed.

Lemma neighbourhood_answer_shape_witness :
  let broader := [Sample.astronomy_physics] in
  let narrower := [Sample.astrophysics_astronomy; Sample.cosmology_astronomy] in
  get_concept_tree Sample.engine (3 # 10) (15 # 10) 3 5 "astronomy"
  = Ok (Neighbourhood "c1" "Astronomy" 100 broader narrower [])
  /\ (forall r, In r narrower ->
        In r (relationships Sample.engine) /\ broader_id r = "c1"%string
        /\ narrower_id r <> "c1"%string
        /\ meets_thresholds 5 3 (3 # 10) (15 # 10) r).
Proof.
  intros broader narrower.
  assert (H : get_concept_tree Sample.engine (3 # 10) (15 # 10) 3 5 "astronomy"
              = Ok (Neighbourhood "c1" "Astronomy" 100 broader narrower []))
    by (vm_compute; reflexivity).
  split; [exact H|].
  exact (proj1 (proj2 (proj2 (proj2
           (neighbourhood_answer_shape Sample.engine (3 # 10) (15 # 10) 3 5
              "astronomy" "c1" "Astronomy" 100 broader narrower [] H))))).
Defined.

(** X10 (thresholds the symmetric list does not read).  The symmetric list
    depends on [min_cooc] and [min_asymmetry] only: with any other
    [min_p_broader] and [min_count] the lookup resolves the same concept and
    returns the same symmetric list. *)
Theorem symmetric_ignores_probability_and_count :
  forall (self : CooccurrenceEngine) (min_p_broader min_asymmetry : Q)
         (min_cooc min_count : Z) (concept_name cid cname : string)
         (ccount : Z) (broader narrower symmetric : list Relationship)
         (min_p_broader' : Q) (min_count' : Z),
    get_concept_tree self min_p_broader min_asymmetry min_cooc min_count
      concept_name
    = Ok (Neighbourhood cid cname ccount broader narrower symmetric) ->
    exists broader' narrower',
      get_concept_tree self min_p_broader' min_asymmetry min_cooc min_count'
        concept_name
      = Ok (Neighbourhood cid cname ccount broader' narrower' symmetric).
Proof.
  intros self mp ma mc mn q cid cname ccount b n s mp' mn' H.
  unfold get_concept_tree in *.
  destruct (find_exact (concept_names self) (PyStr.strip (PyStr.lower q)))
    as [c|]; [|discriminate H].
  destruct (negb (PyStr.truthy c)); [discriminate H|].
  destruct (dict_item (concept_names self) c); [|discriminate H].
  destruct (dict_item (concept_counts self) c); [|discriminate H].
  simpl in *. injection H as <- <- <- _ _ <-.
  do 2 eexists. reflexivity.
Qed.

Lemma symmetric_ignores_probability_and_count_witness :
  exists broader' narrower',
    get_concept_tree Sample.engine (9 # 10) (15 # 10) 3 1000 "astrophysics"
    = Ok (Neighbourhood "c2" "Astrophysics" 50 broader' narrower'
            [Sample.cosmology_astrophysics]).
Proof.
  apply (symmetric_ignores_probability_and_count Sample.engine (3 # 10)
           (15 # 10) 3 5 "astrophysics" "c2" "Astrophysics" 50
           [Sample.astrophysics_astronomy] []
           [Sample.cosmology_astrophysics] (9 # 10) 1000).
  vm_compute. reflexivity.
Defined.

(** X11 (when the lookup cannot raise).  If every concept of the name table
    has a count, the lookup returns an answer for every query and every
    threshold set. *)
Theorem lookup_returns_when_counts_are_complete :
  forall (self : CooccurrenceEngine) (min_p_broader min_asymmetry : Q)
         (min_cooc min_count : Z) (concept_name : string),
    (forall cid name,
        In (cid, name) (concept_names self) ->
        exists c, dict_get (concept_counts self) cid = Some c) ->
    exists answer,
      get_concept_tree self min_p_broader min_asymmetry min_cooc min_count
        concept_name = Ok answer.
Proof.
  intros self mp ma mc mn q Hc. unfold get_concept_tree.
  destruct (find_exact (concept_names self) (PyStr.strip (PyStr.lower q)))
    as [cid|] eqn:Ef; [|eexists; reflexivity].
  destruct (negb (PyStr.truthy cid)); [eexists; reflexivity|].
  destruct (find_exact_In _ _ _ Ef) as [name [Hin _]].
  destruct (dict_get_In _ _ _ Hin) as [name' En].
  destruct (Hc cid name Hin) as [c Ec].
  unfold dict_item. rewrite En, Ec. simpl. eexists; reflexivity.
Qed.

Lemma lookup_returns_when_counts_are_complete_witness :
  exists answer,
    get_concept_tree Sample.engine (3 # 10) (15 # 10) 3 5 "physics"
    = Ok answer.
Proof.
  apply (lookup_returns_when_counts_are_complete Sample.engine (3 # 10)
           (15 # 10) 3 5 "physics").
  intros cid name H. simpl in H.
  repeat (destruct H as [H|H];
          [injection H as <- <-; eexists; reflexivity|]).
  contradiction.
Defined.

(* ------------------------------------------------------------------ *)
(** ** The concept list and the statistics *)

Lemma concepts_from_filter (self : CooccurrenceEngine)
    (names : list (string * string)) (min_count : Z) :
  concepts_from self names min_count
  = filter (fun x => (min_count <=? sg_count x)%Z)
      (map (fun entry =>
              mkSuggestion (fst entry) (snd entry)
                (match dict_get (concept_counts self) (fst entry) with
                 | Some c => c
                 | None => 0%Z
                 end)) names).
Proof.
  induction names as [|[cbid name] names IH]; simpl; [reflexivity|].
  rewrite IH.
  destruct (min_count <=? match dict_get (concept_counts self) cbid with
                          | Some c => c
                          | None => 0%Z
                          end)%Z; reflexivity.
Qed.

(** X12 (the concept list).  [get_all_concepts] returns exactly the concepts
    of the name table whose count, taken as 0 when the concept has none, is
    at least [min_count]; they stand in descending order of count, and
    concepts of equal count keep the order of the table. *)
Theorem all_concepts_listed_in_count_order :
  forall (self : CooccurrenceEngine) (min_count : Z),
    (forall x,
        In x (get_all_concepts self min_count)
        <-> In x (all_suggestions self) /\ (min_count <= sg_count x)%Z)
    /\ StronglySorted (fun a b => (sg_count b <= sg_count a)%Z)
         (get_all_concepts self min_count)
    /\ forall count,
         filter (fun x => (sg_count x =? count)%Z)
           (get_all_concepts self min_count)
         = filter (fun x => (sg_count x =? count)%Z)
             (filter (fun x => (min_count <=? sg_count x)%Z)
                (all_suggestions self)).
Proof.
  intros self m. unfold get_all_concepts.
  rewrite concepts_from_filter. fold (all_suggestions self).
  split; [|split].
  - intros x. rewrite list_sort_In, filter_In, Z.leb_le. reflexivity.
  - eapply StronglySorted_weaken;
      [|apply (list_sort_sorted Z.leb sg_count true Zleb_total Zleb_trans)].
    intros a b. unfold before. apply Z.leb_le.
  - intros count. apply list_sort_stable.
    intros a b Ha Hb. unfold before.
    apply Z.eqb_eq in Ha, Hb. apply Z.leb_le. lia.
Qed.

(** X13 (blank query and concept list).  For a query of whitespace only,
    with no empty display name in the table, the suggestions are the first
    20 entries of the concept list taken with a [min_count] that no concept
    falls under. *)
Theorem blank_query_suggests_head_of_concept_list :
  forall (self : CooccurrenceEngine) (min_p_broader min_asymmetry : Q)
         (min_cooc min_count : Z) (concept_name : string) (floor : Z),
    PyStr.all_space concept_name = true ->
    (forall cbid name,
        In (cbid, name) (concept_names self) -> name <> EmptyString) ->
    (forall x, In x (all_suggestions self) -> (floor <= sg_count x)%Z) ->
    get_concept_tree self min_p_broader min_asymmetry min_cooc min_count
      concept_name
    = Ok (SuggestionsResponse (firstn 20 (get_all_concepts self floor))
            [] [] []).
Proof.
  intros self mp ma mc mn q floor Hws Hnames Hfloor.
  unfold get_concept_tree.
  rewrite (PyStrFacts.strip_lower_all_space _ Hws).
  rewrite (find_exact_empty _ Hnames), collect_matches_empty.
  unfold get_all_concepts. rewrite concepts_from_filter.
  fold (all_suggestions self).
  replace (filter (fun x => (floor <=? sg_count x)%Z) (all_suggestions self))
    with (all_suggestions self); [reflexivity|].
  symmetry. apply forallb_filter_id. apply forallb_forall.
  intros x Hx. apply Z.leb_le. now apply Hfloor.
Qed.

Lemma blank_query_suggests_head_of_concept_list_witness :
  get_concept_tree Sample.engine (3 # 10) (15 # 10) 3 5 "  "
  = Ok (SuggestionsResponse (firstn 20 (get_all_concepts Sample.engine 5))
          [] [] []).
Proof.
  apply (blank_query_suggests_head_of_concept_list Sample.engine (3 # 10)
           (15 # 10) 3 5 "  " 5).
  - reflexivity.
  - intros cbid name H. simpl in H.
    repeat (destruct H as [H|H]; [injection H as _ <-; discriminate|]).
    contradiction.
  - intros x H. simpl in H.
    repeat (destruct H as [H|H]; [rewrite <- H; simpl; lia|]).
    contradiction.
Defined.

(** X14 (statistics and listing).  The two pair counts of [get_stats] are
    the number of stored relationships, and no listing reports a total, or
    returns a page, larger than it. *)
Theorem listing_total_within_statistics :
  forall (self : CooccurrenceEngine) (min_narrower_count min_cooc : Z)
         (min_p_broader min_asymmetry : PyFloat) (concept_filter : option string)
         (sort_by : string) (sort_desc : bool) (limit : Z),
    let result :=
      get_filtered_relationships self min_narrower_count min_cooc
        min_p_broader min_asymmetry concept_filter sort_by sort_desc limit in
    stat_total_pairs (get_stats self)
    = Z.of_nat (List.length (relationships self))
    /\ stat_total_relationships (get_stats self)
       = Z.of_nat (List.length (relationships self))
    /\ (snd result <= stat_total_relationships (get_stats self))%Z
    /\ (Z.of_nat (List.length (fst result)) <= snd result)%Z.
Proof.
  intros self mn mc mp ma cf sort_by desc limit. simpl.
  split; [reflexivity|]. split; [reflexivity|]. split.
  - rewrite (Permutation_length (sorted_results_perm _ _ _ _ _ _ _ _)).
    apply Nat2Z.inj_le, filter_length_le.
  - destruct (slice_to_prefix
                (sorted_results self mn mc mp ma cf sort_by desc) limit)
      as [n ->].
    rewrite length_firstn. lia.
Qed.

(* ------------------------------------------------------------------ *)
(** ** More on the hierarchy forest *)

Lemma dict_append_key_In {V : Type} (d : list (string * list V))
    (k : string) (x : V) (k0 : string) :
  In k0 (map fst (dict_append d k x)) <-> In k0 (map fst d) \/ k0 = k.
Proof.
  rewrite dict_append_keys.
  destruct (set_mem k (map fst d)) eqn:E.
  - apply set_mem_In in E. split; [auto|]. intros [H| ->]; assumption.
  - rewrite in_app_iff. simpl. split.
    + intros [H|[H|[]]]; auto.
    + intros [H|H]; auto.
Qed.

Lemma mapM_length {A B : Type} (f : A -> result B) (l : list A) (ys : list B) :
  mapM f l = Ok ys -> List.length ys = List.length l.
Proof.
  revert ys; induction l as [|x l IH]; simpl; intros ys H.
  - injection H as <-. reflexivity.
  - destruct (f x) as [b|]; simpl in H; [|discriminate].
    destruct (mapM f l) as [bs|]; simpl in H; [|discriminate].
    injection H as <-. simpl. now rewrite (IH bs).
Qed.

Lemma mapM_map {A B C : Type} (f : A -> result B) (g : B -> C) (h : A -> C)
    (l : list A) (ys : list B) :
  (forall x y, f x = Ok y -> g y = h x) ->
  mapM f l = Ok ys -> map g ys = map h l.
Proof.
  intros Hg. revert ys; induction l as [|x l IH]; simpl; intros ys H.
  - injection H as <-. reflexivity.
  - destruct (f x) as [b|] eqn:Fx; simpl in H; [|discriminate].
    destruct (mapM f l) as [bs|]; simpl in H; [|discriminate].
    injection H as <-. simpl. now rewrite (Hg x b Fx), (IH bs).
Qed.

Section IndexFacts.
Variable self : CooccurrenceEngine.
Variables (min_p_broader min_asymmetry : Q) (min_cooc min_count : Z).

#[local] Abbreviation adm :=
  (admitted min_p_broader min_asymmetry min_cooc min_count).
#[local] Abbreviation step :=
  (index_step min_p_broader min_asymmetry min_cooc min_count).

(** The two tables after the first loop has gone through [rels]. *)
Lemma index_fold (rels : list Relationship) :
  forall (co : list (string * list Child)) (hp : list string),
    let acc := fold_left step rels (co, hp) in
    (forall k,
        dict_get_list (fst acc) k
        = dict_get_list co k
          ++ map child_of
               (filter (fun r => adm r && String.eqb (broader_id r) k) rels))
    /\ (forall k,
           In k (map fst (fst acc))
           <-> In k (map fst co)
               \/ exists r, In r rels /\ adm r = true /\ broader_id r = k)
    /\ (forall x,
           set_mem x (snd acc) = true
           <-> set_mem x hp = true
               \/ exists r, In r rels /\ adm r = true /\ narrower_id r = x).
Proof.
  induction rels as [|r rels IH]; intros co hp; simpl.
  - split; [|split].
    + intros k. now rewrite app_nil_r.
    + intros k. split; [auto | intros [H|[r [[] _]]]; exact H].
    + intros x. split; [auto | intros [H|[r [[] _]]]; exact H].
  - unfold index_step at 2 4 6. destruct (adm r) eqn:Ea; simpl.
    + destruct (IH (dict_append co (broader_id r) (child_of r))
                  (set_add (narrower_id r) hp)) as [H1 [H2 H3]].
      split; [|split].
      * intros k. rewrite H1, dict_get_list_append.
        destruct (String.eqb (broader_id r) k); simpl;
          [now rewrite <- app_assoc | reflexivity].
      * intros k. rewrite H2, dict_append_key_In. split.
        -- intros [[H| ->]|[r0 [H0 H0']]]; auto.
           ++ right. exists r. auto.
           ++ right. exists r0. tauto.
        -- intros [H|[r0 [[<-|H0] [Ha Hb]]]]; auto.
           right. exists r0. auto.
      * intros x. rewrite H3, set_mem_add, orb_true_iff, String.eqb_eq. split.
        -- intros [[->|H]|[r0 [H0 H0']]]; auto.
           ++ right. exists r. auto.
           ++ right. exists r0. tauto.
        -- intros [H|[r0 [[<-|H0] [Ha Hb]]]]; auto.
           right. exists r0. auto.
    + destruct (IH co hp) as [H1 [H2 H3]]. split; [|split].
      * exact H1.
      * intros k. rewrite H2. split.
        -- intros [H|[r0 [H0 H0']]]; auto. right. exists r0. tauto.
        -- intros [H|[r0 [[<-|H0] [Ha Hb]]]]; auto; [congruence|].
           right. exists r0. auto.
      * intros x. rewrite H3. split.
        -- intros [H|[r0 [H0 H0']]]; auto. right. exists r0. tauto.
        -- intros [H|[r0 [[<-|H0] [Ha Hb]]]]; auto; [congruence|].
           right. exists r0. auto.
Qed.

Lemma sort_children_keys (co : list (string * list Child)) :
  map fst (sort_children co) = map fst co.
Proof. unfold sort_children. rewrite map_map. reflexivity. Qed.

Lemma sort_children_get (co : list (string * list Child)) (k : string) :
  dict_get_list (sort_children co) k
  = list_sort Qle_bool child_p true (dict_get_list co k).
Proof.
  unfold dict_get_list, sort_children.
  induction co as [|[k' l] co IH]; simpl; [reflexivity|].
  destruct (String.eqb k' k); [reflexivity | exact IH].
Qed.

(** The children table the traversal reads. *)
Lemma children_table (k : string) :
  dict_get_list
    (sort_children
       (fst (index_relationships self min_p_broader min_asymmetry min_cooc
               min_count))) k
  = list_sort Qle_bool child_p true
      (admitted_children self min_p_broader min_asymmetry min_cooc min_count k).
Proof.
  rewrite sort_children_get. unfold index_relationships.
  destruct (index_fold (relationships self) [] []) as [H _].
  rewrite H. reflexivity.
Qed.

Lemma parents_table (k : string) :
  In k (map fst
          (sort_children
             (fst (index_relationships self min_p_broader min_asymmetry
                     min_cooc min_count))))
  <-> exists r, In r (relationships self) /\ adm r = true /\ broader_id r = k.
Proof.
  rewrite sort_children_keys. unfold index_relationships.
  destruct (index_fold (relationships self) [] []) as [_ [H _]].
  rewrite H. simpl. split; [intros [[]|H0]; exact H0 | auto].
Qed.

Lemma has_parent_table (x : string) :
  set_mem x (snd (index_relationships self min_p_broader min_asymmetry
                    min_cooc min_count)) = true
  <-> exists r, In r (relationships self) /\ adm r = true /\ narrower_id r = x.
Proof.
  unfold index_relationships.
  destruct (index_fold (relationships self) [] []) as [_ [_ H]].
  rewrite H. simpl. split; [intros [H0|H0]; [discriminate | exact H0] | auto].
Qed.

Lemma collect_roots_Ok (parents has_parent : list string) (roots : list Root) :
  collect_roots self parents has_parent = Ok roots ->
  map root_id roots
  = filter (fun k => negb (set_mem k has_parent)) parents
  /\ forall root,
       In root roots ->
       dict_get (concept_names self) (root_id root) = Some (root_name root)
       /\ dict_get (concept_counts self) (root_id root)
          = Some (root_count root).
Proof.
  revert roots; induction parents as [|k parents IH]; simpl; intros roots H.
  - injection H as <-. split; [reflexivity | contradiction].
  - destruct (negb (set_mem k has_parent)); [|now apply IH].
    unfold dict_item in H.
    destruct (dict_get (concept_names self) k) as [name|] eqn:En;
      simpl in H; [|discriminate].
    destruct (dict_get (concept_counts self) k) as [count|] eqn:Ec;
      simpl in H; [|discriminate].
    destruct (collect_roots self parents has_parent) as [rest|];
      simpl in H; [|discriminate].
    injection H as <-. destruct (IH rest eq_refl) as [H1 H2].
    split; [simpl; now rewrite H1|].
    intros root [<-|Hin]; [simpl; auto | now apply H2].
Qed.

Lemma collect_roots_missing (parents has_parent : list string) (id : string) :
  In id parents -> set_mem id has_parent = false ->
  dict_get (concept_names self) id = None
  \/ dict_get (concept_counts self) id = None ->
  exists k, collect_roots self parents has_parent = Raise (KeyError k).
Proof.
  intros Hin Hp Hmiss. induction parents as [|k parents IH]; simpl;
    [contradiction|].
  destruct (negb (set_mem k has_parent)) eqn:Ek.
  - unfold dict_item.
    destruct (dict_get (concept_names self) k) as [name|] eqn:En; simpl;
      [|eexists; reflexivity].
    destruct (dict_get (concept_counts self) k) as [count|] eqn:Ec; simpl;
      [|eexists; reflexivity].
    destruct Hin as [->|Hin].
    + destruct Hmiss; congruence.
    + destruct (IH Hin) as [k' ->]. simpl. eexists; reflexivity.
  - destruct Hin as [->|Hin]; [rewrite Hp in Ek; discriminate|].
    now apply IH.
Qed.

Lemma build_subtree_root_nonempty (fuel : nat)
    (children_of : list (string * list Child)) (id : string)
    (subtree : list TreeNode) :
  build_subtree fuel children_of id 0 [] = Ok subtree ->
  map node_child subtree = dict_get_list children_of id.
Proof.
  destruct fuel as [|fuel]; simpl; [discriminate|]. intros H0.
  transitivity (map (fun c : Child => c) (dict_get_list children_of id));
    [|apply map_id].
  revert H0. apply mapM_map. intros child t H. cbv beta in H.
  destruct (build_subtree fuel children_of (child_id child) _ _);
    simpl in H; [|discriminate].
  injection H as <-. reflexivity.
Qed.

Lemma grow_forest_keeps (fuel : nat)
    (children_of : list (string * list Child)) (roots : list Root)
    (forest : list RootNode) :
  (forall root, In root roots ->
                dict_get_list children_of (root_id root) <> []) ->
  grow_forest fuel children_of roots = Ok forest ->
  map fst forest = roots.
Proof.
  revert forest; induction roots as [|root roots IH]; simpl;
    intros forest Hne H.
  - injection H as <-. reflexivity.
  - destruct (build_subtree fuel children_of (root_id root) 0 [])
      as [subtree|] eqn:Es; simpl in H; [|discriminate].
    destruct (grow_forest fuel children_of roots) as [tree|]; simpl in H;
      [|discriminate].
    injection H as <-.
    pose proof (build_subtree_root_nonempty _ _ _ _ Es) as Hc.
    destruct subtree as [|u us].
    + exfalso. apply (Hne root (or_introl eq_refl)). now rewrite <- Hc.
    + simpl. f_equal. apply IH; [|reflexivity].
      intros r Hr. apply Hne. now right.
Qed.
End IndexFacts.

Lemma StronglySorted_map {A B : Type} (R : B -> B -> Prop) (f : A -> B)
    (l : list A) :
  StronglySorted R (map f l) -> StronglySorted (fun a b => R (f a) (f b)) l.
Proof.
  induction l as [|x l IH]; simpl; intros H; [constructor|].
  inversion H as [|? ? Hs Hx]; subst. constructor; [now apply IH|].
  rewrite Forall_forall in *. intros y Hy. apply Hx. now apply in_map.
Qed.

Lemma build_subtree_children (fuel : nat)
    (children_of : list (string * list Child)) (node_id : string) (depth : Z)
    (visited : list string) (subtree : list TreeNode) :
  build_subtree fuel children_of node_id depth visited = Ok subtree ->
  subtree = [] \/ map node_child subtree = dict_get_list children_of node_id.
Proof.
  destruct fuel as [|fuel]; simpl; [discriminate|].
  destruct (set_mem node_id visited || (5 <? depth)%Z).
  - intros H. injection H as <-. now left.
  - intros H0. right.
    transitivity (map (fun c : Child => c)
                    (dict_get_list children_of node_id)); [|apply map_id].
    revert H0. apply mapM_map. intros child t H. cbv beta in H.
    destruct (build_subtree fuel children_of (child_id child) _ _);
      simpl in H; [|discriminate].
    injection H as <-. reflexivity.
Qed.

Lemma build_subtree_families (fuel : nat)
    (children_of : list (string * list Child)) :
  forall (node_id : string) (depth : Z) (visited : list string)
         (subtree : list TreeNode) (t : TreeNode) (id : string)
         (children : list Child),
    build_subtree fuel children_of node_id depth visited = Ok subtree ->
    In t subtree -> In (id, children) (node_families t) ->
    children = dict_get_list children_of id.
Proof.
  induction fuel as [|fuel IH];
    intros node_id depth visited subtree t id children H Ht Hf;
    [discriminate|].
  destruct (build_subtree_entry _ _ _ _ _ _ _ H Ht)
    as [_ [_ [child [sub [-> Hsub]]]]].
  simpl in Hf. destruct sub as [|u us] eqn:Esub; [contradiction|].
  rewrite <- Esub in *. destruct Hf as [E|Hf].
  - injection E as <- <-.
    destruct (build_subtree_children _ _ _ _ _ _ Hsub) as [E|E];
      [congruence | exact E].
  - apply in_flat_map in Hf. destruct Hf as [v [Hv Hfv]].
    exact (IH _ _ _ _ v id children Hsub Hv Hfv).
Qed.

Section RootFacts.
Variable self : CooccurrenceEngine.
Variables (min_p_broader min_asymmetry : Q) (min_cooc min_count : Z).

#[local] Abbreviation build' :=
  (build_hierarchy_tree self min_p_broader min_asymmetry min_cooc min_count).
#[local] Abbreviation table' :=
  (sort_children
     (fst (index_relationships self min_p_broader min_asymmetry min_cooc
             min_count))).
#[local] Abbreviation has_parent' :=
  (snd (index_relationships self min_p_broader min_asymmetry min_cooc
          min_count)).

Lemma root_candidate (id : string) :
  In id (filter (fun k => negb (set_mem k has_parent')) (map fst table'))
  <-> is_root self min_p_broader min_asymmetry min_cooc min_count id.
Proof.
  rewrite filter_In, parents_table, negb_true_iff. unfold is_root.
  split; intros [H1 H2]; (split; [exact H1|]).
  - intros r Hr Ha E.
    assert (T : set_mem id has_parent' = true)
      by (apply has_parent_table; exists r; auto).
    congruence.
  - apply not_true_is_false. intros T. apply has_parent_table in T.
    destruct T as [r [Hr [Ha E]]]. exact (H2 r Hr Ha E).
Qed.

Lemma candidate_has_children (id : string) :
  In id (map fst table') -> dict_get_list table' id <> [].
Proof.
  intros H. apply parents_table in H. destruct H as [r [Hr [Ha E]]].
  rewrite children_table. intros N.
  apply (f_equal (@List.length Child)) in N.
  rewrite list_sort_length in N. unfold admitted_children in N.
  rewrite length_map in N. simpl in N.
  assert (Hin : In r (filter
                        (fun r0 =>
                           admitted min_p_broader min_asymmetry min_cooc
                             min_count r0 && String.eqb (broader_id r0) id)
                        (relationships self))).
  { apply filter_In. split; [exact Hr|]. rewrite Ha, E. simpl.
    apply String.eqb_refl. }
  destruct (filter _ (relationships self)); [contradiction | discriminate].
Qed.

(** The roots of a returned forest, before and after the sort. *)
Lemma build_roots (recursion_limit : nat) (forest : list RootNode) :
  build' recursion_limit = Ok forest ->
  exists roots,
    collect_roots self (map fst table') has_parent' = Ok roots
    /\ map fst forest = list_sort Z.leb root_count true roots.
Proof.
  unfold build_hierarchy_tree.
  destruct (collect_roots self (map fst table') has_parent') as [roots|]
    eqn:Ec; simpl; [|discriminate].
  intros H. exists roots. split; [reflexivity|].
  eapply grow_forest_keeps; [|exact H].
  intros root Hroot. apply list_sort_In in Hroot.
  apply candidate_has_children.
  destruct (collect_roots_Ok _ _ _ _ Ec) as [Hids _].
  assert (Hin : In (root_id root) (map root_id roots)) by now apply in_map.
  rewrite Hids in Hin. apply filter_In in Hin. tauto.
Qed.
End RootFacts.

(** X15 (the roots of the forest).  The trees of a returned forest stand for
    exactly the concepts that are the broader end of an admitted
    relationship and the narrower end of none, and each of them has
    children: the test that drops a root without a subtree never drops
    one. *)
Theorem forest_roots_are_the_parentless_parents :
  forall (self : CooccurrenceEngine) (min_p_broader min_asymmetry : Q)
         (min_cooc min_count : Z) (recursion_limit : nat)
         (forest : list RootNode),
    build_hierarchy_tree self min_p_broader min_asymmetry min_cooc min_count
      recursion_limit = Ok forest ->
    (forall id,
        In id (map (fun t => root_id (fst t)) forest)
        <-> is_root self min_p_broader min_asymmetry min_cooc min_count id)
    /\ (forall t, In t forest -> snd t <> []).
Proof.
  intros self mp ma mc mn limit forest H. split.
  - intros id. destruct (build_roots _ _ _ _ _ _ _ H) as [roots [Hc Hf]].
    destruct (collect_roots_Ok _ _ _ _ Hc) as [Hids _].
    rewrite <- root_candidate, <- Hids, <- (map_map fst root_id), Hf.
    split; intros Hin; apply in_map_iff in Hin;
      destruct Hin as [root [E Hr]]; apply in_map_iff; exists root;
      (split; [exact E|]); now apply (list_sort_In Z.leb root_count true).
  - intros t Ht.
    destruct (build_In _ _ _ _ _ _ _ _ H Ht) as [children_of [Hne _]].
    exact Hne.
Qed.

Lemma forest_roots_are_the_parentless_parents_witness :
  build_hierarchy_tree Sample.chain_engine (5 # 10) (2 # 1) 5 10 7
  = Ok Sample.chain_forest
  /\ (forall id,
         In id (map (fun t => root_id (fst t)) Sample.chain_forest)
         <-> is_root Sample.chain_engine (5 # 10) (2 # 1) 5 10 id)
  /\ (forall t, In t Sample.chain_forest -> snd t <> []).
Proof.
  assert (H : build_hierarchy_tree Sample.chain_engine (5 # 10) (2 # 1) 5 10 7
              = Ok Sample.chain_forest) by (vm_compute; reflexivity).
  split; [exact H|].
  exact (forest_roots_are_the_parentless_parents Sample.chain_engine
           (5 # 10) (2 # 1) 5 10 7 Sample.chain_forest H).
Defined.

(** X16 (order and labels of the roots).  The trees of a returned forest
    stand in descending order of the root's count, and each root carries the
    name and the count its ID has in the concept tables. *)
Theorem forest_roots_sorted_and_labelled :
  forall (self : CooccurrenceEngine) (min_p_broader min_asymmetry : Q)
         (min_cooc min_count : Z) (recursion_limit : nat)
         (forest : list RootNode),
    build_hierarchy_tree self min_p_broader min_asymmetry min_cooc min_count
      recursion_limit = Ok forest ->
    StronglySorted
      (fun a b => (root_count (fst b) <= root_count (fst a))%Z) forest
    /\ forall t,
         In t forest ->
         dict_get (concept_names self) (root_id (fst t))
         = Some (root_name (fst t))
         /\ dict_get (concept_counts self) (root_id (fst t))
            = Some (root_count (fst t)).
Proof.
  intros self mp ma mc mn limit forest H.
  destruct (build_roots _ _ _ _ _ _ _ H) as [roots [Hc Hf]].
  destruct (collect_roots_Ok _ _ _ _ Hc) as [_ Hlab]. split.
  - apply (StronglySorted_map
             (fun a b : Root => (root_count b <= root_count a)%Z) fst).
    rewrite Hf.
    eapply StronglySorted_weaken;
      [|apply (list_sort_sorted Z.leb root_count true Zleb_total Zleb_trans)].
    intros a b. unfold before. apply Z.leb_le.
  - intros t Ht. apply Hlab.
    apply (list_sort_In Z.leb root_count true). rewrite <- Hf.
    now apply in_map.
Qed.

Lemma forest_roots_sorted_and_labelled_witness :
  build_hierarchy_tree Sample.two_root_engine (5 # 10) (2 # 1) 5 10 7
  = Ok Sample.two_root_forest
  /\ map fst Sample.two_root_forest
     = [mkRoot "r2" "Physics" 400; mkRoot "r1" "Optics" 50]
  /\ StronglySorted
       (fun a b => (root_count (fst b) <= root_count (fst a))%Z)
       Sample.two_root_forest
  /\ forall t,
       In t Sample.two_root_forest ->
       dict_get (concept_names Sample.two_root_engine) (root_id (fst t))
       = Some (root_name (fst t))
       /\ dict_get (concept_counts Sample.two_root_engine) (root_id (fst t))
          = Some (root_count (fst t)).
Proof.
  assert (H : build_hierarchy_tree Sample.two_root_engine (5 # 10) (2 # 1)
                5 10 7 = Ok Sample.two_root_forest)
    by (vm_compute; reflexivity).
  split; [exact H|]. split; [reflexivity|].
  exact (forest_roots_sorted_and_labelled Sample.two_root_engine (5 # 10)
           (2 # 1) 5 10 7 Sample.two_root_forest H).
Defined.

Lemma collect_roots_none (self : CooccurrenceEngine)
    (parents has_parent : list string) :
  (forall k, In k parents -> set_mem k has_parent = true) ->
  collect_roots self parents has_parent = Ok [].
Proof.
  induction parents as [|k parents IH]; simpl; intros H; [reflexivity|].
  rewrite (H k (or_introl eq_refl)). simpl.
  apply IH. intros k' Hk'. apply H. now right.
Qed.

(** X17 (no parentless parent, no forest).  When every concept that is the
    broader end of an admitted relationship is also the narrower end of
    one, as in a graph made of cycles only, the forest is empty: the call
    returns the empty list, whatever the recursion limit and whatever the
    concept tables hold. *)
Theorem forest_is_empty_without_a_root :
  forall (self : CooccurrenceEngine) (min_p_broader min_asymmetry : Q)
         (min_cooc min_count : Z) (recursion_limit : nat),
    (forall r,
        In r (relationships self) ->
        admitted min_p_broader min_asymmetry min_cooc min_count r = true ->
        exists r',
          In r' (relationships self)
          /\ admitted min_p_broader min_asymmetry min_cooc min_count r' = true
          /\ narrower_id r' = broader_id r) ->
    build_hierarchy_tree self min_p_broader min_asymmetry min_cooc min_count
      recursion_limit = Ok [].
Proof.
  intros self mp ma mc mn limit H. unfold build_hierarchy_tree.
  rewrite collect_roots_none; [reflexivity|].
  intros k Hk. apply parents_table in Hk. destruct Hk as [r [Hr [Ha E]]].
  apply has_parent_table. destruct (H r Hr Ha) as [r' [Hr' [Ha' E']]].
  exists r'. split; [exact Hr'|]. split; [exact Ha' | congruence].
Qed.

Lemma forest_is_empty_without_a_root_witness :
  build_hierarchy_tree
    (mkEngine [] [] 0
       [Sample.edge "B" "A"; Sample.edge "C" "B"; Sample.edge "A" "C"])
    (5 # 10) (2 # 1) 5 10 0
  = Ok [].
Proof.
  apply (forest_is_empty_without_a_root
           (mkEngine [] [] 0
              [Sample.edge "B" "A"; Sample.edge "C" "B"; Sample.edge "A" "C"])
           (5 # 10) (2 # 1) 5 10 0).
  intros r Hr _. simpl in Hr.
  destruct Hr as [<-|[<-|[<-|[]]]].
  - exists (Sample.edge "A" "C"). simpl. auto.
  - exists (Sample.edge "B" "A"). simpl. auto.
  - exists (Sample.edge "C" "B"). simpl. auto.
Defined.

(** X18 (root missing from a table).  If some concept is the broader end of an
    admitted relationship and the narrower end of none, and has no entry in
    [concept_names] or none in [concept_counts], the call raises
    [KeyError]. *)
Theorem root_missing_from_tables_raises :
  forall (self : CooccurrenceEngine) (min_p_broader min_asymmetry : Q)
         (min_cooc min_count : Z) (recursion_limit : nat) (id : string),
    is_root self min_p_broader min_asymmetry min_cooc min_count id ->
    dict_get (concept_names self) id = None
    \/ dict_get (concept_counts self) id = None ->
    exists k,
      build_hierarchy_tree self min_p_broader min_asymmetry min_cooc min_count
        recursion_limit = Raise (KeyError k).
Proof.
  intros self mp ma mc mn limit id Hroot Hmiss.
  apply root_candidate in Hroot. apply filter_In in Hroot.
  destruct Hroot as [Hin Hp]. apply negb_true_iff in Hp.
  destruct (collect_roots_missing self _ _ id Hin Hp Hmiss) as [k Hk].
  exists k. unfold build_hierarchy_tree. rewrite Hk. reflexivity.
Qed.

Lemma root_missing_from_tables_raises_witness :
  exists k,
    build_hierarchy_tree
      (mkEngine [("A", "A")]%string [("A"%string, 100%Z)] 100
         [Sample.edge "A" "R"])
      (5 # 10) (2 # 1) 5 10 7
    = Raise (KeyError k).
Proof.
  apply (root_missing_from_tables_raises
           (mkEngine [("A", "A")]%string [("A"%string, 100%Z)] 100
              [Sample.edge "A" "R"])
           (5 # 10) (2 # 1) 5 10 7 "R").
  - split.
    + exists (Sample.edge "A" "R"). simpl. auto.
    + intros r Hr _. simpl in Hr. destruct Hr as [<-|[]]. discriminate.
  - left. reflexivity.
Defined.

(** X19 (the children of a node).  In a returned forest every node that has
    children, a root included, lists all the children the admitted
    relationships give its concept and nothing else, in descending order of
    the admitting [p_broader_given_narrower]. *)
Theorem forest_children_are_the_admitted_ones :
  forall (self : CooccurrenceEngine) (min_p_broader min_asymmetry : Q)
         (min_cooc min_count : Z) (recursion_limit : nat)
         (forest : list RootNode) (t : RootNode) (id : string)
         (children : list Child),
    build_hierarchy_tree self min_p_broader min_asymmetry min_cooc min_count
      recursion_limit = Ok forest ->
    In t forest -> In (id, children) (root_families t) ->
    Permutation children
      (admitted_children self min_p_broader min_asymmetry min_cooc min_count id)
    /\ StronglySorted (fun a b => child_p b <= child_p a) children.
Proof.
  intros self mp ma mc mn limit forest t id children H Ht Hf.
  assert (E : children
              = list_sort Qle_bool child_p true
                  (admitted_children self mp ma mc mn id)).
  { rewrite <- children_table. revert H Ht Hf.
    unfold build_hierarchy_tree.
    destruct (collect_roots self _ _) as [roots|]; simpl; [|discriminate].
    intros H Ht Hf.
    destruct (grow_forest_In _ _ _ _ _ H Ht) as [Hne Hsub].
    unfold root_families in Hf. destruct Hf as [E|Hf].
    - injection E as <- <-.
      destruct (build_subtree_children _ _ _ _ _ _ Hsub) as [E|E];
        [congruence | exact E].
    - apply in_flat_map in Hf. destruct Hf as [v [Hv Hfv]].
      exact (build_subtree_families _ _ _ _ _ _ v id children Hsub Hv Hfv). }
  rewrite E. split.
  - apply list_sort_perm.
  - eapply StronglySorted_weaken;
      [|apply (list_sort_sorted Qle_bool child_p true Qle_bool_total
                 Qle_bool_trans)].
    intros a b. unfold before. apply Qle_bool_iff.
Qed.

Lemma forest_children_are_the_admitted_ones_witness :
  let forest :=
    Sample.forest_of
      (build_hierarchy_tree Sample.engine (5 # 10) (2 # 1) 5 10 7) in
  let children :=
    [child_of Sample.astrophysics_astronomy;
     child_of Sample.cosmology_astronomy] in
  build_hierarchy_tree Sample.engine (5 # 10) (2 # 1) 5 10 7 = Ok forest
  /\ In (nth 0 forest Sample.no_tree) forest
  /\ In ("c1"%string, children) (root_families (nth 0 forest Sample.no_tree))
  /\ Permutation children
       (admitted_children Sample.engine (5 # 10) (2 # 1) 5 10 "c1")
  /\ StronglySorted (fun a b => child_p b <= child_p a) children.
Proof.
  intros forest children.
  assert (H : build_hierarchy_tree Sample.engine (5 # 10) (2 # 1) 5 10 7
              = Ok forest) by (vm_compute; reflexivity).
  assert (Ht : In (nth 0 forest Sample.no_tree) forest)
    by (vm_compute; left; reflexivity).
  assert (Hf : In ("c1"%string, children)
                 (root_families (nth 0 forest Sample.no_tree)))
    by (vm_compute; right; left; reflexivity).
  split; [exact H|]. split; [exact Ht|]. split; [exact Hf|].
  exact (forest_children_are_the_admitted_ones Sample.engine (5 # 10)
           (2 # 1) 5 10 7 forest (nth 0 forest Sample.no_tree) "c1" children
           H Ht Hf).
Defined.

(* ------------------------------------------------------------------ *)
(** ** More on loading *)

Module LoaderMore.
Import Loader.

Lemma failed_load_stays_unloaded (fs : FileSystem) (path : string)
    (self : EngineState) :
  loaded self = false -> bad_input fs path ->
  loaded (fst (load_precomputed fs path self)) = false.
Proof.
  intros Hl Hb. rewrite (LoaderFacts.load_unloaded fs path self Hl).
  unfold bad_input in Hb. unfold read.
  destruct (fs path) as [| | |data]; simpl; auto.
  destruct data as [| | | | | |members]; simpl; auto.
  unfold has_required_keys, required_keys, has_key in Hb. cbn [forallb] in Hb.
  unfold dict_item.
  destruct (dict_get members "concept_names"); simpl; auto.
  destruct (dict_get members "concept_counts"); simpl; auto.
  destruct (dict_get members "total_citations"); simpl; auto.
  destruct (dict_get members "relationships"); simpl; auto.
Qed.
End LoaderMore.

(** X20 (a failed load can be tried again).  After a first call that failed
    because the file was missing, unreadable or not valid JSON, or the
    document lacked a required key, a second call is a load again: with a
    document that has the four keys, and values [len] accepts under
    [concept_names] and [relationships], it returns normally and leaves the
    engine loaded with exactly the four values of that document. *)
Theorem failed_load_can_be_retried :
  forall (fs1 fs2 : Loader.FileSystem) (path1 path2 : string)
         (self : Loader.EngineState) (data v1 v2 v3 v4 : Loader.JSON),
    Loader.loaded self = false ->
    Loader.bad_input fs1 path1 ->
    fs2 path2 = Loader.Parsed data ->
    Loader.subscript data "concept_names" = Ok v1 ->
    Loader.subscript data "concept_counts" = Ok v2 ->
    Loader.subscript data "total_citations" = Ok v3 ->
    Loader.subscript data "relationships" = Ok v4 ->
    Loader.sized v1 = true -> Loader.sized v4 = true ->
    Loader.load_precomputed fs2 path2
      (fst (Loader.load_precomputed fs1 path1 self))
    = (Loader.mkState v1 v2 v3 v4 true, Ok tt).
Proof.
  intros fs1 fs2 path1 path2 self data v1 v2 v3 v4 Hl Hb Hfs H1 H2 H3 H4 S1 S4.
  rewrite (LoaderFacts.load_unloaded fs2 path2 _
             (LoaderMore.failed_load_stays_unloaded fs1 path1 self Hl Hb)).
  unfold Loader.read. rewrite Hfs, H1, H2, H3, H4. cbv zeta.
  destruct v1; try discriminate S1; destruct v4; try discriminate S4;
    reflexivity.
Qed.

Lemma failed_load_can_be_retried_witness :
  Loader.load_precomputed Loader.sample_fs "good.json"
    (fst (Loader.load_precomputed Loader.sample_fs "broken.json" Loader.init))
  = (Loader.mkState
       (Loader.JObj [("c1"%string, Loader.JStr "Astronomy")])
       (Loader.JObj [("c1"%string, Loader.JInt 100)])
       (Loader.JInt 1000) (Loader.JArr []) true,
     Ok tt).
Proof.
  apply (failed_load_can_be_retried Loader.sample_fs Loader.sample_fs
           "broken.json" "good.json" Loader.init Loader.good_doc);
    first [reflexivity | exact I].
Defined.

(** X21 (a load that fails midway).  On an engine that has not loaded, a
    document that has [concept_names] but lacks [concept_counts] makes the
    call raise [KeyError] for that key after [concept_names] has been
    assigned: the engine keeps the new names, its other attributes are as
    before, and it is not marked loaded. *)
Theorem load_failing_midway_keeps_first_assignment :
  forall (fs : Loader.FileSystem) (path : string) (self : Loader.EngineState)
         (data v1 : Loader.JSON),
    Loader.loaded self = false ->
    fs path = Loader.Parsed data ->
    Loader.subscript data "concept_names" = Ok v1 ->
    Loader.has_key data "concept_counts" = false ->
    Loader.load_precomputed fs path self
    = (Loader.mkState v1 (Loader.concept_counts self)
         (Loader.total_citations self) (Loader.relationships self) false,
       Raise (KeyError "concept_counts")).
Proof.
  intros fs path self data v1 Hl Hfs H1 Hk.
  rewrite (LoaderFacts.load_unloaded fs path self Hl).
  unfold Loader.read. rewrite Hfs, H1.
  destruct data as [| | | | | |members]; try discriminate H1.
  unfold Loader.has_key in Hk. simpl. unfold dict_item.
  destruct (dict_get members "concept_counts"); [discriminate Hk|].
  unfold Loader.set_concept_names. now rewrite Hl.
Qed.

Lemma load_failing_midway_keeps_first_assignment_witness :
  Loader.load_precomputed
    (fun _ =>
       Loader.Parsed
         (Loader.JObj
            [("concept_names"%string,
              Loader.JObj [("c1"%string, Loader.JStr "Astronomy")])]))
    "names_only.json" Loader.init
  = (Loader.mkState (Loader.JObj [("c1"%string, Loader.JStr "Astronomy")])
       (Loader.JObj []) (Loader.JInt 0) (Loader.JArr []) false,
     Raise (KeyError "concept_counts"))
  /\ fst (Loader.load_precomputed
            (fun _ =>
               Loader.Parsed
                 (Loader.JObj
                    [("concept_names"%string,
                      Loader.JObj [("c1"%string, Loader.JStr "Astronomy")])]))
            "names_only.json" Loader.init)
     <> Loader.init.
Proof.
  assert (H : Loader.load_precomputed
                (fun _ =>
                   Loader.Parsed
                     (Loader.JObj
                        [("concept_names"%string,
                          Loader.JObj
                            [("c1"%string, Loader.JStr "Astronomy")])]))
                "names_only.json" Loader.init
              = (Loader.mkState
                   (Loader.JObj [("c1"%string, Loader.JStr "Astronomy")])
                   (Loader.JObj []) (Loader.JInt 0) (Loader.JArr []) false,
                 Raise (KeyError "concept_counts"))).
  { apply (load_failing_midway_keeps_first_assignment
             (fun _ =>
                Loader.Parsed
                  (Loader.JObj
                     [("concept_names"%string,
                       Loader.JObj [("c1"%string, Loader.JStr "Astronomy")])]))
             "names_only.json" Loader.init
             (Loader.JObj
                [("concept_names"%string,
                  Loader.JObj [("c1"%string, Loader.JStr "Astronomy")])])
             (Loader.JObj [("c1"%string, Loader.JStr "Astronomy")]));
      reflexivity. }
  split; [exact H|]. rewrite H. discriminate.
Defined.

(* ------------------------------------------------------------------ *)
(** ** More on the text export *)

Lemma filter_filter_neq (page : list Relationship) (k k' : string) :
  k' <> k ->
  filter (has_broader_name k') page
  = filter (has_broader_name k')
      (filter (fun r => negb (has_broader_name k r)) page).
Proof.
  intros N. induction page as [|r page IH]; simpl; [reflexivity|].
  destruct (has_broader_name k r) eqn:Ek;
    destruct (has_broader_name k' r) eqn:Ek'; simpl; rewrite ?Ek'.
  - unfold has_broader_name in Ek, Ek'. apply String.eqb_eq in Ek, Ek'.
    congruence.
  - exact IH.
  - now rewrite IH.
  - exact IH.
Qed.

Lemma flat_map_ext_In {A B : Type} (f g : A -> list B) (l : list A) :
  (forall x, In x l -> f x = g x) -> flat_map f l = flat_map g l.
Proof.
  induction l as [|x l IH]; simpl; intros H; [reflexivity|].
  rewrite (H x (or_introl eq_refl)), IH; [reflexivity|].
  intros y Hy. apply H. now right.
Qed.

(** The groups of a page, laid end to end, have as many members as the page
    has relationships. *)
Lemma groups_cover_page (keys : list string) :
  forall page : list Relationship,
    NoDup keys ->
    (forall r, In r page -> In (broader_name r) keys) ->
    List.length (flat_map (fun k => filter (has_broader_name k) page) keys)
    = List.length page.
Proof.
  induction keys as [|k keys IH]; intros page Hnd Hcov; simpl.
  - destruct page as [|r page]; [reflexivity|].
    destruct (Hcov r (or_introl eq_refl)).
  - inversion Hnd as [|? ? Hnin Hnd']; subst.
    rewrite length_app.
    rewrite (flat_map_ext_In
               (fun k' => filter (has_broader_name k') page)
               (fun k' => filter (has_broader_name k')
                            (filter (fun r => negb (has_broader_name k r)) page))
               keys).
    + rewrite (IH _ Hnd').
      * apply filter_length.
      * intros r Hr. apply filter_In in Hr. destruct Hr as [Hr Hk].
        destruct (Hcov r Hr) as [E|H]; [|exact H].
        unfold has_broader_name in Hk. rewrite <- E, String.eqb_refl in Hk.
        discriminate.
    + intros k' Hk'. apply filter_filter_neq. intros ->. contradiction.
Qed.

Lemma flat_map_length_sum {A B C : Type} (f : A -> list B)
    (g : A -> list C) (c : nat) (l : list A) :
  (forall x, List.length (f x) = (c + List.length (g x))%nat) ->
  List.length (flat_map f l)
  = (c * List.length l + List.length (flat_map g l))%nat.
Proof.
  intros H. induction l as [|x l IH]; simpl; [lia|].
  rewrite !length_app, H, IH. lia.
Qed.

(** X22 (size of the export).  The export has five header lines, three
    lines to open and close each block, and one member line for each
    relationship of the exported page: no relationship of the page is left
    out of its block or listed twice. *)
Theorem export_has_one_line_per_relationship :
  forall (str_float : PyFloat -> string) (str_int : Z -> string)
         (self : CooccurrenceEngine) (min_p min_asym : PyFloat)
         (min_cooc min_count : Z),
    let page := fst (export_results self min_p min_asym min_cooc min_count) in
    List.length
      (export_lines str_float str_int self min_p min_asym min_cooc min_count)
    = (5 + 3 * List.length (nodup string_dec (map broader_name page))
       + List.length page)%nat.
Proof.
  intros str_float str_int self min_p min_asym min_cooc min_count page.
  unfold export_lines.
  replace (export_results self min_p min_asym min_cooc min_count)
    with (page, snd (export_results self min_p min_asym min_cooc min_count))
    by (unfold page; now destruct (export_results _ _ _ _ _)).
  destruct (group_results_spec page) as [Hnd [Hget Hkeys]].
  set (groups := group_results page) in *.
  rewrite length_app. simpl List.length at 1.
  rewrite (flat_map_length_sum (block_lines str_float groups)
             (fun k => filter (has_broader_name k) page) 3).
  - assert (Hp : Permutation (sorted_keys groups)
                   (nodup string_dec (map broader_name page))).
    { apply NoDup_Permutation.
      - unfold sorted_keys. eapply Permutation_NoDup; [|exact Hnd].
        symmetry. apply list_sort_perm.
      - apply NoDup_nodup.
      - intros k. unfold sorted_keys.
        rewrite list_sort_In, Hkeys, nodup_In, in_map_iff.
        split; intros [r [H1 H2]]; exists r; tauto. }
    rewrite (Permutation_length Hp).
    assert (Hc : List.length
                   (flat_map (fun k => filter (has_broader_name k) page)
                      (sorted_keys groups)) = List.length page).
    { apply groups_cover_page.
      - unfold sorted_keys. eapply Permutation_NoDup; [|exact Hnd].
        symmetry. apply list_sort_perm.
      - intros r Hr. unfold sorted_keys. rewrite list_sort_In, Hkeys.
        exists r. auto. }
    rewrite Hc. lia.
  - intros k. unfold block_lines, sorted_members.
    cbn [List.length app]. rewrite length_app, length_map, list_sort_length.
    rewrite Hget. simpl. lia.
Qed.

(** X23 (export of nothing).  When no stored relationship passes the
    thresholds, the export is its five header lines, the third reporting a
    total of 0, with no block after them. *)
Theorem export_without_matches_is_the_header :
  forall (str_float : PyFloat -> string) (str_int : Z -> string)
         (self : CooccurrenceEngine) (min_p min_asym : PyFloat)
         (min_cooc min_count : Z),
    (forall r,
        In r (relationships self) ->
        keeps min_count min_cooc min_p min_asym None r = false) ->
    export_lines str_float str_int self min_p min_asym min_cooc min_count
    = header_lines str_float str_int min_p min_asym min_cooc min_count 0.
Proof.
  intros str_float str_int self min_p min_asym min_cooc min_count H.
  assert (E : filter (keeps min_count min_cooc min_p min_asym None)
                (relationships self) = []).
  { induction (relationships self) as [|r l IH]; simpl; [reflexivity|].
    rewrite (H r (or_introl eq_refl)). apply IH.
    intros r' Hr'. apply H. now right. }
  assert (Hs : sorted_results self min_count min_cooc min_p min_asym None
                 "broader_name" false = []).
  { apply Permutation_nil. symmetry. rewrite <- E.
    apply sorted_results_perm. }
  unfold export_lines, export_results, get_filtered_relationships.
  rewrite Hs.
  transitivity
    (header_lines str_float str_int min_p min_asym min_cooc min_count 0 ++ []);
    [reflexivity | apply app_nil_r].
Qed.

Lemma export_without_matches_is_the_header_witness :
  export_lines Sample.show_float Sample.show_int Sample.abc_engine
    (95 # 100) (25 # 10) 5 10
  = header_lines Sample.show_float Sample.show_int (95 # 100) (25 # 10) 5 10 0.
Proof.
  apply (export_without_matches_is_the_header Sample.show_float
           Sample.show_int Sample.abc_engine (95 # 100) (25 # 10) 5 10).
  intros r H. simpl in H. destruct H as [<-|[]]. reflexivity.
Defined.

(* ------------------------------------------------------------------ *)
(** ** The page's [escHtml] *)

Module JsFacts.
Import Js.

Lemma app_assoc (a b c : string) :
  ((a ++ b) ++ c = a ++ (b ++ c))%string.
Proof. induction a as [|x a IH]; simpl; [reflexivity | now rewrite IH]. Qed.

Lemma occurs_app (c : ascii) (a b : string) :
  occurs c (a ++ b) = occurs c a || occurs c b.
Proof.
  induction a as [|x a IH]; simpl; [reflexivity|].
  rewrite IH. apply orb_assoc.
Qed.

(** The five replacements, one after the other, come to replacing each
    character on its own: the [&] that the later ones write is not escaped
    again. *)
Lemma escHtml_cons (x : ascii) (s : string) :
  escHtml (String x s) = (escape_char x ++ escHtml s)%string.
Proof.
  unfold escHtml, escape_char. cbn [replace_all].
  destruct (Ascii.eqb x amp) eqn:E1.
  { apply Ascii.eqb_eq in E1. subst x. reflexivity. }
  cbn [replace_all]. destruct (Ascii.eqb x lt) eqn:E2.
  { apply Ascii.eqb_eq in E2. subst x. reflexivity. }
  cbn [replace_all]. destruct (Ascii.eqb x gt) eqn:E3.
  { apply Ascii.eqb_eq in E3. subst x. reflexivity. }
  cbn [replace_all]. destruct (Ascii.eqb x quot) eqn:E4.
  { apply Ascii.eqb_eq in E4. subst x. reflexivity. }
  cbn [replace_all]. destruct (Ascii.eqb x apos) eqn:E5.
  { apply Ascii.eqb_eq in E5. subst x. reflexivity. }
  reflexivity.
Qed.

Lemma escape_char_clean (x c : ascii) :
  c = lt \/ c = gt \/ c = quot \/ c = apos ->
  occurs c (escape_char x) = false.
Proof.
  unfold escape_char.
  destruct (Ascii.eqb x amp) eqn:E1;
    [intros [->|[->|[->| ->]]]; reflexivity|].
  destruct (Ascii.eqb x lt) eqn:E2;
    [intros [->|[->|[->| ->]]]; reflexivity|].
  destruct (Ascii.eqb x gt) eqn:E3;
    [intros [->|[->|[->| ->]]]; reflexivity|].
  destruct (Ascii.eqb x quot) eqn:E4;
    [intros [->|[->|[->| ->]]]; reflexivity|].
  destruct (Ascii.eqb x apos) eqn:E5;
    [intros [->|[->|[->| ->]]]; reflexivity|].
  intros [->|[->|[->| ->]]]; simpl; rewrite orb_false_r; assumption.
Qed.

Lemma escape_char_prefix (x y : ascii) (u v : string) :
  (escape_char x ++ u = escape_char y ++ v)%string -> x = y /\ u = v.
Proof.
  unfold escape_char.
  destruct (Ascii.eqb_spec x amp) as [->|X1];
  [|destruct (Ascii.eqb_spec x lt) as [->|X2];
  [|destruct (Ascii.eqb_spec x gt) as [->|X3];
  [|destruct (Ascii.eqb_spec x quot) as [->|X4];
  [|destruct (Ascii.eqb_spec x apos) as [->|X5]]]]];
  (destruct (Ascii.eqb_spec y amp) as [->|Y1];
  [|destruct (Ascii.eqb_spec y lt) as [->|Y2];
  [|destruct (Ascii.eqb_spec y gt) as [->|Y3];
  [|destruct (Ascii.eqb_spec y quot) as [->|Y4];
  [|destruct (Ascii.eqb_spec y apos) as [->|Y5]]]]]);
  simpl; intros H; try discriminate H;
  try (injection H as H; subst; auto; fail);
  try (injection H as H1 H2; subst; try contradiction; auto; fail).
  all: try (injection H as H1 H2; exfalso; first [apply Y1 | apply X1];
            first [exact H1 | symmetry; exact H1]).
Qed.
End JsFacts.

(** X24 (no markup character survives).  The result of [escHtml] contains
    none of the characters [<], [>], the double quote and the single
    quote. *)
Theorem escHtml_leaves_no_markup_character :
  forall s : string,
    Js.occurs Js.lt (Js.escHtml s) = false
    /\ Js.occurs Js.gt (Js.escHtml s) = false
    /\ Js.occurs Js.quot (Js.escHtml s) = false
    /\ Js.occurs Js.apos (Js.escHtml s) = false.
Proof.
  assert (H : forall c s,
             c = Js.lt \/ c = Js.gt \/ c = Js.quot \/ c = Js.apos ->
             Js.occurs c (Js.escHtml s) = false).
  { intros c s Hc. induction s as [|x s IH]; [reflexivity|].
    rewrite JsFacts.escHtml_cons, JsFacts.occurs_app, IH.
    now rewrite (JsFacts.escape_char_clean x c Hc). }
  intros s. repeat split; apply H; tauto.
Qed.

(** X25 (escaping piece by piece).  [escHtml] of a concatenation is the
    concatenation of the two results: every character is escaped on its
    own, whatever stands around it. *)
Theorem escHtml_distributes_over_concatenation :
  forall s t : string,
    Js.escHtml (s ++ t) = (Js.escHtml s ++ Js.escHtml t)%string.
Proof.
  intros s t. induction s as [|x s IH]; [reflexivity|].
  change (String x s ++ t)%string with (String x (s ++ t)).
  rewrite !JsFacts.escHtml_cons, IH. symmetry. apply JsFacts.app_assoc.
Qed.

(** X26 (escaping loses nothing).  Two strings with the same [escHtml]
    result are the same string. *)
Theorem escHtml_is_injective :
  forall s t : string, Js.escHtml s = Js.escHtml t -> s = t.
Proof.
  induction s as [|x s IH]; intros [|y t] H.
  - reflexivity.
  - rewrite JsFacts.escHtml_cons in H. exfalso. revert H.
    change (Js.escHtml EmptyString) with EmptyString.
    unfold Js.escape_char.
    repeat match goal with
           | |- context [if ?b then _ else _] => destruct b
           end; discriminate.
  - rewrite JsFacts.escHtml_cons in H. exfalso. revert H.
    change (Js.escHtml EmptyString) with EmptyString.
    unfold Js.escape_char.
    repeat match goal with
           | |- context [if ?b then _ else _] => destruct b
           end; discriminate.
  - rewrite !JsFacts.escHtml_cons in H.
    apply JsFacts.escape_char_prefix in H. destruct H as [-> H].
    f_equal. now apply IH.
Qed.

Lemma escHtml_is_injective_witness :
  Js.escHtml "a<b" = Js.escHtml "a<b" /\ "a<b"%string = "a<b"%string.
Proof.
  split; [reflexivity|].
  apply (escHtml_is_injective "a<b" "a<b"). reflexivity.
Defined.

Example escHtml_of_a_tag :
  Js.escHtml (String Js.lt (String "a" (String Js.gt
                (String Js.amp (String Js.apos (String Js.quot EmptyString))))))
  = "&lt;a&gt;&amp;&#39;&quot;"%string.
Proof. reflexivity. Qed.

(* ------------------------------------------------------------------ *)
(** ** Lists of the neighbourhood that the cap does not cut *)

Lemma slice_to_short {A : Type} (l : list A) (limit : Z) :
  (0 <= limit)%Z ->
  (Z.of_nat (List.length (slice_to l limit)) < limit)%Z ->
  slice_to l limit = l.
Proof.
  intros H0 H. rewrite (slice_to_length l limit H0) in H.
  apply slice_to_all. lia.
Qed.

(** X27 (a list shorter than its cap is complete).  In the answer for a
    resolved concept, a broader list of fewer than 50 entries holds every
    stored relationship that has the concept as its narrower end and meets
    the four thresholds, and a narrower list of fewer than 50 entries holds
    every one that has it as its broader end, not as its narrower end, and
    meets them. *)
Theorem uncut_neighbourhood_lists_are_complete :
  forall (self : CooccurrenceEngine) (min_p_broader min_asymmetry : Q)
         (min_cooc min_count : Z) (concept_name cid cname : string)
         (ccount : Z) (broader narrower symmetric : list Relationship),
    get_concept_tree self min_p_broader min_asymmetry min_cooc min_count
      concept_name
    = Ok (Neighbourhood cid cname ccount broader narrower symmetric) ->
    ((List.length broader < 50)%nat ->
     forall r,
       In r (relationships self) -> narrower_id r = cid ->
       meets_thresholds min_count min_cooc min_p_broader min_asymmetry r ->
       In r broader)
    /\ ((List.length narrower < 50)%nat ->
        forall r,
          In r (relationships self) -> broader_id r = cid ->
          narrower_id r <> cid ->
          meets_thresholds min_count min_cooc min_p_broader min_asymmetry r ->
          In r narrower).
Proof.
  intros self mp ma mc mn q cid cname ccount b n s H.
  apply get_concept_tree_resolved in H. destruct H as [-> [-> _]].
  assert (Hm : forall r, meets_thresholds mn mc mp ma r ->
                         negb (passes_filters mc mn r) = false
                         /\ directional mp ma r = true).
  { intros r [H1 [H2 [H3 H4]]]. unfold passes_filters, directional, Qgeb.
    apply Z.leb_le in H1, H2. apply Qle_bool_iff in H3, H4.
    now rewrite H1, H2, H3, H4. }
  split; intros Hlen r Hin.
  - intros Hid Hmeet. rewrite slice_to_short; [|lia|lia].
    apply list_sort_In, filter_In. split; [exact Hin|].
    unfold in_broader. destruct (Hm r Hmeet) as [-> ->].
    rewrite Hid, String.eqb_refl. reflexivity.
  - intros Hid Hnid Hmeet. rewrite slice_to_short; [|lia|lia].
    apply list_sort_In, filter_In. split; [exact Hin|].
    unfold in_narrower. destruct (Hm r Hmeet) as [-> ->].
    destruct (String.eqb_spec (narrower_id r) cid); [contradiction|].
    rewrite Hid, String.eqb_refl. reflexivity.
Qed.

Lemma uncut_neighbourhood_lists_are_complete_witness :
  let narrower := [Sample.astrophysics_astronomy; Sample.cosmology_astronomy] in
  get_concept_tree Sample.engine (3 # 10) (15 # 10) 3 5 "astronomy"
  = Ok (Neighbourhood "c1" "Astronomy" 100 [Sample.astronomy_physics]
          narrower [])
  /\ (List.length narrower < 50)%nat
  /\ In Sample.cosmology_astronomy narrower.
Proof.
  intros narrower.
  assert (H : get_concept_tree Sample.engine (3 # 10) (15 # 10) 3 5 "astronomy"
              = Ok (Neighbourhood "c1" "Astronomy" 100
                      [Sample.astronomy_physics] narrower []))
    by (vm_compute; reflexivity).
  assert (Hlen : (List.length narrower < 50)%nat) by (simpl; lia).
  split; [exact H|]. split; [exact Hlen|].
  apply (proj2 (uncut_neighbourhood_lists_are_complete Sample.engine
                  (3 # 10) (15 # 10) 3 5 "astronomy" "c1" "Astronomy" 100
                  [Sample.astronomy_physics] narrower [] H) Hlen).
  - simpl. auto.
  - reflexivity.
  - discriminate.
  - unfold meets_thresholds, Qle. simpl. lia.
Defined.
